(** * CP2K parser: unit expressions, input tree and frame correlation

    A shallow embedding of the parts of [electronicparsers/cp2k/parser.py]
    that resolve unit expressions ([resolve_unit]), accumulate the input
    tree ([InpValue.add]) and join the main output with the auxiliary
    per-frame files ([TrajParser.get_trajectory], [CP2KParser.get_trajectory],
    [get_velocities], [get_lattice_vectors], [get_md_output],
    [parse_calculations]).

    Python exceptions are the [Raise] outcomes of [result]; the interpreter's
    recursion limit is a fuel argument.  Strings are ASCII strings: the
    functions below act on code points below 128 as Python does. *)

From Stdlib Require Import ZArith QArith String Ascii List Bool Lia DecimalString.
From stdpp Require Import base option list_monad gmap strings list fin_maps.

Open Scope string_scope.
Open Scope Z_scope.
Open Scope list_scope.

Set Warnings "-register-all".

(** ** Exceptions and results *)

Inductive exn : Set :=
| TypeError
| ValueError
| IndexError
| ZeroDivisionError
| AttributeError
| RecursionError.

Inductive result (A : Type) : Type :=
| Ok (a : A)
| Raise (e : exn).

Arguments Ok {A} a.
Arguments Raise {A} e.

#[global] Instance result_ret : MRet result := fun _ a => Ok a.
#[global] Instance result_bind : MBind result := fun _ _ f m =>
  match m with
  | Ok a => f a
  | Raise e => Raise e
  end.
#[global] Instance result_fmap : FMap result := fun _ _ f m =>
  match m with
  | Ok a => Ok (f a)
  | Raise e => Raise e
  end.

(** ** Python string methods *)

Module PyStr.

Definition is_upper (c : ascii) : bool :=
  let n := nat_of_ascii c in (65 <=? n)%nat && (n <=? 90)%nat.

Definition is_digit (c : ascii) : bool :=
  let n := nat_of_ascii c in (48 <=? n)%nat && (n <=? 57)%nat.

(** [" \t\n\r\x0b\x0c"] and the separators [\x1c] to [\x1f] *)
Definition is_space (c : ascii) : bool :=
  let n := nat_of_ascii c in
  (n =? 32)%nat || ((9 <=? n)%nat && (n <=? 13)%nat)
  || ((28 <=? n)%nat && (n <=? 31)%nat).

Definition lower_char (c : ascii) : ascii :=
  if is_upper c then ascii_of_nat (nat_of_ascii c + 32) else c.

(** [s.lower()] *)
Fixpoint lower (s : string) : string :=
  match s with
  | "" => ""
  | String c s' => String (lower_char c) (lower s')
  end.

Fixpoint drop (n : nat) (s : string) : string :=
  match n, s with
  | O, _ => s
  | S _, "" => ""
  | S n', String _ s' => drop n' s'
  end.

Fixpoint take (n : nat) (s : string) : string :=
  match n, s with
  | O, _ => ""
  | S _, "" => ""
  | S n', String c s' => String c (take n' s')
  end.

Definition len (s : string) : Z := Z.of_nat (String.length s).

(** A slice bound as Python normalises it: negative bounds count from the
    end, and every bound is clamped to [0, len]. *)
Definition slice_bound (s : string) (i : Z) : nat :=
  Z.to_nat (if i <? 0 then Z.max 0 (len s + i) else Z.min i (len s)).

(** [s[i:]] *)
Definition slice_from (s : string) (i : Z) : string := drop (slice_bound s i) s.

(** [s[:k]] *)
Definition slice_to (s : string) (k : Z) : string := take (slice_bound s k) s.

Fixpoint find_at (sub s : string) (i : Z) : Z :=
  if String.prefix sub s then i
  else match s with
       | "" => -1
       | String _ s' => find_at sub s' (i + 1)
       end.

(** [s.find(sub)] *)
Definition find (sub s : string) : Z := find_at sub s 0.

Fixpoint rfind_at (sub s : string) (i : Z) : Z :=
  match s with
  | "" => if String.prefix sub s then i else -1
  | String _ s' =>
      let r := rfind_at sub s' (i + 1) in
      if r <? 0 then (if String.prefix sub s then i else -1) else r
  end.

(** [s.rfind(sub)] *)
Definition rfind (sub s : string) : Z := rfind_at sub s 0.

(** The scans below walk the string once; after a match the next
    [skip] characters belong to that match and are stepped over, so
    matches never overlap. *)
Fixpoint count_at (sub s : string) (skip : nat) : nat :=
  match s with
  | "" => O
  | String _ s' =>
      match skip with
      | S k => count_at sub s' k
      | O => if String.prefix sub s
             then S (count_at sub s' (String.length sub - 1))
             else count_at sub s' 0
      end
  end.

(** [s.count(sub)] *)
Definition count (sub s : string) : nat :=
  match sub with
  | "" => S (String.length s)
  | _ => count_at sub s 0
  end.

Fixpoint split_at (sep s : string) (skip : nat) (cur : string) : list string :=
  match s with
  | "" => [cur]
  | String c s' =>
      match skip with
      | S k => split_at sep s' k cur
      | O => if String.prefix sep s
             then cur :: split_at sep s' (String.length sep - 1) ""
             else split_at sep s' 0 (cur +:+ String c "")
      end
  end.

(** [s.split(sep)] for a non-empty separator (an empty one is a
    [ValueError] in Python; every separator below is a literal). *)
Definition split (sep s : string) : list string := split_at sep s 0 "".

Fixpoint replace_at (old new s : string) (skip : nat) : string :=
  match s with
  | "" => ""
  | String c s' =>
      match skip with
      | S k => replace_at old new s' k
      | O => if String.prefix old s
             then new +:+ replace_at old new s' (String.length old - 1)
             else String c (replace_at old new s' 0)
      end
  end.

Fixpoint interleave (new s : string) : string :=
  match s with
  | "" => new
  | String c s' => new +:+ String c (interleave new s')
  end.

(** [s.replace(old, new)] *)
Definition replace (old new s : string) : string :=
  match old with
  | "" => interleave new s
  | _ => replace_at old new s 0
  end.

Fixpoint lstrip (s : string) : string :=
  match s with
  | "" => ""
  | String c s' => if is_space c then lstrip s' else s
  end.

Fixpoint rstrip (s : string) : string :=
  match s with
  | "" => ""
  | String c s' =>
      match rstrip s' with
      | "" => if is_space c then "" else String c ""
      | r => String c r
      end
  end.

(** [s.strip()] *)
Definition strip (s : string) : string := rstrip (lstrip s).

Fixpoint words_at (s : string) (cur : string) : list string :=
  match s with
  | "" => match cur with "" => [] | _ => [cur] end
  | String c s' =>
      if is_space c
      then match cur with "" => words_at s' "" | _ => cur :: words_at s' "" end
      else words_at s' (cur +:+ String c "")
  end.

(** [s.split()]: the maximal runs of characters that are not blanks *)
Definition words (s : string) : list string := words_at s "".

(** [s.startswith(p)] *)
Definition startswith (p s : string) : bool := String.prefix p s.

Fixpoint span_digits (s : string) : string * string :=
  match s with
  | "" => ("", "")
  | String c s' =>
      if is_digit c
      then let '(ds, tl) := span_digits s' in (String c ds, tl)
      else ("", s)
  end.

Definition digit_val (c : ascii) : N := N.of_nat (nat_of_ascii c - 48).

Fixpoint digits_val (acc : N) (s : string) : N :=
  match s with
  | "" => acc
  | String c s' => digits_val (10 * acc + digit_val c)%N s'
  end.

(** ["%d" % n] *)
Definition of_Z (n : Z) : string := NilZero.string_of_int (Z.to_int n).

End PyStr.

(** ** Values handled by the unit resolver *)

(** [resolve_unit] produces [None], a string, or a number-like object: an
    [int], a [float], or a unit or quantity of the [pint] registry
    [nomad.units.ureg].  The number-like objects and their arithmetic belong
    to the interpreter and to [pint], not to this repository: they are the
    interface [Host]. *)
Inductive value (num : Type) : Type :=
| VNone
| VStr (s : string)
| VNum (x : num).

Arguments VNone {num}.
Arguments VStr {num} s.
Arguments VNum {num} x.

Inductive binop : Set := TrueDiv | Mul | Pow.

(** [num]: ints, floats, [pint] units and quantities *)
Class Host (num : Type) : Type := {
  (** the [int] 1 *)
  int_one : num;
  (** [float(s)]; [None] stands for the [ValueError] of a string that is
      not a float literal *)
  py_float : string -> option num;
  (** [ureg.<name>] *)
  ureg : string -> num;
  (** the value of [ureg.hbar / ureg.hartree], computed when the module is
      loaded *)
  au_t : num;
  (** [a / b], [a * b], [a ** b] on operands other than [None] *)
  host_arith : binop -> value num -> value num -> result (value num);
  au_t_def :
    host_arith TrueDiv (VNum (ureg "hbar")) (VNum (ureg "hartree"))
    = Ok (VNum au_t)
}.

(** No arithmetic operator accepts [None]: neither the built-in numbers and
    strings nor [pint] implement it, and the interpreter raises
    [TypeError]. *)
Definition py_arith {num : Type} `{Host num} (op : binop) (a b : value num)
    : result (value num) :=
  match a, b with
  | VNone, _ | _, VNone => Raise TypeError
  | _, _ => host_arith op a b
  end.

Section Resolver.

Context {num : Type} `{H : Host num}.

#[local] Abbreviation val := (value num).

Definition units_map : list (string * val) :=
  [ ("hbar", VNum (ureg "hbar"));
    ("hartree", VNum (ureg "hartree"));
    ("angstrom", VNum (ureg "angstrom"));
    ("au_t", VNum au_t);
    ("fs", VNum (ureg "femtosecond"));
    ("K", VNum (ureg "kelvin")) ].

(** [d[key]] on a dict written as its list of items *)
Fixpoint dict_get {A} (d : list (string * A)) (key : string) : option A :=
  match d with
  | [] => None
  | (k, v) :: d' => if String.eqb k key then Some v else dict_get d' key
  end.

(** [re.match(r"\[(\d+)\]", s)]: the number between the brackets when [s]
    starts with a bracketed run of digits *)
Definition match_placeholder (s : string) : option N :=
  match s with
  | String "[" rest =>
      match PyStr.span_digits rest with
      | (String d ds, String "]" _) => Some (PyStr.digits_val 0 (String d ds))
      | _ => None
      end
  | _ => None
  end.

(** [for v in vs: val = val <op> v] *)
Fixpoint fold_arith (op : binop) (acc : val) (vs : list val) : result val :=
  match vs with
  | [] => Ok acc
  | v :: vs' => acc' ← py_arith op acc v; fold_arith op acc' vs'
  end.

(** The body of [for n in range(n_groups)], run for the indices [ns]. *)
Fixpoint resolve_groups (rec : string -> list val -> result val)
    (ns : list nat) (unit_str : string) (open_p : Z) (parts : list val)
    : result (string * list val) :=
  match ns with
  | [] => Ok (unit_str, parts)
  | n :: ns' =>
      let part := PyStr.slice_from unit_str (open_p + 1) in
      let part := PyStr.slice_to part (PyStr.find ")" part) in
      v ← rec part parts;
      let parts := (parts ++ [v])%list in
      let unit_str :=
        PyStr.replace ("(" +:+ part +:+ ")")
                      ("[" +:+ PyStr.of_Z (Z.of_nat n) +:+ "]") unit_str in
      let open_p := PyStr.rfind "(" unit_str in
      resolve_groups rec ns' unit_str open_p parts
  end.

(** One activation of [resolve_unit]; [rec] is the function itself, one
    level deeper. *)
Definition resolve_unit_body (rec : string -> list val -> result val)
    (unit_str : string) (parts : list val) : result val :=
  let unit_str := PyStr.replace " " "" (PyStr.lower unit_str) in
  match dict_get units_map unit_str with
  | Some u => Ok u
  | None =>
  match py_float unit_str with
  | Some x => Ok (VNum x)
  | None =>
  if String.eqb unit_str "" then Ok (VNum int_one) else
  let open_p := PyStr.rfind "(" unit_str in
  if -1 <? open_p then
    let n_groups := PyStr.count "(" unit_str in
    if negb (n_groups =? PyStr.count ")" unit_str)%nat then Ok (VStr unit_str)
    else
      '(unit_str, parts) ← resolve_groups rec (seq 0 n_groups) unit_str open_p parts;
      rec unit_str parts
  else
  let vals := PyStr.split "/" unit_str in
  if (1 <? length vals)%nat then
    vals ← mapM (fun v => rec v parts) vals;
    match vals with
    | [] => Raise IndexError
    | v0 :: vs => fold_arith TrueDiv v0 vs
    end
  else
  let vals := PyStr.split "**" unit_str in
  if (1 <? length vals)%nat then
    vals ← mapM (fun v => rec v parts) vals;
    match vals with
    | [] => Raise IndexError
    | v0 :: vs => fold_arith Pow v0 (rev vs)
    end
  else
  let vals := PyStr.split "^" unit_str in
  if (1 <? length vals)%nat then
    vals ← mapM (fun v => rec v parts) vals;
    match vals with
    | [] => Raise IndexError
    | v0 :: vs => fold_arith Pow v0 (rev vs)
    end
  else
  let vals := PyStr.split "*" unit_str in
  if (1 <? length vals)%nat then
    vals ← mapM (fun v => rec v parts) vals;
    fold_arith Mul (VNum int_one) vals
  else
  let vals := PyStr.split "-1" unit_str in
  if (length vals =? 2)%nat then
    v ← rec (nth 0 vals "") parts;
    py_arith TrueDiv (VNum int_one) v
  else
  match match_placeholder unit_str with
  | Some i =>
      match parts !! N.to_nat i with
      | Some v => Ok v
      | None => Raise IndexError
      end
  | None => Ok VNone
  end
  end
  end.

(** [resolve_unit(unit_str, parts)].  [fuel] bounds the depth of nested
    calls as the interpreter's recursion limit does; a call that would go
    deeper raises [RecursionError]. *)
Fixpoint resolve_unit (fuel : nat) (unit_str : string) (parts : list val)
    : result val :=
  match fuel with
  | O => Raise RecursionError
  | S fuel' => resolve_unit_body (resolve_unit fuel') unit_str parts
  end.

End Resolver.

(** ** A host for running the resolver

    [exact_host] evaluates the arithmetic on exact numbers: an [int] is an
    integer, a [float] a rational (no rounding, overflow, infinities or
    NaN), a [pint] unit the exponents of its unit symbols and a quantity a
    magnitude with a unit.  [float] reads plain decimal literals, and a power
    is evaluated for a whole exponent; operations outside that fragment are
    answered with [TypeError].  The host serves to run the resolver on
    concrete strings; the general statements further down hold for every
    host. *)

Module ExactHost.

(** Exponents of unit symbols, kept sorted by symbol and free of zeros, as
    the registry compares units: by their symbols and exponents. *)
Definition dims : Type := list (string * Q).

Inductive xnum : Type :=
| XInt (n : Z)
| XFloat (x : Q)
| XUnit (u : dims)
| XQuantity (m : Q) (u : dims).

Definition qzero (q : Q) : bool := (Qnum q =? 0)%Z.

Fixpoint dims_insert (k : string) (e : Q) (d : dims) : dims :=
  match d with
  | [] => if qzero e then [] else [(k, Qred e)]
  | (k', e') :: d' =>
      match String.compare k k' with
      | Lt => if qzero e then d else (k, Qred e) :: d
      | Eq => let s := Qred (e + e') in if qzero s then d' else (k, s) :: d'
      | Gt => (k', e') :: dims_insert k e d'
      end
  end.

Definition dims_mul (a b : dims) : dims :=
  fold_right (fun '(k, e) acc => dims_insert k e acc) a b.

Definition dims_scale (c : Q) (a : dims) : dims :=
  fold_right (fun '(k, e) acc => dims_insert k (c * e) acc) [] a.

Definition dims_div (a b : dims) : dims := dims_mul a (dims_scale (-1) b).

Definition is_whole (q : Q) : bool := (Zpos (Qden (Qred q)) =? 1)%Z.

Definition whole (q : Q) : Z := Qnum (Qred q).

(** Every number-like object as a magnitude with a unit. *)
Definition as_quantity (x : xnum) : Q * dims :=
  match x with
  | XInt n => (inject_Z n, [])
  | XFloat q => (q, [])
  | XUnit u => (1%Q, u)
  | XQuantity m u => (m, u)
  end.

Definition is_scalar (x : xnum) : bool :=
  match x with
  | XInt _ | XFloat _ => true
  | _ => false
  end.

Definition x_mul (a b : xnum) : result xnum :=
  match a, b with
  | XInt m, XInt n => Ok (XInt (m * n))
  | XUnit u, XUnit v => Ok (XUnit (dims_mul u v))
  | _, _ =>
      let '(m1, u1) := as_quantity a in
      let '(m2, u2) := as_quantity b in
      if is_scalar a && is_scalar b then Ok (XFloat (Qred (m1 * m2)))
      else Ok (XQuantity (Qred (m1 * m2)) (dims_mul u1 u2))
  end.

Definition x_truediv (a b : xnum) : result xnum :=
  match a, b with
  | XUnit u, XUnit v => Ok (XUnit (dims_div u v))
  | _, _ =>
      let '(m1, u1) := as_quantity a in
      let '(m2, u2) := as_quantity b in
      if qzero m2 then Raise ZeroDivisionError
      else if is_scalar a && is_scalar b then Ok (XFloat (Qred (m1 / m2)))
      else Ok (XQuantity (Qred (m1 / m2)) (dims_div u1 u2))
  end.

Definition x_pow (a b : xnum) : result xnum :=
  if negb (is_scalar b) then Raise TypeError else
  let e := fst (as_quantity b) in
  match a, b with
  | XUnit u, _ => Ok (XUnit (dims_scale e u))
  | XInt m, XInt n =>
      if (0 <=? n)%Z then Ok (XInt (m ^ n))
      else if (m =? 0)%Z then Raise ZeroDivisionError
      else Ok (XFloat (Qred (Qpower (inject_Z m) n)))
  | _, _ =>
      let '(m1, u1) := as_quantity a in
      if negb (is_whole e) then Raise TypeError
      else if qzero m1 && (whole e <? 0)%Z then Raise ZeroDivisionError
      else if is_scalar a then Ok (XFloat (Qred (Qpower m1 (whole e))))
      else Ok (XQuantity (Qred (Qpower m1 (whole e))) (dims_scale e u1))
  end.

Fixpoint repeat_str (s : string) (n : nat) : string :=
  match n with
  | O => ""
  | S n' => s +:+ repeat_str s n'
  end.

Definition x_arith (op : binop) (a b : value xnum) : result (value xnum) :=
  match a, b with
  | VNum x, VNum y =>
      VNum <$> match op with
               | TrueDiv => x_truediv x y
               | Mul => x_mul x y
               | Pow => x_pow x y
               end
  | VStr s, VNum (XInt n) | VNum (XInt n), VStr s =>
      match op with
      | Mul => Ok (VStr (repeat_str s (Z.to_nat n)))
      | _ => Raise TypeError
      end
  | _, _ => Raise TypeError
  end.

Definition sign_of (s : string) : bool * string :=
  match s with
  | String "-" r => (true, r)
  | String "+" r => (false, r)
  | _ => (false, s)
  end.

Definition signed (neg : bool) (n : Z) : Z := if neg then (- n)%Z else n.

(** The exponent part of a literal: empty, or [e] and a signed integer. *)
Definition exponent_of (s : string) : option Z :=
  match s with
  | "" => Some 0%Z
  | String c r =>
      if (Ascii.eqb c "e" || Ascii.eqb c "E")%bool then
        let '(neg, r) := sign_of r in
        match PyStr.span_digits r with
        | (String d ds, "") =>
            Some (signed neg (Z.of_N (PyStr.digits_val 0 (String d ds))))
        | _ => None
        end
      else None
  end.

(** [float(s)] on a decimal literal: sign, digits, fraction, exponent. *)
Definition x_float (s : string) : option xnum :=
  let '(neg, s) := sign_of s in
  let '(ip, s) := PyStr.span_digits s in
  let '(fp, s) :=
    match s with
    | String "." r => PyStr.span_digits r
    | _ => ("", s)
    end in
  if (String.eqb ip "" && String.eqb fp "")%bool then None else
  match exponent_of s with
  | None => None
  | Some e =>
      let mant := Z.of_N (PyStr.digits_val 0 (ip +:+ fp)) in
      let scale := (e - PyStr.len fp)%Z in
      Some (XFloat (Qred (inject_Z (signed neg mant) * Qpower 10 scale)))
  end.

Definition x_ureg (name : string) : xnum := XUnit [(name, 1%Q)].

Definition x_au_t : xnum := XUnit (dims_div [("hbar", 1%Q)] [("hartree", 1%Q)]).

End ExactHost.

#[global] Instance exact_host : Host ExactHost.xnum := {|
  int_one := ExactHost.XInt 1;
  py_float := ExactHost.x_float;
  ureg := ExactHost.x_ureg;
  au_t := ExactHost.x_au_t;
  host_arith := ExactHost.x_arith;
  au_t_def := eq_refl
|}.

(** The interpreter's default recursion limit. *)
Definition recursion_limit : nat := 1000.

(** [unit_str.lower().replace(" ", "")], the first line of [resolve_unit] *)
Definition normalized (s : string) : string := PyStr.replace " " "" (PyStr.lower s).

(** [c in s] for a character *)
Fixpoint occurs (c : ascii) (s : string) : bool :=
  match s with
  | "" => false
  | String a s' => Ascii.eqb a c || occurs c s'
  end.

(** A single token: not empty and free of the characters the resolver
    gives a meaning to. *)
Definition plain_token (u : string) : bool :=
  negb (String.eqb u "")
  && negb (occurs "(" u) && negb (occurs "/" u) && negb (occurs "*" u)
  && negb (occurs "^" u) && negb (occurs "-" u) && negb (occurs "[" u).


(** ** The input tree: [InpValue] *)

Module InpValue.

(** What a node stores under a key: a keyword value, a nested section
    (another [InpValue], by reference), or the list that repeated keys
    build up. *)
Inductive item : Type :=
| Keyword (s : string)
| SectionRef (id : nat)
| Items (l : list item).

(** [isinstance(v, list)] *)
Definition is_list (v : item) : bool :=
  match v with
  | Items _ => true
  | _ => false
  end.

(** [InpValue.add(key, val)] on the node's [_data] *)
Definition add (key : string) (val : item) (_data : gmap string item)
    : gmap string item :=
  match _data !! key with
  | Some old =>
      let l := match old with
               | Items l => l
               | _ => [old]
               end in
      <[key := Items (l ++ [val])%list]> _data
  | None => <[key := val]> _data
  end.

(** A run of [add] calls, in order. *)
Definition add_all (kvs : list (string * item)) (_data : gmap string item)
    : gmap string item :=
  fold_left (fun d '(k, v) => add k v d) kvs _data.

(** The values given for [key] in a run of calls, in order. *)
Fixpoint values_for (key : string) (kvs : list (string * item)) : list item :=
  match kvs with
  | [] => []
  | (k, v) :: kvs' =>
      if String.eqb k key then v :: values_for key kvs' else values_for key kvs'
  end.

(** What the node holds for a key that received the values [vs]. *)
Definition collected (vs : list item) : option item :=
  match vs with
  | [] => None
  | [v] => Some v
  | _ => Some (Items vs)
  end.

End InpValue.

(** ** More of the interpreter: [int], indexing, paths *)

Module Py.

(** The digits of an [int] literal, underscores allowed between digits. *)
Fixpoint int_digits (s : string) (after_digit : bool) (acc : N) : option N :=
  match s with
  | "" => if after_digit then Some acc else None
  | String c s' =>
      if PyStr.is_digit c then int_digits s' true (10 * acc + PyStr.digit_val c)%N
      else if (Ascii.eqb c "_" && after_digit)%bool then int_digits s' false acc
      else None
  end.

(** [int(s)]; [None] stands for [ValueError] *)
Definition to_int (s : string) : option Z :=
  match PyStr.strip s with
  | String "-" r => (fun n => - Z.of_N n) <$> int_digits r false 0
  | String "+" r => Z.of_N <$> int_digits r false 0
  | r => Z.of_N <$> int_digits r false 0
  end.

(** [l[i]]: a negative index counts from the end *)
Definition getitem {A} (l : list A) (i : Z) : result A :=
  let j := if i <? 0 then Z.of_nat (length l) + i else i in
  if j <? 0 then Raise IndexError
  else match l !! Z.to_nat j with
       | Some x => Ok x
       | None => Raise IndexError
       end.

(** [l.index(x)] *)
Fixpoint index_of {A} (eqb : A -> A -> bool) (x : A) (l : list A) : result Z :=
  match l with
  | [] => Raise ValueError
  | y :: l' => if eqb y x then Ok 0 else Z.succ <$> index_of eqb x l'
  end.

(** [a // b] *)
Definition floordiv (a b : Z) : result Z :=
  if b =? 0 then Raise ZeroDivisionError else Ok (a / b).

(** [a % b] *)
Definition modulo (a b : Z) : result Z :=
  if b =? 0 then Raise ZeroDivisionError else Ok (a mod b).

Fixpoint ends_with_slash (s : string) : bool :=
  match s with
  | "" => false
  | String c "" => Ascii.eqb c "/"
  | String _ s' => ends_with_slash s'
  end.

(** [os.path.join(a, b)] *)
Definition path_join (a b : string) : string :=
  if PyStr.startswith "/" b then b
  else if (String.eqb a "" || ends_with_slash a)%bool then a +:+ b
  else a +:+ "/" +:+ b.

(** [str(x)] for a string that may be [None] *)
Definition str_of (o : option string) : string := default "None" o.

(** [needle in s] for strings *)
Definition contains (needle s : string) : bool := 0 <=? PyStr.find needle s.

End Py.

(** ** The auxiliary parsers *)

(** The state and the effects of the methods: an exception leaves the
    assignments made before it in place. *)
Definition M (S X : Type) : Type := S -> result X * S.

#[global] Instance M_ret {S} : MRet (M S) := fun _ x s => (Ok x, s).
#[global] Instance M_bind {S} : MBind (M S) := fun _ _ f m s =>
  match m s with
  | (Ok x, s') => f x s'
  | (Raise e, s') => (Raise e, s')
  end.

Definition lift {S X} (r : result X) : M S X := fun s => (r, s).
Definition raise {S X} (e : exn) : M S X := fun s => (Raise e, s).
Definition gets {S X} (f : S -> X) : M S X := fun s => (Ok (f s), s).
Definition modify {S} (f : S -> S) : M S unit := fun s => (Ok tt, f s).

(** How a block of a method ends: with a [return], or by falling through
    to the statement after it. *)
Inductive flow (X : Type) : Type :=
| Returned (x : X)
| Fallthrough.

Arguments Returned {X} x.
Arguments Fallthrough {X}.


(** ** [parse_calculations] *)

(** The argument of [parse_system]: a frame number, or the coordinates
    printed in the output (which may be missing). *)
Inductive system_arg (AtomicCoord : Type) : Type :=
| ByFrame (frame : Z)
| ByCoordinates (atomic_coord : option AtomicCoord).

Arguments ByFrame {AtomicCoord} frame.
Arguments ByCoordinates {AtomicCoord} atomic_coord.

Section Calculations.

(** The archive with the parsers behind it, and the objects passed around:
    an SCF block, a calculation of the output, the atomic coordinates of
    the output, a calculation section and a system section. *)
Context {World Scf Calc AtomicCoord Scc Sys : Type}.

(** What [parse_calculations] asks of the rest of the parser. *)
Record Methods : Type := {
  (** [calculation.get("self_consistent", [])], as a list *)
  self_consistent_of : Calc -> list Scf;
  (** [calculation.get("step")] *)
  step_of : Calc -> option Z;
  (** [quickstep.get("atomic_coordinates")] *)
  atomic_coordinates : option AtomicCoord;
  (** [self.sampling_method == "molecular_dynamics"] *)
  md : bool;
  (** [self.parse_scc(scf)] with [scf._frame = frame] *)
  on_parse_scc : Scf + Calc -> Z -> M World Scc;
  (** [parse_md_step(calculation)] with [calculation._frame = frame] *)
  on_parse_md_step : Calc -> Z -> M World unit;
  on_parse_system : system_arg AtomicCoord -> M World (option Sys);
  (** [sec_scc.system_ref = sec_system] *)
  on_set_system_ref : Scc -> Sys -> M World unit;
  (** [if self.archive.run[-1].method: sec_scc.method_ref = ...] *)
  on_set_method_ref : Scc -> M World unit
}.

Context (methods : Methods).

(** The calls of [parse_system] and the warnings of the logger, in the
    order in which they happen. *)
Inductive event : Type :=
| Lookup (arg : system_arg AtomicCoord)
| Warning (frame : Z).

Record Run : Type := {
  world : World;
  events : list event
}.

Definition in_world {X} (m : M World X) : M Run X := fun r =>
  let '(x, w) := m (world r) in (x, {| world := w; events := events r |}).

Definition emit (e : event) : M Run unit :=
  modify (fun r => {| world := world r; events := events r ++ [e] |}).

Definition call_parse_system (arg : system_arg AtomicCoord) : M Run (option Sys) :=
  emit (Lookup arg);; in_world (on_parse_system methods arg).

(** The body of the loop for the [n]-th of [total] calculations. *)
Definition parse_calculation (total n : nat) (calculation : Calc) : M Run unit :=
  let self_consistent := self_consistent_of methods calculation in
  let scf : Scf + Calc :=
    match last self_consistent with
    | Some s => inl s
    | None => inr calculation
    end in
  let frame := from_option id (Z.of_nat n) (step_of methods calculation) in
  sec_scc ← in_world (on_parse_scc methods scf frame);
  (if md methods then in_world (on_parse_md_step methods calculation frame)
   else mret tt);;
  sec_system ←
    (if frame =? 0 then
       call_parse_system (ByCoordinates (atomic_coordinates methods))
     else
       sec_system ← call_parse_system (ByFrame frame);
       if (bool_decide (sec_system = None :> option Sys)
           && (Z.of_nat n =? Z.of_nat total - 1))%bool
       then emit (Warning frame);; call_parse_system (ByFrame (frame + 1))
       else mret sec_system);
  match sec_system with
  | Some s => in_world (on_set_system_ref methods sec_scc s)
  | None => mret tt
  end;;
  in_world (on_set_method_ref methods sec_scc).

(** [for n, calculation in enumerate(calculations)], from index [n] on *)
Fixpoint parse_calculations_from (total n : nat) (calculations : list (option Calc))
    : M Run unit :=
  match calculations with
  | [] => mret tt
  | calculation :: rest =>
      match calculation with
      | None => mret tt
      | Some c => parse_calculation total n c
      end;;
      parse_calculations_from total (S n) rest
  end.

Definition parse_calculations (calculations : list (option Calc)) : M Run unit :=
  parse_calculations_from (length calculations) 0 calculations.

End Calculations.
Section Correlator.

Context {num : Type} `{H : Host num}.

(** Objects built by the libraries behind the parser (numpy, ase, nomad):
    a trajectory record, the inline coordinates and the cell of the input
    file, the lattice of the output, lattice vectors, a row of a data file,
    and the record made of a row of the energy file. *)
Context {Frame Coord Cell RawLattice Lattice Row MdRecord : Type}.

(** [TrajParser]: the path assigned to [mainfile], [units], [_frequency] *)
Record TrajParser : Type := {
  tp_mainfile : option string;
  tp_units : value num;
  tp_frequency : Z
}.

(** [DataTextParser] with the attributes the correlator adds to it; an
    attribute that was never assigned reads as [None]. *)
Record DataTextParser : Type := {
  dp_mainfile : option string;
  dp_units : option (value num);
  dp_frequency : option Z;
  dp_step : option (list Row)
}.

(** One [md_step] of the output. *)
Record MdStep : Type := {
  ms_ensemble_type : option string;
  ms_step : option Z
}.

(** What the correlator reads from its surroundings. *)
Record Env : Type := {
  (** [os.path.isfile] *)
  isfile : string -> bool;
  (** the property [TrajParser.trajectory] together with the recorded
      iterations [TrajParser.iter]: the records of the file in order, or
      [None] when nothing could be read *)
  trajectory_prop : TrajParser -> result (option (list Frame) * list Z);
  (** [Trajectory(labels=..., positions=...)] from the inline coordinates *)
  inline_trajectory : Coord -> value num -> bool -> result Frame;
  (** the property [DataTextParser.data] *)
  data_prop : DataTextParser -> option (list Row);
  (** [d[0] == frame] for a row [d] *)
  row_is_step : Row -> Z -> bool;
  (** the [dict(step=..., time=..., ...)] made of a row *)
  md_record : Row -> result MdRecord;
  (** lattice vectors from the output, from the cell of the input, and from
      a row of the cell file, each times a unit *)
  lattice_of_out : RawLattice -> value num -> result Lattice;
  lattice_of_cell : Cell -> value num -> result (option Lattice);
  lattice_of_row : Row -> value num -> result Lattice
}.

Context (env : Env).

(** The getter [FileParser.mainfile]: the assigned path, and [None] as
    long as there is no such file. *)
Definition mainfile (assigned : option string) : option string :=
  match assigned with
  | Some f => if isfile env f then Some f else None
  | None => None
  end.

(** [TrajParser.get_trajectory(frame)] *)
Definition TrajParser_get_trajectory (self : TrajParser) (frame : Z)
    : result Frame :=
  '(trajectory, iter) ← trajectory_prop env self;
  match iter with
  | _ :: _ =>
      i ← Py.index_of Z.eqb frame iter;
      match trajectory with
      | Some records => Py.getitem records i
      | None => Raise TypeError
      end
  | [] =>
      i ← Py.floordiv frame (tp_frequency self);
      match trajectory with
      | Some records => Py.getitem records i
      | None => Raise TypeError
      end
  end.

(** A system section of the archive: the trajectory record it is made
    of, and the lattice vectors and velocities once they are set. *)
Record System : Type := {
  sys_trajectory : Frame;
  sys_lattice_vectors : option Lattice;
  sys_velocities : option Frame
}.

(** ** [CP2KParser] *)

Record CP2KParser : Type := {
  maindir : string;
  (** keyword values of the input file, by path *)
  inp : gmap string string;
  (** [FORCE_EVAL/SUBSYS/COORD/DEFAULT_KEYWORD] and [FORCE_EVAL/SUBSYS/CELL] *)
  inp_coord : option Coord;
  inp_cell : option Cell;
  (** of the output: [lattice_vectors], and the sections [single_point],
      [geometry_optimization], [molecular_dynamics] with its [md_step] *)
  out_lattice_vectors : option RawLattice;
  out_single_point : bool;
  out_geometry_optimization : bool;
  out_molecular_dynamics : option (option (list MdStep));
  (** [settings["md"]] *)
  settings_md : gmap string string;
  _step_start : Z;
  traj_parser : TrajParser;
  velocities_parser : TrajParser;
  cell_parser : DataTextParser;
  energy_parser : DataTextParser;
  (** the messages given to [logger.error] *)
  logger : list string;
  (** [self.archive.run[-1].system] *)
  systems : list System
}.

Definition set_traj_parser (p : TrajParser) (self : CP2KParser) : CP2KParser :=
  {| maindir := maindir self; inp := inp self; inp_coord := inp_coord self;
     inp_cell := inp_cell self;
     out_lattice_vectors := out_lattice_vectors self;
     out_single_point := out_single_point self;
     out_geometry_optimization := out_geometry_optimization self;
     out_molecular_dynamics := out_molecular_dynamics self;
     settings_md := settings_md self; _step_start := _step_start self;
     traj_parser := p; velocities_parser := velocities_parser self;
     cell_parser := cell_parser self; energy_parser := energy_parser self;
     logger := logger self; systems := systems self |}.

Definition set_velocities_parser (p : TrajParser) (self : CP2KParser)
    : CP2KParser :=
  {| maindir := maindir self; inp := inp self; inp_coord := inp_coord self;
     inp_cell := inp_cell self;
     out_lattice_vectors := out_lattice_vectors self;
     out_single_point := out_single_point self;
     out_geometry_optimization := out_geometry_optimization self;
     out_molecular_dynamics := out_molecular_dynamics self;
     settings_md := settings_md self; _step_start := _step_start self;
     traj_parser := traj_parser self; velocities_parser := p;
     cell_parser := cell_parser self; energy_parser := energy_parser self;
     logger := logger self; systems := systems self |}.

Definition set_cell_parser (p : DataTextParser) (self : CP2KParser)
    : CP2KParser :=
  {| maindir := maindir self; inp := inp self; inp_coord := inp_coord self;
     inp_cell := inp_cell self;
     out_lattice_vectors := out_lattice_vectors self;
     out_single_point := out_single_point self;
     out_geometry_optimization := out_geometry_optimization self;
     out_molecular_dynamics := out_molecular_dynamics self;
     settings_md := settings_md self; _step_start := _step_start self;
     traj_parser := traj_parser self;
     velocities_parser := velocities_parser self;
     cell_parser := p; energy_parser := energy_parser self;
     logger := logger self; systems := systems self |}.

Definition set_energy_parser (p : DataTextParser) (self : CP2KParser)
    : CP2KParser :=
  {| maindir := maindir self; inp := inp self; inp_coord := inp_coord self;
     inp_cell := inp_cell self;
     out_lattice_vectors := out_lattice_vectors self;
     out_single_point := out_single_point self;
     out_geometry_optimization := out_geometry_optimization self;
     out_molecular_dynamics := out_molecular_dynamics self;
     settings_md := settings_md self; _step_start := _step_start self;
     traj_parser := traj_parser self;
     velocities_parser := velocities_parser self;
     cell_parser := cell_parser self; energy_parser := p;
     logger := logger self; systems := systems self |}.

(** [self.logger.error(msg)] *)
Definition log_error (msg : string) (self : CP2KParser) : CP2KParser :=
  {| maindir := maindir self; inp := inp self; inp_coord := inp_coord self;
     inp_cell := inp_cell self;
     out_lattice_vectors := out_lattice_vectors self;
     out_single_point := out_single_point self;
     out_geometry_optimization := out_geometry_optimization self;
     out_molecular_dynamics := out_molecular_dynamics self;
     settings_md := settings_md self; _step_start := _step_start self;
     traj_parser := traj_parser self;
     velocities_parser := velocities_parser self;
     cell_parser := cell_parser self; energy_parser := energy_parser self;
     logger := logger self ++ [msg]; systems := systems self |}.

#[local] Abbreviation Mc := (M CP2KParser).

(** [self.inp_parser.get(path, default)] *)
Definition inp_get (self : CP2KParser) (path default : string) : string :=
  from_option id default (inp self !! path).

(** The property [sampling_method]: the last of the three sections that
    the output has. *)
Definition sampling_method (self : CP2KParser) : option string :=
  fold_left
    (fun _method '(method, present) =>
       if present : bool then Some method else _method)
    [ ("single_point", out_single_point self);
      ("geometry_optimization", out_geometry_optimization self);
      ("molecular_dynamics",
       bool_decide (is_Some (out_molecular_dynamics self))) ]
    None.

Definition is_md (self : CP2KParser) : bool :=
  match sampling_method self with
  | Some m => String.eqb m "molecular_dynamics"
  | None => false
  end.

(** [get_ensemble_type(frame)]; the result [None] is Python's.  (With the
    sampling method being molecular dynamics the output has its section,
    so the guard [if not calculation] does not fire.) *)
Definition get_ensemble_type (self : CP2KParser) (frame : Z)
    : result (option string) :=
  if negb (is_md self) then Ok None
  else if frame =? 0 then
    Ok (Some (from_option id "" (settings_md self !! "ensemble_type")))
  else
    match out_molecular_dynamics self with
    | Some (Some md_step) =>
        step ← Py.getitem md_step (frame - 1);
        Ok (Some (from_option id "" (ms_ensemble_type step)))
    | _ => Raise TypeError
    end.

(** [x == "REFTRAJ"] for a string or [None] *)
Definition is_reftraj (x : option string) : bool :=
  match x with
  | Some s => String.eqb s "REFTRAJ"
  | None => false
  end.

(** [frequency, filename = settings["md"].get(key, default).split()] and
    [frequency = int(frequency)] *)
Definition print_setting (self : CP2KParser) (key default : string)
    : result (Z * string) :=
  match PyStr.words (from_option id default (settings_md self !! key)) with
  | [frequency; filename] =>
      match Py.to_int frequency with
      | Some frequency => Ok (frequency, filename)
      | None => Raise ValueError
      end
  | _ => Raise ValueError
  end.

(** [_normalize_filename(filename)]; the result is [None] when there is
    neither a file name nor a project name. *)
Definition _normalize_filename (self : CP2KParser) (filename : string)
    : option string :=
  if PyStr.startswith "=" filename then Some (PyStr.slice_from filename 1)
  else
    match filename with
    | String c (String "/" _) =>
        if Ascii.eqb c "010" then
          (* a newline is not matched by the dot of [re.match(r"./")] *)
          Some (Py.str_of (inp self !! "GLOBAL/PROJECT_NAME")
                +:+ "-" +:+ filename)
        else Some filename
    | "" => inp self !! "GLOBAL/PROJECT_NAME"
    | _ =>
        Some (Py.str_of (inp self !! "GLOBAL/PROJECT_NAME")
              +:+ "-" +:+ filename)
    end.

Definition _file_extension_map : list (string * string) :=
  [ ("XYZ", "xyz"); ("XMOL", "xyz"); ("ATOMIC", "xyz");
    ("PDB", "pdb"); ("DCD", "dcd") ].

Definition assign_traj_mainfile (f : option string) (self : CP2KParser) :=
  set_traj_parser
    {| tp_mainfile := f; tp_units := tp_units (traj_parser self);
       tp_frequency := tp_frequency (traj_parser self) |} self.

Definition assign_traj_units (u : value num) (self : CP2KParser) :=
  set_traj_parser
    {| tp_mainfile := tp_mainfile (traj_parser self); tp_units := u;
       tp_frequency := tp_frequency (traj_parser self) |} self.

Definition assign_traj_frequency (n : Z) (self : CP2KParser) :=
  set_traj_parser
    {| tp_mainfile := tp_mainfile (traj_parser self);
       tp_units := tp_units (traj_parser self); tp_frequency := n |} self.

Definition assign_vel_mainfile (f : option string) (self : CP2KParser) :=
  set_velocities_parser
    {| tp_mainfile := f; tp_units := tp_units (velocities_parser self);
       tp_frequency := tp_frequency (velocities_parser self) |} self.

Definition assign_vel_units (u : value num) (self : CP2KParser) :=
  set_velocities_parser
    {| tp_mainfile := tp_mainfile (velocities_parser self); tp_units := u;
       tp_frequency := tp_frequency (velocities_parser self) |} self.

Definition assign_vel_frequency (n : Z) (self : CP2KParser) :=
  set_velocities_parser
    {| tp_mainfile := tp_mainfile (velocities_parser self);
       tp_units := tp_units (velocities_parser self); tp_frequency := n |} self.

(** *** [get_velocities] *)

(** The block under [if self.velocities_parser.mainfile is None] *)
Definition configure_velocities : Mc unit :=
  self ← gets id;
  '(frequency, filename) ← lift (print_setting self "velocities" "0 none");
  let '(frequency, filename) :=
    if frequency =? 0
    then (1, Py.str_of (inp self !! "GLOBAL/PROJECT_NAME") +:+ "-vel-1.xyz")
    else (frequency, filename) in
  modify (assign_vel_mainfile (Some (Py.path_join (maindir self) filename)));;
  units ← lift (resolve_unit recursion_limit
                  (inp_get self "MOTION/PRINT/VELOCITIES/UNIT" "bohr*au_t^-1")
                  []);
  modify (assign_vel_units units);;
  modify (assign_vel_frequency frequency).

(** From the test of the ensemble to the end of [get_velocities] *)
Definition lookup_velocities (frame : Z) : Mc (option Frame) :=
  self ← gets id;
  ensemble ← lift (get_ensemble_type self frame);
  match ensemble with
  | None => raise AttributeError
  | Some ensemble =>
      let frame :=
        if String.eqb (PyStr.lower ensemble) "REFTRAJ" then frame - 1
        else frame in
      if frame <? 0 then mret None else
      match TrajParser_get_trajectory (velocities_parser self) frame with
      | Ok t => mret (Some t)
      | Raise _ => modify (log_error "Error reading velocities.");; mret None
      end
  end.

Definition get_velocities (frame : Z) : Mc (option Frame) :=
  self ← gets id;
  if bool_decide (is_Some (out_molecular_dynamics self)) then mret None else
  (if mainfile (tp_mainfile (velocities_parser self)) is None
   then configure_velocities else mret tt);;
  lookup_velocities frame.

(** *** [get_trajectory] *)

(** The block under [if frame == 0] *)
Definition initial_trajectory : Mc (option Frame) :=
  self ← gets id;
  units ← lift (resolve_unit recursion_limit
                  (inp_get self "FORCE_EVAL/SUBSYS/COORD/UNIT" "angstrom") []);
  match inp_coord self with
  | None =>
      let coord_filename :=
        inp_get self "FORCE_EVAL/SUBSYS/TOPOLOGY/COORD_FILE_NAME" "" in
      modify (assign_traj_mainfile
                (Some (Py.path_join (maindir self) (PyStr.strip coord_filename))));;
      modify (assign_traj_units units);;
      self ← gets id;
      '(trajectory, _) ← lift (trajectory_prop env (traj_parser self));
      match trajectory with
      | Some (result :: _) =>
          modify (assign_traj_mainfile None);;
          mret (Some result)
      | _ => mret None
      end
  | Some coord =>
      let scaled :=
        Py.contains "T" (inp_get self "FORCE_EVAL/SUBSYS/COORD/SCALED" "False") in
      t ← lift (inline_trajectory env coord units scaled);
      mret (Some t)
  end.

(** The block under [if self.traj_parser.mainfile is None] *)
Definition configure_trajectory : Mc unit :=
  self ← gets id;
  '(frequency, filename) ← lift (print_setting self "coordinates" "0 none");
  let '(frequency, filename) :=
    if frequency =? 0 then
      let filename :=
        PyStr.strip (inp_get self "MOTION/PRINT/TRAJECTORY/FILENAME" "") in
      let filename := _normalize_filename self filename in
      let traj_format :=
        PyStr.strip (inp_get self "MOTION/PRINT/TRAJECTORY/FORMAT" "XYZ") in
      let traj_format :=
        from_option id "xyz" (dict_get _file_extension_map traj_format) in
      (1, Py.str_of filename +:+ "-pos-1." +:+ traj_format)
    else (frequency, filename) in
  modify (assign_traj_mainfile (Some (Py.path_join (maindir self) filename)));;
  units ← lift (resolve_unit recursion_limit
                  (inp_get self "MOTION/PRINT/TRAJECTORY/UNIT" "angstrom") []);
  modify (assign_traj_units units);;
  modify (assign_traj_frequency frequency).

(** From the test of the ensemble to the end of [get_trajectory] *)
Definition lookup_trajectory (frame : Z) : Mc (option Frame) :=
  self ← gets id;
  ensemble ← lift (get_ensemble_type self frame);
  let frame := if is_reftraj ensemble then frame - 1 else frame in
  if frame <? 0 then mret None else
  match TrajParser_get_trajectory (traj_parser self) frame with
  | Ok t => mret (Some t)
  | Raise _ =>
      modify (log_error "Error reading trajectory for the specific frame.");;
      mret None
  end.

Definition get_trajectory (frame : Z) : Mc (option Frame) :=
  trajectory ← (if frame =? 0 then initial_trajectory else mret None);
  match trajectory with
  | Some t => mret (Some t)
  | None =>
      self ← gets id;
      (if mainfile (tp_mainfile (traj_parser self)) is None
       then configure_trajectory else mret tt);;
      lookup_trajectory frame
  end.

(** *** [get_lattice_vectors] *)

Definition assign_cell_mainfile (f : option string) (self : CP2KParser) :=
  set_cell_parser
    {| dp_mainfile := f; dp_units := dp_units (cell_parser self);
       dp_frequency := dp_frequency (cell_parser self);
       dp_step := dp_step (cell_parser self) |} self.

Definition assign_cell_units (u : value num) (self : CP2KParser) :=
  set_cell_parser
    {| dp_mainfile := dp_mainfile (cell_parser self); dp_units := Some u;
       dp_frequency := dp_frequency (cell_parser self);
       dp_step := dp_step (cell_parser self) |} self.

Definition assign_cell_frequency (n : Z) (self : CP2KParser) :=
  set_cell_parser
    {| dp_mainfile := dp_mainfile (cell_parser self);
       dp_units := dp_units (cell_parser self); dp_frequency := Some n;
       dp_step := dp_step (cell_parser self) |} self.

(** The block under [if frame == 0], up to
    [if lattice_vectors is not None: return lattice_vectors] *)
Definition initial_lattice : Mc (flow (option Lattice)) :=
  self ← gets id;
  match out_lattice_vectors self with
  | None =>
      units ← lift (resolve_unit recursion_limit
                      (inp_get self "FORCE_EVAL/SUBSYS/COORD/UNIT" "angstrom")
                      []);
      match inp_cell self with
      | None => mret (Returned None)
      | Some cell =>
          lattice_vectors ← lift (lattice_of_cell env cell units);
          match lattice_vectors with
          | Some l => mret (Returned (Some l))
          | None => mret Fallthrough
          end
      end
  | Some lattice_vectors =>
      units ← lift (resolve_unit recursion_limit
                      (inp_get self "FORCE_EVAL/SUBSYS/COORD/UNIT" "angstrom")
                      []);
      l ← lift (lattice_of_out env lattice_vectors units);
      mret (Returned (Some l))
  end.

(** The block under [if self.cell_parser.mainfile is None]; [again] is
    [self.get_lattice_vectors], one call deeper. *)
Definition configure_cell (again : Z -> Mc (option Lattice)) (frame : Z)
    : Mc (flow (option Lattice)) :=
  self ← gets id;
  '(frequency, filename) ← lift (print_setting self "simulation_cell" "0 none");
  let '(frequency, filename) :=
    if frequency =? 0
    then (1, PyStr.strip (inp_get self "MOTION/PRINT/CELL/FILENAME" ""))
    else (frequency, filename) in
  if negb (String.eqb filename "") then
    modify (assign_cell_mainfile (Some (Py.path_join (maindir self) filename)));;
    units ← lift (resolve_unit recursion_limit
                    (inp_get self "MOTION/PRINT/TRAJECTORY/UNIT" "angstrom") []);
    modify (assign_cell_units units);;
    modify (assign_cell_frequency frequency);;
    mret Fallthrough
  else
    npt ← (if is_md self then
             ensemble_type ← lift (get_ensemble_type self frame);
             match ensemble_type with
             | Some e => mret (String.eqb (PyStr.slice_to e 3) "NPT")
             | None => raise TypeError
             end
           else mret false);
    if npt : bool then mret (Returned None)
    else r ← again 0; mret (Returned r).

(** [resolve_unit(x)] for an object [x]: anything but a string has no
    method [lower]. *)
Definition resolve_unit_of (x : value num) : result (value num) :=
  match x with
  | VStr s => resolve_unit recursion_limit s []
  | _ => Raise AttributeError
  end.

(** The body of the final [try] of [get_lattice_vectors]; a frequency
    that is [None] is a [TypeError] of [//], units that are [None] have no
    method [lower]. *)
Definition read_lattice (p : DataTextParser) (frame : Z) : result Lattice :=
  frequency ← from_option Ok (Raise TypeError) (dp_frequency p);
  i ← Py.floordiv frame frequency;
  row ← match data_prop env p with
        | Some data => Py.getitem data i
        | None => Raise TypeError
        end;
  units ← from_option Ok (Raise AttributeError) (dp_units p);
  unit ← resolve_unit_of units;
  lattice_of_row env row unit.

(** From the restart offset to the end of [get_lattice_vectors]; with a
    frequency that is [None], [frame % None] is a [TypeError]. *)
Definition lookup_lattice (frame : Z) : Mc (option Lattice) :=
  self ← gets id;
  let frame := frame - (_step_start self - 1) in
  ensemble ← lift (get_ensemble_type self frame);
  let frame := if is_reftraj ensemble then frame - 1 else frame in
  frequency ← lift (from_option Ok (Raise TypeError)
                      (dp_frequency (cell_parser self)));
  r ← lift (Py.modulo frame frequency);
  if (negb (r =? 0) || (frame <? 0))%bool then mret None else
  match read_lattice (cell_parser self) frame with
  | Ok l => mret (Some l)
  | Raise _ => modify (log_error "Error reading lattice vectors.");; mret None
  end.

Definition get_lattice_vectors_body (again : Z -> Mc (option Lattice))
    (frame : Z) : Mc (option Lattice) :=
  first ← (if frame =? 0 then initial_lattice else mret Fallthrough);
  match first with
  | Returned r => mret r
  | Fallthrough =>
      self ← gets id;
      configured ← (if mainfile (dp_mainfile (cell_parser self)) is None
                    then configure_cell again frame else mret Fallthrough);
      match configured with
      | Returned r => mret r
      | Fallthrough => lookup_lattice frame
      end
  end.

(** [get_lattice_vectors(frame)]; [fuel] bounds the depth of the calls of
    the method to itself. *)
Fixpoint get_lattice_vectors (fuel : nat) (frame : Z) : Mc (option Lattice) :=
  match fuel with
  | O => raise RecursionError
  | S fuel' => get_lattice_vectors_body (get_lattice_vectors fuel') frame
  end.

(** *** [get_md_output] *)

(** The returned [dict]: empty, or made of a row of the energy file. *)
Inductive md_output : Type :=
| MdEmpty
| MdFields (r : MdRecord).

Definition assign_energy_mainfile (f : option string) (self : CP2KParser) :=
  set_energy_parser
    {| dp_mainfile := f; dp_units := dp_units (energy_parser self);
       dp_frequency := dp_frequency (energy_parser self);
       dp_step := dp_step (energy_parser self) |} self.

Definition assign_energy_frequency (n : Z) (self : CP2KParser) :=
  set_energy_parser
    {| dp_mainfile := dp_mainfile (energy_parser self);
       dp_units := dp_units (energy_parser self); dp_frequency := Some n;
       dp_step := dp_step (energy_parser self) |} self.

(** [_step]: the first column of the data, kept as the rows it is read
    from; [_step.index(frame)] compares that column with [frame]. *)
Definition assign_energy_step (rows : list Row) (self : CP2KParser) :=
  set_energy_parser
    {| dp_mainfile := dp_mainfile (energy_parser self);
       dp_units := dp_units (energy_parser self);
       dp_frequency := dp_frequency (energy_parser self);
       dp_step := Some rows |} self.

(** The block under [if self.energy_parser.mainfile is None] *)
Definition configure_energy : Mc (flow md_output) :=
  self ← gets id;
  '(frequency, filename) ← lift (print_setting self "energies" "0, none");
  if frequency =? 0 then mret (Returned MdEmpty) else
  modify (assign_energy_mainfile (Some (Py.path_join (maindir self) filename)));;
  modify (assign_energy_frequency frequency);;
  self ← gets id;
  modify (assign_energy_step
            (from_option id [] (data_prop env (energy_parser self))));;
  mret Fallthrough.

(** [l.index(frame)] on the first column of the rows *)
Fixpoint step_index (rows : list Row) (frame : Z) : result Z :=
  match rows with
  | [] => Raise ValueError
  | d :: rows' =>
      if row_is_step env d frame then Ok 0
      else Z.succ <$> step_index rows' frame
  end.

(** The body of the [try] of [get_md_output] *)
Definition read_energy (p : DataTextParser) (frame : Z) : result MdRecord :=
  _step ← from_option Ok (Raise AttributeError) (dp_step p);
  i ← step_index _step frame;
  data ← match data_prop env p with
         | Some data => Py.getitem data i
         | None => Raise TypeError
         end;
  md_record env data.

(** From the second test of the file to the end of [get_md_output] *)
Definition lookup_energy (frame : Z) : Mc md_output :=
  self ← gets id;
  if mainfile (dp_mainfile (energy_parser self)) is None then mret MdEmpty
  else
    ensemble ← lift (get_ensemble_type self frame);
    let frame := if is_reftraj ensemble then frame - 1 else frame in
    if frame <? 0 then mret MdEmpty else
    match read_energy (energy_parser self) frame with
    | Ok r => mret (MdFields r)
    | Raise _ => modify (log_error "Error reading MD energies.");; mret MdEmpty
    end.

Definition get_md_output (frame : Z) : Mc md_output :=
  self ← gets id;
  configured ← (if mainfile (dp_mainfile (energy_parser self)) is None
                then configure_energy else mret Fallthrough);
  match configured with
  | Returned r => mret r
  | Fallthrough => lookup_energy frame
  end.


(** *** [parse_system] *)

Definition append_system (s : System) (self : CP2KParser) : CP2KParser :=
  {| maindir := maindir self; inp := inp self; inp_coord := inp_coord self;
     inp_cell := inp_cell self;
     out_lattice_vectors := out_lattice_vectors self;
     out_single_point := out_single_point self;
     out_geometry_optimization := out_geometry_optimization self;
     out_molecular_dynamics := out_molecular_dynamics self;
     settings_md := settings_md self; _step_start := _step_start self;
     traj_parser := traj_parser self;
     velocities_parser := velocities_parser self;
     cell_parser := cell_parser self; energy_parser := energy_parser self;
     logger := logger self; systems := systems self ++ [s] |}.

(** An assignment to an attribute of the system appended last. *)
Definition update_system (f : System -> System) (self : CP2KParser)
    : CP2KParser :=
  {| maindir := maindir self; inp := inp self; inp_coord := inp_coord self;
     inp_cell := inp_cell self;
     out_lattice_vectors := out_lattice_vectors self;
     out_single_point := out_single_point self;
     out_geometry_optimization := out_geometry_optimization self;
     out_molecular_dynamics := out_molecular_dynamics self;
     settings_md := settings_md self; _step_start := _step_start self;
     traj_parser := traj_parser self;
     velocities_parser := velocities_parser self;
     cell_parser := cell_parser self; energy_parser := energy_parser self;
     logger := logger self;
     systems := match reverse (systems self) with
                | [] => []
                | s :: before => reverse before ++ [f s]
                end |}.

(** [parse_system(trajectory)]; the result is the position of the new
    system in [self.archive.run[-1].system].  The numeric attributes of the
    system are those of the record it is made of. *)
Definition parse_system (arg : system_arg Frame) : Mc (option nat) :=
  '(trajectory, frame) ←
    match arg with
    | ByCoordinates (Some atomic_coord) => mret (Some atomic_coord, 0)
    | ByCoordinates None => t ← get_trajectory 0; mret (t, 0)
    | ByFrame frame => t ← get_trajectory frame; mret (t, frame)
    end;
  match trajectory with
  | None => mret None
  | Some trajectory =>
      modify (append_system {| sys_trajectory := trajectory;
                               sys_lattice_vectors := None;
                               sys_velocities := None |});;
      lattice_vectors ← get_lattice_vectors recursion_limit frame;
      modify (update_system (fun s =>
                {| sys_trajectory := sys_trajectory s;
                   sys_lattice_vectors := lattice_vectors;
                   sys_velocities := sys_velocities s |}));;
      self ← gets id;
      (if is_md self then
         velocities ← get_velocities frame;
         modify (update_system (fun s =>
                   {| sys_trajectory := sys_trajectory s;
                      sys_lattice_vectors := sys_lattice_vectors s;
                      sys_velocities := velocities |}))
       else mret tt);;
      self ← gets id;
      mret (Some (length (systems self) - 1)%nat)
  end.

(** [parse_md_step(source)] as far as the correlator is concerned: the
    look-up of the energies of the frame. *)
Definition parse_md_step_lookup (frame : Z) : Mc unit :=
  get_md_output frame;; mret tt.

End Correlator.

(** ** Runs to evaluate the correlator on

    A project [H2O] in the directory [/run]: records are named by strings,
    every file exists, and the auxiliary files are the ones listed in
    [trajectory_files] and [energy_rows]. *)

Module Scenario.

(** Trajectory files: path, records in file order, recorded iterations. *)
Definition trajectory_files : list (string * (list string * list Z)) :=
  [ ("/run/H2O-pos-1.xyz", (["r0"; "r2"; "r4"], [0; 2; 4]));
    ("/run/H2O-pos-1.dcd", (["d0"; "d2"; "d4"], []));
    ("/run/H2O-md-pos-1.xyz", (["m0"; "m2"], [0; 2]));
    ("/run/H2O-every.xyz", (["e0"; "e1"; "e2"; "e3"], [0; 1; 2; 3]));
    ("/run/H2O-vel-1.xyz", (["v0"; "v1"; "v2"; "v3"], [0; 1; 2; 3])) ].

(** The step column of the energy file [/run/H2O-1.ener], and the one of
    the cell file [/run/H2O-1.cell]. *)
Definition energy_rows : list Z := [0; 1; 2; 3].
Definition cell_rows : list Z := [0; 2; 4].

Definition env : @Env ExactHost.xnum string unit unit unit string Z string := {|
  isfile := fun _ => true;
  trajectory_prop := fun p =>
    match tp_mainfile p with
    | Some f =>
        match dict_get trajectory_files f with
        | Some (records, iter) => Ok (Some records, iter)
        | None => Ok (None, [])
        end
    | None => Raise AttributeError
    end;
  inline_trajectory := fun _ _ _ => Ok "inline";
  data_prop := fun p =>
    match dp_mainfile p with
    | Some "/run/H2O-1.ener" => Some energy_rows
    | Some "/run/H2O-1.cell" => Some cell_rows
    | _ => None
    end;
  row_is_step := Z.eqb;
  md_record := fun d => Ok ("energies of step " +:+ PyStr.of_Z d);
  lattice_of_out := fun _ _ => Ok "cell of the output";
  lattice_of_cell := fun _ _ => Ok (Some "cell of the input");
  lattice_of_row := fun d _ => Ok ("cell of step " +:+ PyStr.of_Z d)
|}.

Definition fresh_traj_parser : @TrajParser ExactHost.xnum :=
  {| tp_mainfile := None; tp_units := VNone; tp_frequency := 1 |}.

Definition fresh_data_parser : @DataTextParser ExactHost.xnum Z :=
  {| dp_mainfile := None; dp_units := None; dp_frequency := None;
     dp_step := None |}.

(** The parser after [init_parser], for an output with or without the
    molecular dynamics section. *)
Definition parser (settings : list (string * string))
    (input : list (string * string))
    (md_steps : option (list MdStep))
    : @CP2KParser ExactHost.xnum string unit unit unit string Z := {|
  maindir := "/run";
  inp := list_to_map (("GLOBAL/PROJECT_NAME", "H2O") :: input);
  inp_coord := Some tt;
  inp_cell := Some tt;
  out_lattice_vectors := Some tt;
  out_single_point := true;
  out_geometry_optimization := bool_decide (md_steps = None);
  out_molecular_dynamics := Some <$> md_steps;
  settings_md := list_to_map settings;
  _step_start := 1;
  traj_parser := fresh_traj_parser;
  velocities_parser := fresh_traj_parser;
  cell_parser := fresh_data_parser;
  energy_parser := fresh_data_parser;
  logger := [];
  systems := []
|}.

Definition md_step_of (ensemble : string) (n : Z) : MdStep :=
  {| ms_ensemble_type := Some ensemble; ms_step := Some n |}.

(** A geometry optimisation: no settings of molecular dynamics. *)
Definition optimisation (input : list (string * string)) :=
  parser [] input None.

(** Three steps of molecular dynamics in the given ensemble. *)
Definition dynamics (ensemble : string) (settings : list (string * string)) :=
  parser (("ensemble_type", ensemble) :: settings) []
    (Some [md_step_of ensemble 1; md_step_of ensemble 2; md_step_of ensemble 3]).

(** [parse_calculations] on top of the correlator: a calculation is its
    step number, if it has one. *)
Definition methods (is_md_run : bool)
    : @Methods (@CP2KParser ExactHost.xnum string unit unit unit string Z)
               unit (option Z) string Z nat := {|
  self_consistent_of := fun _ => [];
  step_of := fun c => c;
  atomic_coordinates := Some "coordinates of the output";
  md := is_md_run;
  on_parse_scc := fun _ frame => mret frame;
  on_parse_md_step := fun _ frame => parse_md_step_lookup env frame;
  on_parse_system := parse_system env;
  on_set_system_ref := fun _ _ => mret tt;
  on_set_method_ref := fun _ => mret tt
|}.

Definition start {W A} (w : W) : @Run W A := {| world := w; events := [] |}.

(** The state a call leaves behind. *)
Definition after {W X} (call : M W X) (w : W) : W := (call w).2.

(** A geometry optimisation with default settings, before and after a
    first look-up of positions. *)
Definition opt : @CP2KParser ExactHost.xnum string unit unit unit string Z :=
  optimisation [].

(** The same with a trajectory in DCD format written every second step. *)
Definition dcd : @CP2KParser ExactHost.xnum string unit unit unit string Z :=
  parser [("coordinates", "2 H2O-pos-1.dcd")] [] None.
Definition dcd_configured := after (get_trajectory env 2) dcd.

(** A cell file written every second step. *)
Definition cell : @CP2KParser ExactHost.xnum string unit unit unit string Z :=
  parser [("simulation_cell", "2 H2O-1.cell")] [] None.
Definition cell_configured := after (get_lattice_vectors env 2 2) cell.

(** Molecular dynamics: positions every second step, energies every
    step. *)
Definition md_run : @CP2KParser ExactHost.xnum string unit unit unit string Z :=
  dynamics "NVE"
    [("coordinates", "2 H2O-md-pos-1.xyz"); ("energies", "1 H2O-1.ener")].
Definition md_configured :=
  after (get_md_output env 2) (after (get_trajectory env 2) md_run).


(** A replay of a recorded trajectory: positions and velocities at every
    step. *)
Definition replay : @CP2KParser ExactHost.xnum string unit unit unit string Z :=
  parser [("ensemble_type", "REFTRAJ"); ("coordinates", "1 H2O-every.xyz");
          ("velocities", "1 H2O-vel-1.xyz")]
         [("MOTION/PRINT/VELOCITIES/UNIT", "angstrom*fs^-1")]
         (Some [md_step_of "REFTRAJ" 1; md_step_of "REFTRAJ" 2;
                md_step_of "REFTRAJ" 3]).


(** Molecular dynamics of a single step. *)
Definition one_step_md
    : @CP2KParser ExactHost.xnum string unit unit unit string Z :=
  parser [("ensemble_type", "NVE")] [] (Some [md_step_of "NVE" 1]).

(** The calculations of a run with three steps: the initial one, without
    a step number, and the steps 1 to 3. *)
Definition calculations : list (option (option Z)) :=
  [Some None; Some (Some 1); Some (Some 2); Some (Some 3)].

End Scenario.

(** ** More of the interpreter's strings *)

(** No character of [chars] occurs in [s]. *)
Fixpoint free_of (chars s : string) : bool :=
  match chars with
  | "" => true
  | String c cs => negb (occurs c s) && free_of cs s
  end.

(** [s] is made of spaces only. *)
Fixpoint only_spaces (s : string) : bool :=
  match s with
  | "" => true
  | String c s' => Ascii.eqb c " " && only_spaces s'
  end.

Module PyText.

Definition is_lower (c : ascii) : bool :=
  let n := nat_of_ascii c in (97 <=? n)%nat && (n <=? 122)%nat.

Fixpoint isupper_at (s : string) (cased : bool) : bool :=
  match s with
  | "" => cased
  | String c s' =>
      if is_lower c then false else isupper_at s' (cased || PyStr.is_upper c)
  end.

Definition upper_char (c : ascii) : ascii :=
  if is_lower c then ascii_of_nat (nat_of_ascii c - 32) else c.

(** [s.upper()] *)
Fixpoint upper (s : string) : string :=
  match s with
  | "" => ""
  | String c s' => String (upper_char c) (upper s')
  end.

(** [s.isupper()]: no lower-case letter and at least one upper-case letter *)
Definition isupper (s : string) : bool := isupper_at s false.

Fixpoint lstrip_chars (chars s : string) : string :=
  match s with
  | "" => ""
  | String c s' => if occurs c chars then lstrip_chars chars s' else s
  end.

Fixpoint rstrip_chars (chars s : string) : string :=
  match s with
  | "" => ""
  | String c s' =>
      match rstrip_chars chars s' with
      | "" => if occurs c chars then "" else String c ""
      | r => String c r
      end
  end.

(** [s.strip(chars)] *)
Definition strip_chars (chars s : string) : string :=
  rstrip_chars chars (lstrip_chars chars s).

(** The successive results of [readline()] on a file of content [s],
    opened as text: a line ends with a newline, a carriage return or a
    carriage return and a newline, and is given with a newline as its
    end. *)
Fixpoint readlines_at (s cur : string) : list string :=
  match s with
  | "" => match cur with "" => [] | _ => [cur] end
  | String c s' =>
      if Ascii.eqb c "010" then (cur +:+ String "010" "") :: readlines_at s' ""
      else if Ascii.eqb c "013" then
        match s' with
        | String "010" s'' => (cur +:+ String "010" "") :: readlines_at s'' ""
        | _ => (cur +:+ String "010" "") :: readlines_at s' ""
        end
      else readlines_at s' (cur +:+ String c "")
  end.

Definition readlines (s : string) : list string := readlines_at s "".

(** [sep.join(l)] *)
Fixpoint join (sep : string) (l : list string) : string :=
  match l with
  | [] => ""
  | [s] => s
  | s :: l' => s +:+ sep +:+ join sep l'
  end.

(** [s.endswith(suffix)] *)
Definition endswith (suffix s : string) : bool :=
  String.eqb
    (PyStr.drop (String.length s - String.length suffix) s) suffix
  && (String.length suffix <=? String.length s)%nat.

End PyText.

(** ** Regular expressions

    The patterns of the parser, matched as the module [re] matches them: by
    backtracking, a greedy repetition trying the longest run first and a
    lazy one the shortest, alternatives in the order in which they are
    written.  A character class of a pattern is a predicate on characters. *)

Module Re.

Inductive regex : Type :=
| Eps
| Chars (p : ascii -> bool)
| Seq (r1 r2 : regex)
| Alt (r1 r2 : regex)
| Star (greedy : bool) (r : regex)
| Group (i : nat) (r : regex).

(** The text of the groups that took part in the match, latest first. *)
Definition groups : Type := list (nat * string).

(** What is left to match, once a part of the pattern has matched. *)
Definition cont : Type := string -> groups -> option groups.

(** The text between the start [s] of a match and its end [s']. *)
Definition consumed (s s' : string) : string :=
  PyStr.take (String.length s - String.length s') s.

(** The repetitions of [r*] and [r*?]; a repetition that consumes nothing
    ends the loop. *)
Fixpoint star_loop (body : string -> groups -> cont -> option groups)
    (greedy : bool) (k : cont) (n : nat) (s : string) (g : groups)
    : option groups :=
  match n with
  | O => k s g
  | S n' =>
      let again : cont := fun s' g' =>
        if (String.length s' <? String.length s)%nat
        then star_loop body greedy k n' s' g'
        else None in
      if greedy then
        match body s g again with
        | Some m => Some m
        | None => k s g
        end
      else
        match k s g with
        | Some m => Some m
        | None => body s g again
        end
  end.

Fixpoint run (r : regex) (s : string) (g : groups) (k : cont)
    : option groups :=
  match r with
  | Eps => k s g
  | Chars p =>
      match s with
      | "" => None
      | String c s' => if p c then k s' g else None
      end
  | Seq r1 r2 => run r1 s g (fun s' g' => run r2 s' g' k)
  | Alt r1 r2 =>
      match run r1 s g k with
      | Some m => Some m
      | None => run r2 s g k
      end
  | Star greedy r' => star_loop (run r') greedy k (String.length s) s g
  | Group i r' => run r' s g (fun s' g' => k s' ((i, consumed s s') :: g'))
  end.

(** The end of the pattern: the match is complete. *)
Definition done : cont := fun _ g => Some g.

(** [re.match(r, s)]: a match at the start of [s] *)
Definition match_ (r : regex) (s : string) : option groups :=
  run r s [] done.

(** [re.search(r, s)]: the match at the leftmost position that has one *)
Fixpoint search (r : regex) (s : string) : option groups :=
  match match_ r s with
  | Some g => Some g
  | None =>
      match s with
      | "" => None
      | String _ s' => search r s'
      end
  end.

(** [m.group(i)]; [None] for a group that took no part in the match *)
Fixpoint group (g : groups) (i : nat) : option string :=
  match g with
  | [] => None
  | (j, t) :: g' => if (j =? i)%nat then Some t else group g' i
  end.

(** A literal text *)
Fixpoint lit (s : string) : regex :=
  match s with
  | "" => Eps
  | String c s' => Seq (Chars (Ascii.eqb c)) (lit s')
  end.

(** [r+], [r+?] and [r?] *)
Definition plus (greedy : bool) (r : regex) : regex := Seq r (Star greedy r).
Definition opt (r : regex) : regex := Alt r Eps.

(** [\w], [\s], [\d] and the dot on characters below 128 *)
Definition word (c : ascii) : bool :=
  let n := nat_of_ascii c in
  ((48 <=? n) && (n <=? 57) || (65 <=? n) && (n <=? 90)
   || (97 <=? n) && (n <=? 122) || (n =? 95))%nat.

Definition space (c : ascii) : bool := PyStr.is_space c.

Definition digit (c : ascii) : bool := PyStr.is_digit c.

Definition dot (c : ascii) : bool := negb (Ascii.eqb c "010").

(** [[...]]: one of the characters of [cs] *)
Definition one_of (cs : string) (c : ascii) : bool := occurs c cs.

End Re.

(** ** The tree of the input file: [InpParser] *)

Module InpParser.

Import Re.

(** An [InpValue] object: its [_name] and its [_data].  The objects live in
    a heap and are referred to by their position in it. *)
Record inp_value : Type := {
  _name : string;
  _data : gmap string InpValue.item
}.

(** [[#!\n]] *)
Definition comment_or_eol (c : ascii) : bool :=
  Ascii.eqb c "#" || Ascii.eqb c "!" || Ascii.eqb c "010".

(** [&(\w+)\s*(.*?)[#!\n]] *)
Definition _re_open : regex :=
  Seq (lit "&")
    (Seq (Group 1 (plus true (Chars word)))
       (Seq (Star true (Chars space))
          (Seq (Group 2 (Star false (Chars dot))) (Chars comment_or_eol)))).

(** [&END] *)
Definition _re_close : regex := lit "&END".

(** [(\w+)\s+(.+?)[#!\n]] *)
Definition _re_key_value : regex :=
  Seq (Group 1 (plus true (Chars word)))
    (Seq (plus true (Chars space))
       (Seq (Group 2 (plus false (Chars dot))) (Chars comment_or_eol))).

(** [@SET (\w+)\s+(.+?)[#!\n]] *)
Definition _re_variable : regex :=
  Seq (lit "@SET ")
    (Seq (Group 1 (plus true (Chars word)))
       (Seq (plus true (Chars space))
          (Seq (Group 2 (plus false (Chars dot))) (Chars comment_or_eol)))).

(** [m.group(i)] for a group that is part of every match *)
Definition group_text (m : groups) (i : nat) : string :=
  from_option id "" (group m i).

(** The local function [override] of [tree] *)
Definition override (name : string) (data : string * string)
    : string * string :=
  let '(key, val) := data in
  if String.eqb key "PROJECT" then ("PROJECT_NAME", val)
  else if negb (PyText.isupper key)
       then ("DEFAULT_KEYWORD", PyText.join " " [key; val])
  else data.

(** The variables of the loop of [tree]: the objects made so far, the list
    [sections] of open sections, and [self._variables]. *)
Record state : Type := {
  heap : list inp_value;
  sections : list nat;
  _variables : gmap string string
}.

(** [obj.add(key, val)] for the object at [id] *)
Definition add_to (id : nat) (key : string) (val : InpValue.item)
    (heap : list inp_value) : list inp_value :=
  alter (fun obj => {| _name := _name obj;
                       _data := InpValue.add key val (_data obj) |}) id heap.

(** [strip[0] in ("#", "!")] *)
Definition comment_line (strip : string) : bool :=
  match strip with
  | String c _ => Ascii.eqb c "#" || Ascii.eqb c "!"
  | "" => false
  end.

(** The branch of a line that sets a variable [name] to [value]. *)
Definition set_variable (name value : string) (st : state) : state :=
  {| heap := heap st; sections := sections st;
     _variables :=
       <["${" +:+ name +:+ "}" := PyStr.strip value]> (_variables st) |}.

(** The branch of a line that closes a section: [sections.pop(-1)] *)
Definition close_section (st : state) : result state :=
  match sections st with
  | [] => Raise IndexError
  | _ => Ok {| heap := heap st; sections := removelast (sections st);
               _variables := _variables st |}
  end.

(** The branch of a line that opens the section [name] with the
    parameter [parameter]. *)
Definition open_section (name parameter : string) (st : state)
    : result state :=
  let section := length (heap st) in
  let heap := heap st ++ [{| _name := name; _data := ∅ |}] in
  top ← Py.getitem (sections st) (-1);
  let heap := add_to top name (InpValue.SectionRef section) heap in
  let sections := sections st ++ [section] in
  let heap :=
    if negb (String.eqb parameter "")
    then add_to section "VALUE" (InpValue.Keyword parameter) heap
    else heap in
  Ok {| heap := heap; sections := sections; _variables := _variables st |}.

(** The branch of a line that gives the keyword [key] the value [val]. *)
Definition store_keyword (key val : string) (st : state) : result state :=
  let val := PyStr.strip val in
  let val := from_option id val (_variables st !! val) in
  top ← Py.getitem (sections st) (-1);
  let name := from_option _name "" (heap st !! top) in
  let '(key, val) := override name (key, val) in
  Ok {| heap := add_to top key (InpValue.Keyword val) (heap st);
        sections := sections st; _variables := _variables st |}.

(** The body of the loop of [tree] for a line that was read. *)
Definition tree_line (line : string) (st : state) : result state :=
  let strip := PyStr.strip line in
  if String.eqb strip "" || comment_line strip then Ok st else
  match search _re_variable line with
  | Some variable =>
      Ok (set_variable (group_text variable 1) (group_text variable 2) st)
  | None =>
  match search _re_close line with
  | Some _ => close_section st
  | None =>
  match search _re_open line with
  | Some m => open_section (group_text m 1) (group_text m 2) st
  | None =>
  match search _re_key_value line with
  | Some key_value =>
      store_keyword (group_text key_value 1) (group_text key_value 2) st
  | None => Ok st
  end
  end
  end
  end.

Fixpoint tree_lines (lines : list string) (st : state) : result state :=
  match lines with
  | [] => Ok st
  | line :: lines' => st' ← tree_line line st; tree_lines lines' st'
  end.

(** [sections = [InpValue("tree")]] *)
Definition initial : state :=
  {| heap := [{| _name := "tree"; _data := ∅ |}]; sections := [0%nat];
     _variables := ∅ |}.

(** The property [tree] for a file of the given lines: the objects, and
    the one that is the tree. *)
Definition tree_of_lines (lines : list string) : result (list inp_value * nat) :=
  st ← tree_lines lines initial;
  root ← Py.getitem (sections st) 0;
  Ok (heap st, root).

Definition tree (content : string) : result (list inp_value * nat) :=
  tree_of_lines (PyText.readlines content).

(** *** [InpValue.to_dict] and [InpParser.parse] *)

(** A value of the dict of [to_dict]: a keyword value, a list as [add] has
    built it (its sections are still [InpValue] objects), or the dict of a
    section. *)
Inductive dval : Type :=
| DStr (s : string)
| DItems (l : list InpValue.item)
| DDict (d : gmap string dval).

(** The loop of [extract]: every value converted, the first exception
    ending the loop. *)
Definition map_sequence {A} (m : gmap string (result A))
    : result (gmap string A) :=
  map_fold (fun k r acc => acc ← acc; v ← r; Ok (<[k := v]> acc)) (Ok ∅) m.

(** [to_dict()] for the object at [id].  The dict is made once and kept;
    the tree is not modified after it is built.  [fuel] bounds the depth
    of the sections. *)
Fixpoint to_dict (fuel : nat) (heap : list inp_value) (id : nat)
    : result dval :=
  match fuel with
  | O => Raise RecursionError
  | S fuel' =>
      let extract (val : InpValue.item) : result dval :=
        match val with
        | InpValue.Keyword s => Ok (DStr s)
        | InpValue.SectionRef id' => to_dict fuel' heap id'
        | InpValue.Items l => Ok (DItems l)
        end in
      DDict <$> map_sequence (extract <$> from_option _data ∅ (heap !! id))
  end.

(** [source.get(sub_key, None)]: only a dict has the method *)
Definition dict_get_or_none (source : dval) (sub_key : string)
    : result (option dval) :=
  match source with
  | DDict d => Ok (d !! sub_key)
  | _ => Raise AttributeError
  end.

(** The loop of [parse] over the parts of the key *)
Fixpoint walk (source : dval) (sub_keys : list string) : result (option dval) :=
  match sub_keys with
  | [] => Ok (Some source)
  | sub_key :: rest =>
      val ← dict_get_or_none source sub_key;
      match val with
      | None => Ok None
      | Some v => walk v rest
      end
  end.

(** [parse(key)]: the value stored in [self._results[key]] *)
Definition parse (source : dval) (key : string) : result (option dval) :=
  walk source (PyStr.split "/" (PyText.strip_chars "/" key)).

End InpParser.

(** ** Shapes of texts and of input lines *)

(** [s'] is what is left of [s] after some of its characters. *)
Definition suffix_of (s' s : string) : Prop := exists pre, s = pre +:+ s'.

(** Every character of [s] is of the class [p]. *)
Fixpoint all_chars (p : ascii -> bool) (s : string) : bool :=
  match s with
  | "" => true
  | String c s' => p c && all_chars p s'
  end.

(** The text does not go on with a character of the class. *)
Definition stops (p : ascii -> bool) (s : string) : bool :=
  match s with
  | "" => true
  | String c _ => negb (p c)
  end.

(** A name: letters, digits and underscores, at least one. *)
Definition is_name (s : string) : bool :=
  negb (String.eqb s "") && all_chars Re.word s.

(** A blank other than the newline. *)
Definition blank (c : ascii) : bool := Re.space c && negb (Ascii.eqb c "010").

(** Blanks, at least one. *)
Definition is_blanks (s : string) : bool :=
  negb (String.eqb s "") && all_chars blank s.

(** Text free of the comment signs and of the newline. *)
Definition is_text (s : string) : bool :=
  all_chars (fun c => negb (InpParser.comment_or_eol c)) s.

(** A value: text that does not start with a blank, not empty. *)
Definition is_value (s : string) : bool :=
  match s with
  | "" => false
  | String c _ => negb (Re.space c) && is_text s
  end.

(** How a line ends after its last item: with the newline, or with a
    comment sign and whatever follows it. *)
Definition line_end (s : string) : bool :=
  match s with
  | "" => false
  | String c rest =>
      if Ascii.eqb c "010" then String.eqb rest ""
      else Ascii.eqb c "#" || Ascii.eqb c "!"
  end.

(** What follows the name of a section that is opened: blanks only, or
    blanks and a parameter. *)
Definition section_parameter (sep parameter : string) : bool :=
  if String.eqb parameter "" then all_chars blank sep
  else is_blanks sep && is_value parameter.

(** The characters of [[#!\n]] *)
Definition end_chars : string := String "#" (String "!" (String "010" "")).

(** The newline that ends a line. *)
Definition eol : string := String "010" "".

(** The pattern ends with a character of [[#!\n]]. *)
Fixpoint needs_end (r : Re.regex) : Prop :=
  match r with
  | Re.Seq _ r2 => needs_end r2
  | Re.Chars p => forall c, p c = true -> InpParser.comment_or_eol c = true
  | _ => False
  end.

(** What [to_dict] makes of a value that is not a section. *)
Definition plain_dval (val : InpValue.item) : option InpParser.dval :=
  match val with
  | InpValue.Keyword s => Some (InpParser.DStr s)
  | InpValue.Items l => Some (InpParser.DItems l)
  | InpValue.SectionRef _ => None
  end.

(** ** Input files to run the tree on *)

Module InpScenario.

(** Two sections of the same name, as the kinds of atoms are given. *)
Definition two_kinds_lines : list string :=
  [ "&KIND H" +:+ eol; "  BASIS_SET DZVP" +:+ eol; "&END KIND" +:+ eol;
    "&KIND O" +:+ eol; "  BASIS_SET TZVP" +:+ eol; "&END KIND" +:+ eol ].

Definition two_kinds : list InpParser.inp_value :=
  match InpParser.tree_of_lines two_kinds_lines with
  | Ok (heap, _) => heap
  | Raise _ => []
  end.

End InpScenario.

(** ** The settings read from the output: [CP2KParser.settings] *)

Module Settings.

Definition _metainfo_name_map : list (string * string) :=
  [ ("started_at", "start_time");
    ("started_on", "start_host");
    ("started_by", "start_user");
    ("process_id", "id");
    ("started_in", "start_path");
    ("ended_at", "end_time");
    ("ran_on", "end_host");
    ("ran_by", "end_user");
    ("stopped_in", "end_path");
    ("version_string:", "program_version");
    ("source_code_revision_number:", "svn_revision");
    ("program_compiled_at", "program_compilation_datetime");
    ("program_compiled_on", "program_compilation_host");
    ("input_file_name", "input_filename");
    ("basis_set_file_name", "basis_set_filename");
    ("geminal_file_name", "geminal_filename");
    ("potential_file_name", "potential_filename");
    ("mm_potential_file_name", "mm_potential_filename");
    ("coordinate_file_name", "coordinate_filename");
    ("preferred_diagonalization_lib.", "preferred_diagonalization_library");
    ("spin_restricted_kohn-sham_(rks)_calculation", "spin_restriction");
    ("multiplicity", "spin_target_multiplicity");
    ("number_of_spin_states", "number_of_spin_channels");
    ("charge", "total_charge");
    ("self-interaction_correction_(sic)", "self_interaction_correction_method");
    ("method", "quickstep_method");
    ("density_cutoff", "planewave_cutoff");
    ("temperature", "target_temperature");
    ("temperature_tolerance", "target_temperature_tolerance");
    ("pressure", "target_pressure");
    ("print_md_information_every", "print_frequency");
    ("potential_form:", "vdw_name");
    ("bj_damping:", "bj_damping_name");
    ("cutoff_radius_[bohr]:", "cutoff_radius");
    ("scaling_factor:", "scaling_factor");
    ("exp_prefactor_for_damping:", "damping_factor");
    ("s6_scaling_factor:", "s6_scaling_factor");
    ("sr6_scaling_factor:", "sr6_scaling_factor");
    ("s8_scaling_factor:", "s6_scaling_factor");
    ("cutoff_for_cn_calculation:", "cn_cutoff");
    ("optimization_method", "method");
    ("total_energy", "energy");
    ("real_energy_change", "energy_change");
    ("decrease_in_energy", "energy_decrease");
    ("conv_limit_for_step_size", "step_size_convergence_limit");
    ("convergence_in_step_size", "step_size_convergence");
    ("convergence_in_rms_step_size", "rms_step_size_convergence");
    ("conv_limit_for_gradients", "gradient_convergence_limit");
    ("conv_for_gradients", "max_gradient_convergence");
    ("conv_in_rms_gradients", "rms_gradient_convergence");
    ("exchange_correlation_energy", "energy_XC");
    ("electronic_kinetic_energy", "energy_kinetic_electronic") ].

(** What the dict holds for a name: the value given for it, or the list of
    the values when there are several. *)
Inductive entry (V : Type) : Type :=
| One (v : V)
| Many (vs : list V).

Arguments One {V} v.
Arguments Many {V} vs.

Section ToDict.

Context {V : Type}.

(** [data_dict.setdefault(name, [])] and [data_dict[name].append(val)] *)
Fixpoint append_to (name : string) (val : V) (data_dict : list (string * list V))
    : list (string * list V) :=
  match data_dict with
  | [] => [(name, [val])]
  | (k, vs) :: rest =>
      if String.eqb k name then (k, vs ++ [val]) :: rest
      else (k, vs) :: append_to name val rest
  end.

(** The first loop of the local function [to_dict] *)
Definition collect (data : list (string * V)) (repeats : bool)
    : list (string * list V) :=
  fold_left
    (fun data_dict '(key, val) =>
       let name := from_option id key (dict_get _metainfo_name_map key) in
       if negb repeats && bool_decide (is_Some (dict_get data_dict name))
       then data_dict
       else append_to name val data_dict)
    data [].

(** [val[0] if len(val) == 1 else val] *)
Definition unwrap (val : list V) : entry V :=
  match val with
  | [v] => One v
  | _ => Many val
  end.

(** [to_dict(data, repeats)] *)
Definition to_dict (data : list (string * V)) (repeats : bool)
    : list (string * entry V) :=
  map (fun '(key, val) => (key, unwrap val)) (collect data repeats).

(** The values of [data] whose key stands for [name], in order. *)
Fixpoint values_named (name : string) (data : list (string * V)) : list V :=
  match data with
  | [] => []
  | (key, val) :: rest =>
      if String.eqb (from_option id key (dict_get _metainfo_name_map key)) name
      then val :: values_named name rest
      else values_named name rest
  end.

End ToDict.

End Settings.

(** ** The files of the projected density of states: [get_pdos_files] *)

Module Pdos.

Section GetPdosFiles.

Context {File : Type}.

(** [self.pdos_parser.get("iter")] with the parser set on the file: the
    iteration step written in the file, if any. *)
Context (iter_of : File -> option Z).

(** [iter_step != n_optimization_steps] is false for the file: the file
    is of the step asked for, or names no step.  (The step asked for is
    [None] when the last optimisation step of the output has no number.) *)
Definition of_step (n_optimization_steps : option Z) (file : File) : bool :=
  bool_decide (from_option Some n_optimization_steps (iter_of file)
               = n_optimization_steps).

(** The loop [for i, file in enumerate(pdos_files)] with the list as it is
    when the iterator is at position [i]: the iterator goes by position,
    and [pdos_files.pop(i)] moves the files after [i] one position down.
    The iterator ends when its position is past the end of the list;
    [fuel] bounds the number of iterations. *)
Fixpoint pdos_loop (fuel : nat) (n_optimization_steps : option Z)
    (pdos_files : list File) (i : nat) : list File :=
  match fuel with
  | O => pdos_files
  | S fuel' =>
      match pdos_files !! i with
      | None => pdos_files
      | Some file =>
          let pdos_files :=
            if negb (of_step n_optimization_steps file)
            then delete i pdos_files
            else pdos_files in
          pdos_loop fuel' n_optimization_steps pdos_files (S i)
      end
  end.

(** [get_pdos_files(n_optimization_steps)]; [found] is what [get_files]
    gives for the pattern [*.pdos]. *)
Definition get_pdos_files (found : option (list File))
    (n_optimization_steps : option Z) : option (list File) :=
  match found with
  | None => None
  | Some pdos_files =>
      Some (pdos_loop (length pdos_files) n_optimization_steps pdos_files 0)
  end.

(** What the loop leaves of the files from the position of the iterator
    on: a file of another step is removed, and the file after it is not
    looked at. *)
Fixpoint sweep (n_optimization_steps : option Z) (files : list File)
    : list File :=
  match files with
  | [] => []
  | file :: rest =>
      if of_step n_optimization_steps file
      then file :: sweep n_optimization_steps rest
      else match rest with
           | [] => []
           | next :: rest' => next :: sweep n_optimization_steps rest'
           end
  end.

End GetPdosFiles.

(** The second, fourth, ... element of a list. *)
Fixpoint every_other {A} (l : list A) : list A :=
  match l with
  | _ :: x :: l' => x :: every_other l'
  | _ => []
  end.

(** Files of a run with the iteration steps written in them; the last one
    names no step. *)
Definition example_iter (file : string) : option Z :=
  dict_get [ ("k1-1_0.pdos", 0); ("k1-1_5.pdos", 5); ("k1-1_10.pdos", 10);
             ("k2-1_10.pdos", 10) ] file.

End Pdos.

(** ** The exchange-correlation functionals: [get_xc_functionals] *)

Module XC.

Import InpParser.

(** An [XCFunctionalProperty] object: what its [_data] holds for [name]
    and for [weight].  The objects live in a heap and are referred to by
    their position in it; the lists of [_xc_functional_map] and the lists
    that [get_xc_functionals] returns hold the same objects. *)
Record functional : Type := {
  name : string;
  weight : option dval
}.

(** The parser: the functionals made so far and the messages given to
    [logger.error]. *)
Record state : Type := {
  objects : list functional;
  logger : list string
}.

(** [XCFunctionalProperty(name)] *)
Definition XCFunctionalProperty (name : string) : functional :=
  {| name := name; weight := None |}.

(** The objects made in [__init__] for [_xc_functional_map], in the order
    in which they are written ... *)
Definition initial_objects : list functional :=
  map XCFunctionalProperty
    [ "GGA_X_B88"; "GGA_C_LYP"; "LDA_XC_TETER93"; "LDA_XC_TETER93";
      "GGA_X_PBE"; "GGA_C_PBE"; "GGA_X_OPTX"; "GGA_C_LYP";
      "GGA_XC_HCTH_120"; "HYB_GGA_XC_PBEH"; "HYB_GGA_XC_B3LYP";
      "MGGA_X_TPSS"; "MGGA_C_TPSS" ].

(** ... and the map itself. *)
Definition _xc_functional_map : list (string * list nat) :=
  [ ("BLYP", [0; 1]); ("LDA", [2]); ("PADE", [3]); ("PBE", [4; 5]);
    ("OLYP", [6; 7]); ("HCTH120", [8]); ("PBE0", [9]); ("B3LYP", [10]);
    ("TPSS", [11; 12]) ]%nat.

Definition initial : state := {| objects := initial_objects; logger := [] |}.

(** [value._data.update({"weight": weight})] for the object at [value] *)
Definition set_weight (value : nat) (w : option dval) (self : state) : state :=
  {| objects := alter (fun o => {| name := name o; weight := w |}) value
                  (objects self);
     logger := logger self |}.

(** A new object; the result is its position. *)
Definition new_functional (name : string) : M state nat := fun self =>
  (Ok (length (objects self)),
   {| objects := objects self ++ [XCFunctionalProperty name];
      logger := logger self |}).

Definition log_error (msg : string) (self : state) : state :=
  {| objects := objects self; logger := logger self ++ [msg] |}.

(** [for n, value in enumerate(values)], from [n] on *)
Fixpoint set_weights (attrib : dval) (n : nat) (values : list nat)
    : M state unit :=
  match values with
  | [] => mret tt
  | value :: rest =>
      w ← lift (dict_get_or_none attrib
                  (if (n =? 0)%nat then "SCALE_X" else "SCALE_C"));
      modify (set_weight value w);;
      set_weights attrib (S n) rest
  end.

(** The loop over the sections of [XC_FUNCTIONAL]; the object of the
    default of [get] is made whether it is used or not. *)
Fixpoint by_sections (functional_values : list (string * dval))
    (functionals : list nat) : M state (list nat) :=
  match functional_values with
  | [] => mret functionals
  | (name, attrib) :: rest =>
      let name := PyText.upper name in
      if String.eqb name "VALUE" then by_sections rest functionals else
      fresh ← new_functional name;
      let values := from_option id [fresh] (dict_get _xc_functional_map name) in
      set_weights attrib 0 values;;
      by_sections rest (functionals ++ values)
  end.

(** The loop over the names of the shortcut *)
Fixpoint by_names (names : list string) (functionals : list nat)
    : M state (list nat) :=
  match names with
  | [] => mret functionals
  | name :: rest =>
      let name := PyText.upper name in
      match dict_get _xc_functional_map name with
      | None =>
          modify (log_error "Cannot resolve xc functional");;
          by_names rest functionals
      | Some values => by_names rest (functionals ++ values)
      end
  end.

(** [inp_parser.get("FORCE_EVAL/DFT/XC/XC_FUNCTIONAL/VALUE")]: nothing, a
    name, or the list of the names given *)
Inductive shortcut : Type :=
| NoValue
| Name (s : string)
| Names (l : list string).

(** [get_xc_functionals()]; [functional_values] are the items of the dict
    of the section [XC_FUNCTIONAL], in order. *)
Definition get_xc_functionals (functionals : shortcut)
    (functional_values : list (string * dval)) : M state (list nat) :=
  match functionals with
  | NoValue => by_sections functional_values []
  | Name s =>
      if String.eqb s "NO_SHORTCUT" then by_sections functional_values []
      else by_names [s] []
  | Names l => by_names l []
  end.

(** The names of the shortcut that the map knows, and those it does not. *)
Definition known (name : string) : bool :=
  bool_decide (is_Some (dict_get _xc_functional_map (PyText.upper name))).

End XC.

(** ** The calculations of a run: [parse_configurations_quickstep] *)

Section Configurations.

Context {World Scf Calc AtomicCoord Scc Sys File : Type}.

Context (methods : @Methods World Scf Calc AtomicCoord Scc Sys).

(** The sections of the output that the method reads. *)
Record Quickstep : Type := {
  geometry_optimization : option Calc;
  (** [geometry_optimization.get("optimization_step", [])] *)
  optimization_step : list Calc;
  single_point : option Calc;
  molecular_dynamics : option Calc;
  (** [molecular_dynamics.get("md_step", [])] *)
  md_step : list Calc
}.

(** What the method reads and calls besides [parse_calculations]. *)
Record Surroundings : Type := {
  (** the truth value of a section of the output *)
  truthy : Calc -> bool;
  (** [len(sec_run.calculation)] *)
  calculation_count : World -> nat;
  (** [get_files("*.pdos", self.filepath, self.mainfile)] *)
  pdos_found : option (list File);
  (** [self.pdos_parser.get("iter")] on a file *)
  pdos_iter : File -> option Z;
  (** [self.parse_dos(sec_run.calculation[i], pdos_files)] *)
  on_parse_dos : nat -> option (list File) -> M World unit
}.

Context (around : Surroundings).

(** The run with the warnings of this method. *)
Record Configurations : Type := {
  run : @Run World AtomicCoord;
  warnings : list string
}.

Definition in_run {X} (m : M (@Run World AtomicCoord) X) : M Configurations X :=
  fun c => let '(x, r) := m (run c) in
           (x, {| run := r; warnings := warnings c |}).

Definition warn (msg : string) : M Configurations unit :=
  modify (fun c => {| run := run c; warnings := warnings c ++ [msg] |}).

(** [self.parse_dos(sec_run.calculation[i], pdos_files)] for [i] being
    [-1] or [0]; the calculation is looked up first. *)
Definition call_parse_dos (i : Z) (pdos_files : option (list File))
    : M Configurations unit :=
  c ← gets id;
  let count := calculation_count around (world (run c)) in
  scc ← lift (Py.getitem (seq 0 count) i);
  in_run (in_world (on_parse_dos around scc pdos_files)).

Definition is_truthy (section : option Calc) : bool :=
  match section with
  | Some s => truthy around s
  | None => false
  end.

Definition parse_configurations_quickstep (quickstep : Quickstep)
    : M Configurations unit :=
  match geometry_optimization quickstep with
  | Some geometry_optimization =>
      let optimization_steps := optimization_step quickstep in
      let single_point := single_point quickstep in
      let calculations :=
        [Some geometry_optimization] ++ map Some optimization_steps
        ++ [single_point] in
      in_run (parse_calculations methods calculations);;
      if is_truthy single_point then
        last ← lift (Py.getitem optimization_steps (-1));
        let n_optimization_steps := step_of methods last in
        (if bool_decide (n_optimization_steps
                         = Some (Z.of_nat (length optimization_steps)))
         then mret tt
         else warn "The length of optimization steps sections in the *.out file, does not coincide with the last parsed optimization step number.");;
        let pdos_files :=
          Pdos.get_pdos_files (pdos_iter around) (pdos_found around)
            n_optimization_steps in
        call_parse_dos (-1) pdos_files
      else mret tt
  | None =>
  match molecular_dynamics quickstep with
  | Some molecular_dynamics =>
      let single_point := single_point quickstep in
      let calculations := [single_point] ++ map Some (md_step quickstep) in
      in_run (parse_calculations methods calculations);;
      if is_truthy single_point then
        let pdos_files :=
          Pdos.get_pdos_files (pdos_iter around) (pdos_found around) (Some 0) in
        call_parse_dos 0 pdos_files
      else mret tt
  | None =>
  match single_point quickstep with
  | Some single_point =>
      (if atomic_coordinates methods is None
       then warn "Could not parse system information for the SinglePoint calculation."
       else mret tt);;
      in_run (parse_calculations methods [Some single_point]);;
      let pdos_files :=
        Pdos.get_pdos_files (pdos_iter around) (pdos_found around) (Some 0) in
      call_parse_dos (-1) pdos_files
  | None => mret tt
  end
  end
  end.

End Configurations.

(** A geometry optimisation whose output holds the final single point but
    no optimisation step, on the run [Scenario.opt]. *)
Module ConfigurationsScenario.

Definition quickstep : @Quickstep (option Z) := {|
  geometry_optimization := Some None;
  optimization_step := [];
  single_point := Some None;
  molecular_dynamics := None;
  md_step := []
|}.

Definition around
    : @Surroundings
        (@CP2KParser ExactHost.xnum string unit unit unit string Z)
        (option Z) string := {|
  truthy := fun _ => true;
  calculation_count := fun self => length (systems self);
  pdos_found := Some [];
  pdos_iter := fun _ => None;
  on_parse_dos := fun _ _ => mret tt
|}.

Definition start
    : @Configurations
        (@CP2KParser ExactHost.xnum string unit unit unit string Z) string :=
  {| run := Scenario.start Scenario.opt; warnings := [] |}.

End ConfigurationsScenario.

(** ** The atomic number of a kind: [get_atomic_number] *)

Module Atoms.

Import Re.

(** [([A-Z][a-z]?)] *)
Definition _re_symbol : regex :=
  Group 1 (Seq (Chars PyStr.is_upper) (opt (Chars PyText.is_lower))).

Section AtomicNumbers.

(** [ase.data.atomic_numbers] *)
Context (atomic_numbers : gmap string Z).

Definition get_atomic_number (element : string) : option Z :=
  match match_ _re_symbol element with
  | Some m => atomic_numbers !! InpParser.group_text m 1
  | None => None
  end.

End AtomicNumbers.

(** A label that is [symbol] followed by [rest], the symbol being a
    capital letter with a small letter, or a capital letter alone where no
    small letter follows it. *)
Definition is_symbol (symbol rest : string) : bool :=
  match symbol with
  | String U "" => PyStr.is_upper U && stops PyText.is_lower rest
  | String U (String l "") => PyStr.is_upper U && PyText.is_lower l
  | _ => false
  end.

End Atoms.
(** * Properties

    ** The string methods on examples *)

Example lower_mixed : PyStr.lower "Bohr*AU_t^-1" = "bohr*au_t^-1".
Proof. reflexivity. Qed.

Example replace_blank : PyStr.replace " " "" " a u _ t " = "au_t".
Proof. reflexivity. Qed.

Example split_pow : PyStr.split "**" "a**b***c" = ["a"; "b"; "*c"].
Proof. reflexivity. Qed.

Example split_none : PyStr.split "/" "" = [""].
Proof. reflexivity. Qed.

Example split_minus_one : PyStr.split "-1" "s-1" = ["s"; ""].
Proof. reflexivity. Qed.

Example rfind_paren : PyStr.rfind "(" "(a)(b)" = 3.
Proof. reflexivity. Qed.

Example rfind_no_paren : PyStr.rfind "(" "a/b" = -1.
Proof. reflexivity. Qed.

Example slice_to_minus_one : PyStr.slice_to "ab" (-1) = "a".
Proof. reflexivity. Qed.

Example words_setting : PyStr.words "0  none" = ["0"; "none"].
Proof. reflexivity. Qed.

Example of_Z_12 : PyStr.of_Z 12 = "12".
Proof. reflexivity. Qed.

Example float_minus_one : ExactHost.x_float "-1" = Some (ExactHost.XFloat (-1)).
Proof. reflexivity. Qed.

Example float_decimal : ExactHost.x_float "2.50e1" = Some (ExactHost.XFloat 25).
Proof. reflexivity. Qed.

Example float_word : ExactHost.x_float "bohr" = None.
Proof. reflexivity. Qed.

Example au_t_dims :
  ExactHost.x_au_t = ExactHost.XUnit [("hartree", (-1)%Q); ("hbar", 1%Q)].
Proof. reflexivity. Qed.

(** ** Strings without a given character *)

Lemma append_cons (a : ascii) (s t : string) :
  String a s +:+ t = String a (s +:+ t).
Proof. reflexivity. Qed.

Lemma append_empty_r (s : string) : s +:+ "" = s.
Proof.
  induction s as [|a s IH]; [reflexivity|].
  now rewrite append_cons, IH.
Qed.

Lemma append_snoc (s t : string) (a : ascii) :
  (s +:+ String a "") +:+ t = s +:+ String a t.
Proof.
  induction s as [|b s IH]; [reflexivity|].
  now rewrite !append_cons, IH.
Qed.

Section Absent.

Variables (c : ascii) (rest : string).

Lemma prefix_absent s :
  occurs c s = false -> String.prefix (String c rest) s = false.
Proof.
  destruct s as [|a s]; simpl; [reflexivity|].
  intros Hc. apply orb_false_iff in Hc as [Ha _].
  destruct (ascii_dec c a) as [->|Hne]; [|reflexivity].
  rewrite Ascii.eqb_refl in Ha. discriminate.
Qed.

Lemma rfind_at_absent s i :
  occurs c s = false -> PyStr.rfind_at (String c rest) s i = -1.
Proof.
  revert i. induction s as [|a s IH]; intros i Hc; [reflexivity|].
  pose proof (prefix_absent _ Hc) as Hp.
  simpl in Hc. apply orb_false_iff in Hc as [_ Hs].
  cbn [PyStr.rfind_at]. rewrite (IH _ Hs), Hp. reflexivity.
Qed.

Lemma split_at_absent s cur :
  occurs c s = false -> PyStr.split_at (String c rest) s 0 cur = [cur +:+ s].
Proof.
  revert cur. induction s as [|a s IH]; intros cur Hc.
  - simpl. now rewrite append_empty_r.
  - pose proof (prefix_absent _ Hc) as Hp.
    simpl in Hc. apply orb_false_iff in Hc as [_ Hs].
    cbn [PyStr.split_at]. rewrite Hp, (IH _ Hs).
    now rewrite append_snoc.
Qed.

Lemma split_absent s :
  occurs c s = false -> PyStr.split (String c rest) s = [s].
Proof. intros Hc. unfold PyStr.split. now rewrite split_at_absent. Qed.

End Absent.

Lemma rfind_absent c s : occurs c s = false -> PyStr.rfind (String c "") s = -1.
Proof. apply rfind_at_absent. Qed.

Lemma rfind_at_found c s i :
  0 <= i -> occurs c s = true -> i <= PyStr.rfind_at (String c "") s i.
Proof.
  revert i. induction s as [|a s IH]; intros i Hi Hc; [discriminate|].
  cbn [PyStr.rfind_at]. simpl in Hc.
  destruct (occurs c s) eqn:Hs.
  - specialize (IH (i + 1) ltac:(lia) eq_refl).
    destruct (PyStr.rfind_at (String c "") s (i + 1) <? 0) eqn:Hr; lia.
  - rewrite orb_false_r in Hc. apply Ascii.eqb_eq in Hc as ->.
    rewrite (rfind_at_absent c "" s (i + 1) Hs). simpl.
    destruct (ascii_dec c c); [|congruence].
    destruct s; simpl; lia.
Qed.

Lemma rfind_present c s :
  occurs c s = true -> (-1 <? PyStr.rfind (String c "") s) = true.
Proof.
  intros Hc. apply Z.ltb_lt.
  pose proof (rfind_at_found c s 0 ltac:(lia) Hc).
  unfold PyStr.rfind. lia.
Qed.

Lemma occurs_rfind c s :
  -1 < PyStr.rfind (String c "") s -> occurs c s = true.
Proof.
  intros Hr. destruct (occurs c s) eqn:Hc; [reflexivity|].
  rewrite (rfind_absent c s Hc) in Hr. lia.
Qed.

(** ** The unit resolver *)

Section ResolverFacts.

Context {num : Type} `{H : Host num}.

#[local] Abbreviation val := (value num).

Lemma resolve_unit_unfold fuel s (parts : list val) :
  resolve_unit (S fuel) s parts
  = resolve_unit_body (resolve_unit fuel) s parts.
Proof. reflexivity. Qed.

(** A string that normalises to a key of the table resolves to the entry,
    whatever its capitals and blanks. *)
Lemma resolve_unit_known fuel s (parts : list val) v :
  dict_get units_map (normalized s) = Some v ->
  resolve_unit (S fuel) s parts = Ok v.
Proof.
  intros Hk. rewrite resolve_unit_unfold. unfold resolve_unit_body.
  fold (normalized s). now rewrite Hk.
Qed.

(** No key of the table contains a parenthesis. *)
Lemma units_map_no_paren u (v : val) :
  dict_get units_map u = Some v -> occurs "(" u = false.
Proof.
  unfold units_map, dict_get.
  repeat match goal with
         | |- context [String.eqb ?k u] =>
             destruct (String.eqb_spec k u) as [<-|_]; [reflexivity|]
         end.
  discriminate.
Qed.

Lemma match_placeholder_absent u :
  occurs "[" u = false -> match_placeholder u = None.
Proof.
  destruct u as [|a u]; [reflexivity|]. simpl.
  intros Ha. apply orb_false_iff in Ha as [Ha _].
  destruct a as [[] [] [] [] [] [] [] []]; try reflexivity; discriminate.
Qed.

Lemma plain_token_spec u :
  plain_token u = true ->
  String.eqb u "" = false /\ occurs "(" u = false /\ occurs "/" u = false
  /\ occurs "*" u = false /\ occurs "^" u = false /\ occurs "-" u = false
  /\ occurs "[" u = false.
Proof.
  unfold plain_token. rewrite !andb_true_iff, !negb_true_iff. tauto.
Qed.

(** What is left of [resolve_unit] for a token: no rule applies. *)
Lemma resolve_unit_token fuel s (parts : list val) :
  dict_get units_map (normalized s) = None ->
  py_float (normalized s) = None ->
  plain_token (normalized s) = true ->
  resolve_unit (S fuel) s parts = Ok VNone.
Proof.
  intros Hk Hf Ht. rewrite resolve_unit_unfold. unfold resolve_unit_body.
  fold (normalized s). rewrite Hk, Hf.
  apply plain_token_spec in Ht as (He & Hp & Hd & Hm & Hc & Hn & Hb).
  rewrite He, (rfind_absent _ _ Hp).
  rewrite (split_absent _ _ _ Hd), (split_absent "*" "*" _ Hm),
    (split_absent _ _ _ Hc), (split_absent _ _ _ Hm),
    (split_absent "-" "1" _ Hn).
  simpl. now rewrite (match_placeholder_absent _ Hb).
Qed.

(** What [resolve_unit] does when the parentheses do not pair up. *)
Lemma resolve_unit_unbalanced fuel s (parts : list val) :
  py_float (normalized s) = None ->
  occurs "(" (normalized s) = true ->
  PyStr.count "(" (normalized s) <> PyStr.count ")" (normalized s) ->
  resolve_unit (S fuel) s parts = Ok (VStr (normalized s)).
Proof.
  intros Hf Hp Hc. rewrite resolve_unit_unfold. unfold resolve_unit_body.
  fold (normalized s).
  destruct (dict_get units_map (normalized s)) as [v|] eqn:Hk.
  { apply units_map_no_paren in Hk. congruence. }
  rewrite Hf.
  destruct (String.eqb_spec (normalized s) "") as [He|_].
  { rewrite He in Hp. discriminate. }
  rewrite (rfind_present _ _ Hp).
  apply Nat.eqb_neq in Hc. now rewrite Hc.
Qed.

(** The exponent loop folds the reversed exponents onto the base from the
    left: the last exponent is applied first, to the base. *)
Lemma pow_chain_three (a b c : val) :
  fold_arith Pow a (rev [b; c])
  = (x ← py_arith Pow a c; py_arith Pow x b).
Proof.
  simpl. destruct (py_arith Pow a c) as [x|e]; simpl; [|reflexivity].
  now destruct (py_arith Pow x b).
Qed.

(** Arithmetic on a missing value raises, whatever the host. *)
Lemma py_arith_none_r op (a : val) : py_arith op a VNone = Raise TypeError.
Proof. now destruct a. Qed.

Lemma py_arith_none_l op (b : val) : py_arith op VNone b = Raise TypeError.
Proof. reflexivity. Qed.

End ResolverFacts.

(** Lower-casing never produces a capital letter. *)
Lemma lower_char_not_K a : PyStr.lower_char a <> "K"%char.
Proof. destruct a as [[] [] [] [] [] [] [] []]; discriminate. Qed.

Lemma normalized_cons a s :
  normalized (String a s)
  = if Ascii.eqb (PyStr.lower_char a) " "
    then normalized s
    else String (PyStr.lower_char a) (normalized s).
Proof.
  unfold normalized, PyStr.replace. cbn [PyStr.lower PyStr.replace_at].
  cbn [String.prefix]. destruct (ascii_dec " " (PyStr.lower_char a)) as [<-|Hne].
  - now destruct (PyStr.lower s).
  - destruct (Ascii.eqb_spec (PyStr.lower_char a) " "); [congruence|reflexivity].
Qed.

(** The table entry keyed ["K"] cannot be reached through [resolve_unit]:
    no input normalises to a string with a capital. *)
Lemma kelvin_key_unreachable s : normalized s <> "K".
Proof.
  induction s as [|a s IH]; [discriminate|].
  rewrite normalized_cons.
  destruct (Ascii.eqb (PyStr.lower_char a) " "); [exact IH|].
  intros [= Ha _]. now apply (lower_char_not_K a).
Qed.

(** A group that opens after the only closing parenthesis is never
    replaced: the resolver calls itself on the same string for ever. *)
Lemma resolve_body_crossed_parens rec parts :
  resolve_unit_body (H := exact_host) rec ")(" parts
  = (v ← rec "" parts; rec ")(" (parts ++ [v])%list).
Proof.
  unfold resolve_unit_body. vm_compute.
  destruct (rec "" parts); reflexivity.
Qed.

Lemma resolve_unit_crossed_parens fuel parts :
  resolve_unit (H := exact_host) fuel ")(" parts = Raise RecursionError.
Proof.
  revert parts. induction fuel as [|fuel IH]; intros parts; [reflexivity|].
  rewrite resolve_unit_unfold, resolve_body_crossed_parens.
  destruct (resolve_unit fuel "" parts) as [v|e] eqn:Hv; simpl.
  - apply IH.
  - destruct fuel; [now inversion Hv|]. discriminate.
Qed.

(** * The resolver under any host arithmetic

    The results of this section hold for every instance of [Host]: they use
    of Python's [float] only that it rejects the strings at hand, which are
    not numbers, and nothing of the arithmetic of [pint]. *)

Section AnyHost.
Context {num : Type} `{H : Host num}.

Ltac closed_strings :=
  repeat match goal with
  | |- context [PyStr.replace ?a ?b (PyStr.lower ?s)] =>
      let r := eval vm_compute in (PyStr.replace a b (PyStr.lower s)) in
      change (PyStr.replace a b (PyStr.lower s)) with r
  | |- context [PyStr.split ?a ?s] =>
      let r := eval vm_compute in (PyStr.split a s) in
      change (PyStr.split a s) with r
  | |- context [PyStr.rfind ?a ?s] =>
      let r := eval vm_compute in (PyStr.rfind a s) in
      change (PyStr.rfind a s) with r
  | |- context [String.eqb ?a ?s] =>
      let r := eval vm_compute in (String.eqb a s) in
      change (String.eqb a s) with r
  end.

(** A ratio of two unknown names raises: both names resolve to [None] and the
    division is applied to them. *)
Lemma unknown_ratio_raises_any_host fuel (parts : list (value num)) :
  py_float "a/b" = None -> py_float "a" = None -> py_float "b" = None ->
  resolve_unit (S (S fuel)) "a/b" parts = Raise TypeError.
Proof.
  intros Hab Ha Hb.
  pose proof (resolve_unit_token fuel "a" parts eq_refl Ha eq_refl) as Ra.
  pose proof (resolve_unit_token fuel "b" parts eq_refl Hb eq_refl) as Rb.
  rewrite resolve_unit_unfold. unfold resolve_unit_body.
  closed_strings. unfold units_map at 1. cbn [dict_get]. closed_strings.
  rewrite Hab. cbn -[resolve_unit]. rewrite Ra. cbn -[resolve_unit].
  rewrite Rb. reflexivity.
Qed.

(** The key [K] of the table is looked up as [k] and resolves to [None]. *)
Lemma kelvin_key_any_host fuel (parts : list (value num)) :
  py_float "k" = None -> resolve_unit (S fuel) "K" parts = Ok VNone.
Proof.
  intros Hk. now apply resolve_unit_token.
Qed.

(** The default velocity unit is split at the exponent first; its base
    [bohr*au_t] multiplies by the unresolved [bohr] and raises. *)
Lemma bohr_per_au_t_any_host fuel (parts : list (value num)) :
  py_float "bohr*au_t^-1" = None -> py_float "bohr*au_t" = None ->
  py_float "bohr" = None ->
  resolve_unit (S (S (S fuel))) "bohr*au_t^-1" parts = Raise TypeError.
Proof.
  intros H1 H2 H3.
  pose proof (resolve_unit_token fuel "bohr" parts eq_refl H3 eq_refl) as Rb.
  pose proof (resolve_unit_known fuel "au_t" parts (VNum au_t) eq_refl) as Ra.
  assert (Rp : resolve_unit (S (S fuel)) "bohr*au_t" parts = Raise TypeError).
  { rewrite resolve_unit_unfold. unfold resolve_unit_body.
    closed_strings. unfold units_map at 1. cbn [dict_get]. closed_strings.
    rewrite H2. cbn -[resolve_unit]. rewrite Rb. cbn -[resolve_unit].
    now rewrite Ra. }
  rewrite resolve_unit_unfold. unfold resolve_unit_body.
  closed_strings. unfold units_map at 1. cbn [dict_get]. closed_strings.
  rewrite H1. cbn -[resolve_unit]. now rewrite Rp.
Qed.

(** A chain of exponents raises the base to the last exponent first:
    [2**3**2] is [(2**2)**3]. *)
Lemma exponent_chain_any_host fuel (parts : list (value num)) two three :
  py_float "2**3**2" = None ->
  py_float "2" = Some two -> py_float "3" = Some three ->
  resolve_unit (S (S fuel)) "2**3**2" parts
  = (x ← py_arith Pow (VNum two) (VNum two); py_arith Pow x (VNum three)).
Proof.
  intros H0 H2 H3.
  assert (R2 : resolve_unit (S fuel) "2" parts = Ok (VNum two)).
  { rewrite resolve_unit_unfold. unfold resolve_unit_body.
    closed_strings. unfold units_map at 1. cbn [dict_get]. closed_strings.
    now rewrite H2. }
  assert (R3 : resolve_unit (S fuel) "3" parts = Ok (VNum three)).
  { rewrite resolve_unit_unfold. unfold resolve_unit_body.
    closed_strings. unfold units_map at 1. cbn [dict_get]. closed_strings.
    now rewrite H3. }
  rewrite resolve_unit_unfold. unfold resolve_unit_body.
  closed_strings. unfold units_map at 1. cbn [dict_get]. closed_strings.
  rewrite H0. cbn -[resolve_unit py_arith]. cbv beta.
  rewrite R2. cbn -[resolve_unit py_arith].
  rewrite R3. cbn -[py_arith].
  destruct (py_arith Pow (VNum two) (VNum two)) as [x|e]; cbn -[py_arith];
    [|reflexivity].
  now destruct (py_arith Pow x (VNum three)).
Qed.
End AnyHost.

(** *** Soft failures and exceptions of the resolver *)

(** C1, as amended.  Let [u] be the input lower-cased and stripped of
    spaces, neither a key of the table nor a float literal.  If [u] is a
    single token, [resolve_unit] returns [None]; if [u] contains an opening
    parenthesis and its counts of opening and closing parentheses differ,
    [resolve_unit] returns [u] itself.  Neither case raises, at any
    recursion limit that admits the call. *)
Theorem resolve_unit_soft_failure {num : Type} `{H : Host num} (fuel : nat)
    (s : string)
    (parts : list (value num)) :
  dict_get units_map (normalized s) = None ->
  py_float (normalized s) = None ->
  plain_token (normalized s) = true
  \/ (occurs "(" (normalized s) = true
      /\ PyStr.count "(" (normalized s) <> PyStr.count ")" (normalized s)) ->
  resolve_unit (S fuel) s parts
  = Ok (if occurs "(" (normalized s) then VStr (normalized s) else VNone).
Proof.
  intros Hk Hf [Ht|[Hp Hc]].
  - rewrite (resolve_unit_token _ _ _ Hk Hf Ht).
    apply plain_token_spec in Ht as (_ & -> & _). reflexivity.
  - rewrite Hp. now apply resolve_unit_unbalanced.
Qed.

Lemma resolve_unit_soft_failure_witness :
  resolve_unit (H := exact_host) 1 "unknownunitxyz" [] = Ok VNone
  /\ resolve_unit (H := exact_host) 1 "(Bohr / Angstrom" []
     = Ok (VStr "(bohr/angstrom").
Proof.
  split.
  - apply (resolve_unit_soft_failure (H := exact_host) 0 "unknownunitxyz" []);
      [reflexivity | reflexivity | left; reflexivity].
  - apply (resolve_unit_soft_failure (H := exact_host) 0 "(Bohr / Angstrom" []);
      [reflexivity | reflexivity | right; split; [reflexivity | discriminate]].
Defined.

(** C1 as stated fails: a ratio of two unknown unit names raises
    [TypeError], each name having resolved to [None]. *)
Lemma resolve_unit_unknown_ratio_raises :
  resolve_unit (H := exact_host) recursion_limit "a" [] = Ok VNone
  /\ resolve_unit (H := exact_host) recursion_limit "b" [] = Ok VNone
  /\ resolve_unit (H := exact_host) recursion_limit "a/b" [] = Raise TypeError.
Proof. repeat split; vm_compute; reflexivity. Qed.

(** Further inputs on which the resolver raises. *)
Example resolve_unit_placeholder_raises :
  resolve_unit (H := exact_host) recursion_limit "[0]" [] = Raise IndexError.
Proof. vm_compute. reflexivity. Qed.

Example resolve_unit_zero_divisor_raises :
  resolve_unit (H := exact_host) recursion_limit "1/0" []
  = Raise ZeroDivisionError.
Proof. vm_compute. reflexivity. Qed.

Example resolve_unit_closing_only :
  resolve_unit (H := exact_host) recursion_limit "a)" [] = Ok VNone.
Proof. vm_compute. reflexivity. Qed.

(** *** Chains of exponents *)

(** C2 fails on the code: in ["2**3**2"] the loop over the reversed
    exponents computes [(2 ** 2) ** 3 = 64], whereas the explicitly grouped
    ["2**(3**2)"] resolves to [2 ** 9 = 512]. *)
Theorem exponent_chain_not_right_associative :
  resolve_unit (H := exact_host) recursion_limit "2**3**2" []
  = Ok (VNum (ExactHost.XFloat 64))
  /\ resolve_unit (H := exact_host) recursion_limit "2**(3**2)" []
     = Ok (VNum (ExactHost.XFloat 512)).
Proof. split; vm_compute; reflexivity. Qed.

Example exponent_chain_caret :
  resolve_unit (H := exact_host) recursion_limit "hartree^2^3" []
  = Ok (VNum (ExactHost.XUnit [("hartree", 6%Q)]))
  /\ resolve_unit (H := exact_host) recursion_limit "hartree^(2^3)" []
     = Ok (VNum (ExactHost.XUnit [("hartree", 8%Q)])).
Proof. split; vm_compute; reflexivity. Qed.

(** *** Composite expressions *)

(** C3 fails on the code: ["bohr"] is not a key of the table and resolves
    to [None], and the default velocity unit ["bohr*au_t^-1"] is split at
    ["^"] before ["*"], so that the product [1 * None] raises
    [TypeError]. *)
Theorem bohr_per_au_t_raises :
  dict_get (units_map (H := exact_host)) "bohr" = None
  /\ PyStr.split "^" "bohr*au_t^-1" = ["bohr*au_t"; "-1"]
  /\ resolve_unit (H := exact_host) recursion_limit "bohr" [] = Ok VNone
  /\ resolve_unit (H := exact_host) recursion_limit "bohr*au_t^-1" []
     = Raise TypeError.
Proof. repeat split; vm_compute; reflexivity. Qed.

(** With known names the split order shows in the value: the exponent
    applies to the whole product. *)
Example product_binds_tighter_than_power :
  resolve_unit (H := exact_host) recursion_limit "hartree*au_t^-1" []
  = Ok (VNum (ExactHost.XQuantity 1 [("hbar", (-1)%Q)]))
  /\ (a ← resolve_unit (H := exact_host) recursion_limit "hartree" [];
      b ← resolve_unit (H := exact_host) recursion_limit "au_t" [];
      py_arith TrueDiv a b)
     = Ok (VNum (ExactHost.XUnit [("hartree", 2%Q); ("hbar", (-1)%Q)])).
Proof. split; vm_compute; reflexivity. Qed.

Example ratio_of_known_units :
  resolve_unit (H := exact_host) recursion_limit "(Hartree / Angstrom)" []
  = Ok (VNum (ExactHost.XUnit [("angstrom", (-1)%Q); ("hartree", 1%Q)])).
Proof. vm_compute. reflexivity. Qed.

(** *** Names of the table *)

(** C9 fails on the code: the table holds kelvin under the key ["K"], but
    [resolve_unit] lower-cases its input first, so ["K"] is looked up as
    ["k"], is not found, and resolves to [None]. *)
Theorem kelvin_key_not_resolved :
  dict_get (units_map (H := exact_host)) "K" = Some (VNum (ureg "kelvin"))
  /\ normalized "K" = "k"
  /\ resolve_unit (H := exact_host) recursion_limit "K" [] = Ok VNone.
Proof. repeat split; vm_compute; reflexivity. Qed.

Example hartree_any_capitals :
  resolve_unit (H := exact_host) recursion_limit " Har Tree" []
  = Ok (VNum (ureg "hartree")).
Proof. vm_compute. reflexivity. Qed.

(** ** The input tree *)

Module InpValueFacts.
Import InpValue.

Lemma add_other key k v (d : gmap string item) :
  k <> key -> add k v d !! key = d !! key.
Proof.
  intros Hne. unfold add.
  destruct (d !! k); now rewrite lookup_insert_ne.
Qed.

Lemma add_fresh key v (d : gmap string item) :
  d !! key = None -> add key v d !! key = Some v.
Proof. intros Hd. unfold add. rewrite Hd. apply lookup_insert_eq. Qed.

Lemma add_scalar key v old (d : gmap string item) :
  d !! key = Some old -> is_list old = false ->
  add key v d !! key = Some (Items [old; v]).
Proof.
  intros Hd Hs. unfold add. rewrite Hd, lookup_insert_eq.
  now destruct old.
Qed.

Lemma add_list key v l (d : gmap string item) :
  d !! key = Some (Items l) ->
  add key v d !! key = Some (Items (l ++ [v])).
Proof. intros Hd. unfold add. rewrite Hd. apply lookup_insert_eq. Qed.

(** One more value for [key], given what the node holds for the values
    received so far. *)
Lemma add_collected key v pre (d : gmap string item) :
  Forall (fun x => is_list x = false) pre ->
  d !! key = collected pre ->
  add key v d !! key = collected (pre ++ [v]).
Proof.
  intros Hpre Hd. destruct pre as [|p [|q pre]]; simpl in *.
  - now apply add_fresh.
  - apply add_scalar; [assumption|]. now inversion Hpre.
  - now rewrite (add_list _ _ _ _ Hd).
Qed.

Lemma add_all_collected key kvs : forall pre (d : gmap string item),
  Forall (fun x => is_list x = false) pre ->
  Forall (fun kv => is_list kv.2 = false) kvs ->
  d !! key = collected pre ->
  add_all kvs d !! key = collected (pre ++ values_for key kvs).
Proof.
  induction kvs as [|[k v] kvs IH]; intros pre d Hpre Hkvs Hd.
  - simpl. now rewrite app_nil_r.
  - inversion Hkvs as [|? ? Hv Hrest]; subst. simpl in Hv.
    change (add_all ((k, v) :: kvs) d) with (add_all kvs (add k v d)).
    simpl. destruct (String.eqb_spec k key) as [->|Hne].
    + rewrite (IH (pre ++ [v])).
      * now rewrite <- app_assoc.
      * apply Forall_app. split; [assumption|]. now constructor.
      * assumption.
      * now apply add_collected.
    + apply IH; [assumption|assumption|].
      now rewrite add_other.
Qed.

(** C10.  In a node that starts without the key, after any run of [add]
    calls with scalar values (keyword strings and sections, as the input
    parser passes them), possibly interleaved with calls for other keys: a
    key that received one value holds that value as it is, and a key that
    received several holds the list of all of them in the order of the
    calls.  No earlier value is dropped or replaced. *)
Theorem add_accumulates (key : string) (kvs : list (string * item))
    (_data : gmap string item) :
  _data !! key = None ->
  Forall (fun kv => is_list kv.2 = false) kvs ->
  add_all kvs _data !! key
  = match values_for key kvs with
    | [] => None
    | [v] => Some v
    | vs => Some (Items vs)
    end.
Proof.
  intros Hd Hkvs.
  rewrite (add_all_collected key kvs [] _data (List.Forall_nil _) Hkvs Hd).
  simpl. now destruct (values_for key kvs) as [|v [|w vs]].
Qed.

Lemma add_accumulates_witness :
  add_all [("KIND", Keyword "H"); ("BASIS", Keyword "DZVP");
           ("KIND", SectionRef 7); ("KIND", Keyword "O")] ∅ !! "KIND"
  = Some (Items [Keyword "H"; SectionRef 7; Keyword "O"])
  /\ add_all [("KIND", Keyword "H"); ("BASIS", Keyword "DZVP");
              ("KIND", SectionRef 7); ("KIND", Keyword "O")] ∅ !! "BASIS"
     = Some (Keyword "DZVP").
Proof.
  split.
  - apply (add_accumulates "KIND"
             [("KIND", Keyword "H"); ("BASIS", Keyword "DZVP");
              ("KIND", SectionRef 7); ("KIND", Keyword "O")] ∅).
    + reflexivity.
    + repeat constructor.
  - apply (add_accumulates "BASIS"
             [("KIND", Keyword "H"); ("BASIS", Keyword "DZVP");
              ("KIND", SectionRef 7); ("KIND", Keyword "O")] ∅).
    + reflexivity.
    + repeat constructor.
Defined.

(** A first value that is itself a list is extended in place by the next
    call rather than wrapped. *)
Example add_onto_list :
  add "K" (Keyword "c") (add "K" (Items [Keyword "a"; Keyword "b"]) ∅) !! "K"
  = Some (Items [Keyword "a"; Keyword "b"; Keyword "c"]).
Proof. reflexivity. Qed.

End InpValueFacts.

(** ** The frame correlator *)

Section CorrelatorFacts.

Context {num : Type} `{H : Host num}.
Context {Frame Coord Cell RawLattice Lattice Row MdRecord : Type}.
Context (env : @Env num Frame Coord Cell RawLattice Lattice Row MdRecord).

#[local] Abbreviation Parser :=
  (@CP2KParser num Frame Coord Cell RawLattice Lattice Row).

#[local] Arguments resolve_unit : simpl never.
#[local] Arguments inp_get : simpl never.
#[local] Arguments print_setting : simpl never.
#[local] Arguments _normalize_filename : simpl never.
#[local] Arguments Py.path_join : simpl never.
#[local] Arguments PyStr.strip : simpl never.
#[local] Arguments dict_get : simpl never.
#[local] Arguments get_ensemble_type : simpl never.
#[local] Arguments mainfile : simpl never.

Lemma getitem_nat {A} (l : list A) (i : nat) :
  Py.getitem l (Z.of_nat i)
  = match l !! i with
    | Some x => Ok x
    | None => Raise IndexError
    end.
Proof.
  unfold Py.getitem.
  destruct (Z.ltb_spec (Z.of_nat i) 0) as [Hlt|_]; [lia|].
  destruct (Z.ltb_spec (Z.of_nat i) 0) as [Hlt|_]; [lia|].
  now rewrite Nat2Z.id.
Qed.




(** The look-up of [CP2KParser.get_trajectory] once the trajectory parser
    is configured and the ensemble of the frame is known. *)
Lemma get_trajectory_configured (self : Parser) (frame : Z) f ensemble :
  frame <> 0 ->
  mainfile env (tp_mainfile (traj_parser self)) = Some f ->
  get_ensemble_type self frame = Ok ensemble ->
  get_trajectory env frame self
  = let frame := if is_reftraj ensemble then frame - 1 else frame in
    if frame <? 0 then (Ok None, self)
    else match TrajParser_get_trajectory env (traj_parser self) frame with
         | Ok t => (Ok (Some t), self)
         | Raise _ =>
             (Ok None,
              log_error "Error reading trajectory for the specific frame." self)
         end.
Proof.
  intros Hf Hm He. unfold get_trajectory, lookup_trajectory.
  apply Z.eqb_neq in Hf. rewrite Hf.
  unfold mbind, M_bind, mret, M_ret, gets, lift, modify. simpl.
  rewrite Hm, He. simpl.
  destruct ((if is_reftraj ensemble then frame - 1 else frame) <? 0);
    [reflexivity|].
  now destruct (TrajParser_get_trajectory _ _ _).
Qed.


(** *** What the look-ups leave untouched *)

Ltac run_monad :=
  unfold mbind, M_bind, mret, M_ret, gets, lift, modify, raise; simpl.


Lemma lookup_velocities_parser (frame : Z) (self : Parser) :
  velocities_parser (lookup_velocities env frame self).2
  = velocities_parser self.
Proof.
  unfold lookup_velocities. run_monad.
  destruct (get_ensemble_type self frame) as [[e|]|]; simpl; try reflexivity.
  destruct ((if (PyStr.lower e =? "REFTRAJ")%string then frame - 1 else frame)
            <? 0); [reflexivity|].
  now destruct (TrajParser_get_trajectory _ _ _).
Qed.


(** *** The set-up for a print frequency of zero *)


Lemma configure_velocities_zero (self : Parser) name u :
  print_setting self "velocities" "0 none" = Ok (0, name) ->
  resolve_unit recursion_limit
    (inp_get self "MOTION/PRINT/VELOCITIES/UNIT" "bohr*au_t^-1") [] = Ok u ->
  exists self',
    configure_velocities self = (Ok tt, self')
    /\ velocities_parser self'
       = {| tp_mainfile :=
              Some (Py.path_join (maindir self)
                      (Py.str_of (inp self !! "GLOBAL/PROJECT_NAME")
                       +:+ "-vel-1.xyz"));
            tp_units := u;
            tp_frequency := 1 |}.
Proof.
  intros Hs Hu. unfold configure_velocities. run_monad.
  rewrite Hs. simpl. rewrite Hu. simpl. eexists. split; reflexivity.
Qed.


(** The sampling method is molecular dynamics exactly when the output has
    the section of molecular dynamics. *)
Lemma is_md_spec (self : Parser) :
  is_md self = bool_decide (is_Some (out_molecular_dynamics self)).
Proof.
  unfold is_md, sampling_method. cbn [fold_left].
  destruct (out_molecular_dynamics self) as [md|].
  - now rewrite !(bool_decide_eq_true_2 _ (ltac:(eauto) : is_Some (Some md))).
  - rewrite !(bool_decide_eq_false_2 (is_Some (@None (option (list MdStep)))))
      by (intros [? [=]]).
    now destruct (out_geometry_optimization self), (out_single_point self).
Qed.

(** With the section of molecular dynamics in the output,
    [get_velocities] returns at once. *)
Lemma get_velocities_md (self : Parser) (frame : Z) :
  is_Some (out_molecular_dynamics self) ->
  get_velocities env frame self = (Ok None, self).
Proof.
  intros Hmd. unfold get_velocities. run_monad.
  now rewrite (bool_decide_eq_true_2 _ Hmd).
Qed.

(** Without it there is no ensemble, and the test of the ensemble
    raises. *)
Lemma lookup_velocities_without_md (self : Parser) (frame : Z) :
  out_molecular_dynamics self = None ->
  (lookup_velocities env frame self).1 = Raise AttributeError.
Proof.
  intros Hmd. unfold lookup_velocities, get_ensemble_type. run_monad.
  rewrite is_md_spec, Hmd.
  now rewrite (bool_decide_eq_false_2 (is_Some (@None (option (list MdStep)))))
    by (intros [? [=]]).
Qed.

Lemma get_velocities_without_md (self : Parser) (frame : Z) :
  out_molecular_dynamics self = None ->
  exists e, (get_velocities env frame self).1 = Raise e.
Proof.
  intros Hmd. unfold get_velocities. run_monad. rewrite Hmd.
  rewrite (bool_decide_eq_false_2 (is_Some (@None (option (list MdStep)))))
    by (intros [? [=]]).
  destruct (mainfile env (tp_mainfile (velocities_parser self))) as [f|].
  - simpl.
    pose proof (lookup_velocities_without_md self frame Hmd) as Hl.
    destruct (lookup_velocities env frame self) as [r s']. simpl in Hl.
    subst r. now exists AttributeError.
  - unfold configure_velocities. run_monad.
    destruct (print_setting self "velocities" "0 none") as [[q filename]|e];
      simpl; [|now exists e].
    destruct (q =? 0);
      (destruct (resolve_unit recursion_limit _ []) as [u|e];
       simpl; [|now exists e]);
      match goal with
      | |- context [lookup_velocities env frame ?s] =>
          pose proof (lookup_velocities_without_md s frame Hmd) as Hl;
          destruct (lookup_velocities env frame s) as [r s'];
          simpl in Hl; subst r; now exists AttributeError
      end.
Qed.

(** [get_velocities] never returns a record. *)
Lemma get_velocities_no_record (self : Parser) (frame : Z) v :
  (get_velocities env frame self).1 <> Ok (Some v).
Proof.
  destruct (out_molecular_dynamics self) as [md|] eqn:Hmd.
  - rewrite get_velocities_md by (rewrite Hmd; eauto). discriminate.
  - destruct (get_velocities_without_md self frame Hmd) as [e ->].
    discriminate.
Qed.



(** With nothing said about the trajectory file in the input, the file of
    the coordinates is [<project>-pos-1.xyz]. *)
Lemma default_trajectory_file (self : Parser) project :
  inp self !! "MOTION/PRINT/TRAJECTORY/FILENAME" = None ->
  inp self !! "MOTION/PRINT/TRAJECTORY/FORMAT" = None ->
  inp self !! "GLOBAL/PROJECT_NAME" = Some project ->
  Py.str_of
    (_normalize_filename self
       (PyStr.strip (inp_get self "MOTION/PRINT/TRAJECTORY/FILENAME" "")))
  +:+ "-pos-1."
  +:+ from_option id "xyz"
        (dict_get _file_extension_map
           (PyStr.strip (inp_get self "MOTION/PRINT/TRAJECTORY/FORMAT" "XYZ")))
  = project +:+ "-pos-1.xyz".
Proof.
  intros Hn Hfm Hp. unfold inp_get, _normalize_filename.
  rewrite Hn, Hfm. simpl. now rewrite Hp.
Qed.

(** *** Frames for which there is nothing to look up *)

Lemma get_lattice_vectors_configured (fuel : nat) (self : Parser) (frame : Z)
    f frequency ensemble :
  frame <> 0 ->
  mainfile env (dp_mainfile (cell_parser self)) = Some f ->
  dp_frequency (cell_parser self) = Some frequency ->
  frequency <> 0 ->
  get_ensemble_type self (frame - (_step_start self - 1)) = Ok ensemble ->
  get_lattice_vectors env (S fuel) frame self
  = let frame := frame - (_step_start self - 1) in
    let frame := if is_reftraj ensemble then frame - 1 else frame in
    if (negb (frame mod frequency =? 0) || (frame <? 0))%bool
    then (Ok None, self)
    else match read_lattice env (cell_parser self) frame with
         | Ok l => (Ok (Some l), self)
         | Raise _ => (Ok None, log_error "Error reading lattice vectors." self)
         end.
Proof.
  intros Hf Hm Hq Hq0 He. cbn [get_lattice_vectors].
  unfold get_lattice_vectors_body, lookup_lattice.
  apply Z.eqb_neq in Hf. rewrite Hf. run_monad. rewrite Hm. simpl.
  rewrite He. simpl. rewrite Hq. simpl. unfold Py.modulo.
  apply Z.eqb_neq in Hq0. rewrite Hq0. simpl.
  destruct (negb _ || _)%bool; [reflexivity|].
  now destruct (read_lattice _ _ _).
Qed.

Lemma get_md_output_configured (self : Parser) (frame : Z) f ensemble :
  mainfile env (dp_mainfile (energy_parser self)) = Some f ->
  get_ensemble_type self frame = Ok ensemble ->
  get_md_output env frame self
  = let frame := if is_reftraj ensemble then frame - 1 else frame in
    if frame <? 0 then (Ok MdEmpty, self)
    else match read_energy env (energy_parser self) frame with
         | Ok r => (Ok (MdFields r), self)
         | Raise _ => (Ok MdEmpty, log_error "Error reading MD energies." self)
         end.
Proof.
  intros Hm He. unfold get_md_output, lookup_energy. run_monad.
  rewrite Hm. simpl. rewrite Hm, He. simpl.
  destruct ((if is_reftraj ensemble then frame - 1 else frame) <? 0);
    [reflexivity|].
  now destruct (read_energy _ _ _).
Qed.

(** The guards that the look-ups have.  With the parser of the file
    configured and the ensemble of the frame obtained, for a frame other
    than the initial one: a frame that is negative once adjusted yields
    nothing and leaves the parser as it is -- [None] for the lattice
    vectors and the positions, the empty record for the MD energies; for
    the lattice vectors so does a frame that is not a multiple of the print
    frequency of the cell file.  The positions have no such test of the
    frequency. *)
Lemma nothing_to_look_up (fuel : nat) (self : Parser) (frame : Z)
    (f : string) (frequency : Z) (ensemble : option string) :
  frame <> 0 ->
  (mainfile env (dp_mainfile (cell_parser self)) = Some f ->
   dp_frequency (cell_parser self) = Some frequency ->
   frequency <> 0 ->
   get_ensemble_type self (frame - (_step_start self - 1)) = Ok ensemble ->
   (let adjusted :=
      if is_reftraj ensemble then frame - (_step_start self - 1) - 1
      else frame - (_step_start self - 1) in
    adjusted mod frequency <> 0 \/ adjusted < 0) ->
   get_lattice_vectors env (S fuel) frame self = (Ok None, self))
  /\ (mainfile env (tp_mainfile (traj_parser self)) = Some f ->
      get_ensemble_type self frame = Ok ensemble ->
      (if is_reftraj ensemble then frame - 1 else frame) < 0 ->
      get_trajectory env frame self = (Ok None, self))
  /\ (mainfile env (dp_mainfile (energy_parser self)) = Some f ->
      get_ensemble_type self frame = Ok ensemble ->
      (if is_reftraj ensemble then frame - 1 else frame) < 0 ->
      get_md_output env frame self = (Ok MdEmpty, self)).
Proof.
  intros Hf. repeat split.
  - intros Hm Hq Hq0 He Hadj.
    rewrite (get_lattice_vectors_configured fuel self frame f frequency
               ensemble Hf Hm Hq Hq0 He).
    cbv zeta in *.
    replace (negb _ || _)%bool with true; [reflexivity|].
    symmetry. apply orb_true_iff.
    destruct (is_reftraj ensemble); destruct Hadj as [Hmod|Hneg].
    + left. apply negb_true_iff, Z.eqb_neq. exact Hmod.
    + right. apply Z.ltb_lt. exact Hneg.
    + left. apply negb_true_iff, Z.eqb_neq. exact Hmod.
    + right. apply Z.ltb_lt. exact Hneg.
  - intros Hm He Hneg.
    rewrite (get_trajectory_configured self frame f ensemble Hf Hm He).
    cbv zeta. apply Z.ltb_lt in Hneg. now rewrite Hneg.
  - intros Hm He Hneg.
    rewrite (get_md_output_configured self frame f ensemble Hm He).
    cbv zeta. apply Z.ltb_lt in Hneg. now rewrite Hneg.
Qed.

(** *** The replay ensemble *)

Lemma lower_char_not_R a : PyStr.lower_char a <> "R"%char.
Proof. destruct a as [[] [] [] [] [] [] [] []]; discriminate. Qed.

(** The test of [get_velocities] compares a lower-cased string with
    ["REFTRAJ"]: it never holds. *)
Lemma lower_never_reftraj (ensemble : string) :
  String.eqb (PyStr.lower ensemble) "REFTRAJ" = false.
Proof.
  apply String.eqb_neq. destruct ensemble as [|a e]; [discriminate|].
  simpl. intros [= Ha _]. now apply (lower_char_not_R a).
Qed.

(** So the velocities are looked up at the requested frame, in whatever
    ensemble. *)
Lemma lookup_velocities_unshifted (self : Parser) (frame : Z) ensemble :
  get_ensemble_type self frame = Ok (Some ensemble) ->
  lookup_velocities env frame self
  = if frame <? 0 then (Ok None, self)
    else match TrajParser_get_trajectory env (velocities_parser self) frame with
         | Ok t => (Ok (Some t), self)
         | Raise _ => (Ok None, log_error "Error reading velocities." self)
         end.
Proof.
  intros He. unfold lookup_velocities. run_monad. rewrite He. simpl.
  rewrite lower_never_reftraj.
  destruct (frame <? 0); [reflexivity|].
  now destruct (TrajParser_get_trajectory _ _ _).
Qed.

(** The positions, the lattice vectors and the energies are looked up one
    frame earlier in the replay ensemble. *)
Lemma lookup_trajectory_reftraj (self : Parser) (frame : Z) :
  get_ensemble_type self frame = Ok (Some "REFTRAJ") ->
  0 < frame ->
  lookup_trajectory env frame self
  = match TrajParser_get_trajectory env (traj_parser self) (frame - 1) with
    | Ok t => (Ok (Some t), self)
    | Raise _ =>
        (Ok None,
         log_error "Error reading trajectory for the specific frame." self)
    end.
Proof.
  intros He Hf. unfold lookup_trajectory. run_monad. rewrite He. simpl.
  destruct (Z.ltb_spec (frame - 1) 0) as [Hneg|_]; [lia|].
  now destruct (TrajParser_get_trajectory _ _ _).
Qed.

(** In a run of molecular dynamics with the steps [md_step], asking for
    the ensemble of the frame after the last step raises. *)
Lemma get_ensemble_type_past_the_end (self : Parser) md_step :
  out_molecular_dynamics self = Some (Some md_step) ->
  get_ensemble_type self (Z.of_nat (length md_step) + 1) = Raise IndexError.
Proof.
  intros Hmd. unfold get_ensemble_type, is_md, sampling_method.
  rewrite Hmd. cbn [fold_left].
  rewrite (bool_decide_eq_true_2 _ (ltac:(eauto) : is_Some (Some (Some md_step)))).
  simpl.
  destruct (Z.eqb_spec (Z.of_nat (length md_step) + 1) 0) as [H0|_]; [lia|].
  replace (Z.of_nat (length md_step) + 1 - 1) with (Z.of_nat (length md_step))
    by lia.
  rewrite getitem_nat, lookup_ge_None_2; [reflexivity|lia].
Qed.

End CorrelatorFacts.

(** ** The correlator on the runs of [Scenario] *)

Module ScenarioFacts.
Import Scenario.

(** *** Print frequency zero *)



(** The settings [coordinates "0 none"], spelled out. *)
Example zero_frequency_coordinates :
  traj_parser
    (get_trajectory env 2 (parser [("coordinates", "0 none")] [] None)).2
  = {| tp_mainfile := Some "/run/H2O-pos-1.xyz";
       tp_units := VNum (ureg "angstrom");
       tp_frequency := 1 |}.
Proof. vm_compute. reflexivity. Qed.

(** The default unit of the velocities does not resolve: the set-up of the
    velocities parser raises after the file has been assigned. *)
Example velocities_default_unit :
  (get_velocities env 2 opt).1 = Raise TypeError
  /\ tp_mainfile (velocities_parser (get_velocities env 2 opt).2)
     = Some "/run/H2O-vel-1.xyz".
Proof. split; vm_compute; reflexivity. Qed.

(** The default setting of the energies, ["0, none"], is not a frequency
    and a file name. *)
Example energies_default_setting :
  (get_md_output env 2 (dynamics "NVE" [])).1 = Raise ValueError.
Proof. vm_compute. reflexivity. Qed.

(** *** Selection of the frame *)



(** C7 fails on the code for the positions.  With the positions printed
    every second step and no iterations recorded in the file, the frame 3
    gets the record of the iteration 2: [get_trajectory] has no test of
    [frame % frequency], which [get_lattice_vectors] has (there the frame
    3 at the frequency 2 yields [None]).  And the frame -1 in a run of a
    single step of molecular dynamics raises, the steps of the output
    being indexed for the ensemble before the test of the sign. *)
Theorem frame_between_records :
  print_setting dcd "coordinates" "0 none" = Ok (2, "H2O-pos-1.dcd")
  /\ trajectory_prop env (traj_parser dcd_configured)
     = Ok (Some ["d0"; "d2"; "d4"], [])
  /\ (get_trajectory env 3 dcd).1 = Ok (Some "d2")
  /\ (get_trajectory env 3 dcd_configured).1 = Ok (Some "d2")
  /\ (get_lattice_vectors env 2 3 cell).1 = Ok None
  /\ (get_trajectory env (-1) one_step_md).1 = Raise IndexError.
Proof. repeat split; vm_compute; reflexivity. Qed.

(** *** Frames with nothing to look up *)

(** For a negative frame [get_md_output] returns the empty record, not
    [None]. *)
Lemma negative_frame_energies_not_none :
  get_md_output env (-1) md_configured = (Ok MdEmpty, md_configured).
Proof. vm_compute. reflexivity. Qed.

Lemma nothing_to_look_up_scenario :
  get_lattice_vectors env 1 3 cell_configured = (Ok None, cell_configured)
  /\ get_lattice_vectors env 1 (-2) cell_configured = (Ok None, cell_configured)
  /\ get_trajectory env (-1) md_configured = (Ok None, md_configured)
  /\ get_md_output env (-1) md_configured = (Ok MdEmpty, md_configured).
Proof.
  destruct (nothing_to_look_up env 0 cell_configured 3 "/run/H2O-1.cell" 2 None
              ltac:(discriminate)) as (Hodd & _ & _).
  destruct (nothing_to_look_up env 0 cell_configured (-2) "/run/H2O-1.cell" 2
              None ltac:(discriminate)) as (Hneg & _ & _).
  destruct (nothing_to_look_up env 0 md_configured (-1)
              "/run/H2O-md-pos-1.xyz" 2 (Some "NVE")
              ltac:(discriminate)) as (_ & Hpos & _).
  destruct (nothing_to_look_up env 0 md_configured (-1)
              "/run/H2O-1.ener" 1 (Some "NVE")
              ltac:(discriminate)) as (_ & _ & Hen).
  split; [|split; [|split]].
  - apply Hodd; try reflexivity; [discriminate|left; discriminate].
  - apply Hneg; try reflexivity; [discriminate|right; reflexivity].
  - apply Hpos; reflexivity.
  - apply Hen; reflexivity.
Qed.

(** *** The replay ensemble *)

(** C5 fails on the code for the velocities.  In a replay the positions of
    the frame 2 are those recorded at the iteration 1; the velocities are
    not looked up at all, neither at the iteration 1 nor at the iteration
    2, although the file of the velocities holds them: [get_velocities]
    returns [None] at its first test and leaves the parser of the
    velocities as it is, and the system that [parse_system] makes of the
    frame has no velocities. *)
Theorem velocities_not_looked_up_in_replay :
  get_ensemble_type replay 2 = Ok (Some "REFTRAJ")
  /\ (get_trajectory env 2 replay).1 = Ok (Some "e1")
  /\ dict_get trajectory_files "/run/H2O-vel-1.xyz"
     = Some (["v0"; "v1"; "v2"; "v3"], [0; 1; 2; 3])
  /\ get_velocities env 2 replay = (Ok None, replay)
  /\ (parse_system env (ByFrame 2) replay).1 = Ok (Some 0%nat)
  /\ sys_trajectory <$> systems (parse_system env (ByFrame 2) replay).2
     = ["e1"]
  /\ sys_velocities <$> systems (parse_system env (ByFrame 2) replay).2
     = [None].
Proof. repeat split; vm_compute; reflexivity. Qed.

(** *** The last step *)

(** C8 fails on the code for molecular dynamics.  In a run of three steps
    whose positions are printed every second step, the frame of step 3 is
    missing; the warning is logged and the look-up is retried with frame 4,
    but asking for the ensemble of frame 4 indexes the steps of the output
    past their end, and the [IndexError] ends [parse_calculations]. *)
Theorem retry_aborts_in_molecular_dynamics :
  let run := parse_calculations (methods true) calculations (start md_run) in
  run.1 = Raise IndexError
  /\ events run.2
     = [Lookup (ByCoordinates (Some "coordinates of the output"));
        Lookup (ByFrame 1); Lookup (ByFrame 2); Lookup (ByFrame 3);
        Warning 3; Lookup (ByFrame 4)].
Proof. split; vm_compute; reflexivity. Qed.

(** In a geometry optimisation the same retry goes through. *)
Example retry_in_optimisation :
  let run := parse_calculations (methods false) calculations (start opt) in
  run.1 = Ok tt
  /\ events run.2
     = [Lookup (ByCoordinates (Some "coordinates of the output"));
        Lookup (ByFrame 1); Lookup (ByFrame 2); Lookup (ByFrame 3);
        Warning 3; Lookup (ByFrame 4)]
  /\ sys_trajectory <$> systems (world run.2)
     = ["coordinates of the output"; "r2"; "r4"].
Proof. repeat split; vm_compute; reflexivity. Qed.

End ScenarioFacts.

(** * Laws of the unit resolver *)

(** ** Strings put together *)

Lemma occurs_app c s t : occurs c (s +:+ t) = occurs c s || occurs c t.
Proof.
  induction s as [|a s IH]; [reflexivity|].
  rewrite append_cons. cbn [occurs]. now rewrite IH, orb_assoc.
Qed.

Lemma occurs_nonempty c s : occurs c s = true -> String.eqb s "" = false.
Proof. now destruct s. Qed.

Lemma lower_char_idem a :
  PyStr.lower_char (PyStr.lower_char a) = PyStr.lower_char a.
Proof. destruct a as [[] [] [] [] [] [] [] []]; reflexivity. Qed.

Lemma normalized_app s t : normalized (s +:+ t) = normalized s +:+ normalized t.
Proof.
  induction s as [|a s IH]; [reflexivity|].
  rewrite append_cons, !normalized_cons, IH.
  now destruct (Ascii.eqb (PyStr.lower_char a) " ").
Qed.

Lemma normalized_idem s : normalized (normalized s) = normalized s.
Proof.
  induction s as [|a s IH]; [reflexivity|].
  rewrite normalized_cons.
  destruct (Ascii.eqb (PyStr.lower_char a) " ") eqn:Ha; [exact IH|].
  now rewrite normalized_cons, lower_char_idem, Ha, IH.
Qed.

Lemma normalized_only_spaces s : only_spaces s = true -> normalized s = "".
Proof.
  induction s as [|a s IH]; [reflexivity|].
  cbn [only_spaces]. intros [Ha Hs]%andb_true_iff.
  apply Ascii.eqb_eq in Ha as ->. rewrite normalized_cons. now apply IH.
Qed.

Lemma free_of_cons c cs s :
  free_of (String c cs) s = true -> occurs c s = false /\ free_of cs s = true.
Proof.
  cbn [free_of]. intros [Hc Hs]%andb_true_iff.
  now apply negb_true_iff in Hc.
Qed.

Lemma free_of_occurs chars s c :
  free_of chars s = true -> occurs c chars = true -> occurs c s = false.
Proof.
  induction chars as [|a chars IH]; [discriminate|].
  intros [Ha Hs]%free_of_cons. cbn [occurs].
  destruct (Ascii.eqb_spec a c) as [<-|_]; [trivial|]. now apply IH.
Qed.

Lemma append_empty_l (s : string) : "" +:+ s = s.
Proof. reflexivity. Qed.

Lemma prefix_empty s : String.prefix "" s = true.
Proof. now destruct s. Qed.

Lemma prefix_head c rest s :
  String.prefix (String c rest) (String c s) = String.prefix rest s.
Proof. cbn [String.prefix]. now destruct (ascii_dec c c). Qed.

Lemma prefix_other c rest a s :
  Ascii.eqb a c = false -> String.prefix (String c rest) (String a s) = false.
Proof.
  intros Ha. cbn [String.prefix].
  destruct (ascii_dec c a) as [->|]; [|reflexivity].
  now rewrite Ascii.eqb_refl in Ha.
Qed.

Lemma prefix_refl s : String.prefix s s = true.
Proof.
  induction s as [|a s IH]; [reflexivity|].
  cbn [String.prefix]. now destruct (ascii_dec a a).
Qed.

Lemma prefix_app s t : String.prefix s (s +:+ t) = true.
Proof.
  induction s as [|a s IH]; [now destruct t|].
  rewrite append_cons. cbn [String.prefix]. now destruct (ascii_dec a a).
Qed.

Lemma length_app s t :
  String.length (s +:+ t) = (String.length s + String.length t)%nat.
Proof.
  induction s as [|a s IH]; [reflexivity|].
  rewrite append_cons. cbn [String.length]. now rewrite IH.
Qed.

Lemma take_app s t : PyStr.take (String.length s) (s +:+ t) = s.
Proof.
  induction s as [|a s IH]; [now destruct t|].
  rewrite append_cons. cbn [String.length PyStr.take]. now rewrite IH.
Qed.

(** *** [split] at a separator that occurs once *)

Lemma split_at_once c s t cur :
  occurs c s = false ->
  PyStr.split_at (String c "") (s +:+ String c t) 0 cur
  = (cur +:+ s) :: PyStr.split_at (String c "") t 0 "".
Proof.
  revert cur. induction s as [|a s IH]; intros cur Hc.
  - rewrite append_empty_l. cbn [PyStr.split_at].
    rewrite prefix_head, prefix_empty. cbn [String.length Nat.sub].
    now rewrite append_empty_r.
  - cbn [occurs] in Hc. apply orb_false_iff in Hc as [Ha Hs].
    rewrite append_cons. cbn [PyStr.split_at].
    rewrite (prefix_other _ _ _ _ Ha), (IH _ Hs). now rewrite append_snoc.
Qed.

Lemma split_once c s t :
  occurs c s = false -> occurs c t = false ->
  PyStr.split (String c "") (s +:+ String c t) = [s; t].
Proof.
  intros Hs Ht. unfold PyStr.split.
  rewrite (split_at_once _ _ _ _ Hs), (split_at_absent _ _ _ _ Ht).
  reflexivity.
Qed.

(** A doubled separator is not found where the character stands alone. *)
Lemma split_at_doubled c s t cur :
  occurs c s = false -> occurs c t = false ->
  PyStr.split_at (String c (String c "")) (s +:+ String c t) 0 cur
  = [cur +:+ s +:+ String c t].
Proof.
  revert cur. induction s as [|a s IH]; intros cur Hs Ht.
  - rewrite !append_empty_l. cbn [PyStr.split_at].
    rewrite prefix_head, (prefix_absent c "" _ Ht).
    rewrite (split_at_absent c (String c "") _ _ Ht).
    now rewrite append_snoc.
  - cbn [occurs] in Hs. apply orb_false_iff in Hs as [Ha Hs].
    rewrite !append_cons. cbn [PyStr.split_at].
    rewrite (prefix_other _ _ _ _ Ha), (IH _ Hs Ht).
    now rewrite append_snoc.
Qed.

(** [split] at a separator of two characters that occurs once. *)
Lemma split_at_pair c d s t cur :
  occurs c s = false -> occurs c t = false ->
  PyStr.split_at (String c (String d "")) (s +:+ String c (String d t)) 0 cur
  = [cur +:+ s; t].
Proof.
  revert cur. induction s as [|a s IH]; intros cur Hs Ht.
  - rewrite append_empty_l. cbn [PyStr.split_at].
    rewrite !prefix_head, prefix_empty. cbn [String.length Nat.sub PyStr.split_at].
    rewrite (split_at_absent c (String d "") _ _ Ht).
    now rewrite append_empty_r.
  - cbn [occurs] in Hs. apply orb_false_iff in Hs as [Ha Hs].
    rewrite append_cons. cbn [PyStr.split_at].
    rewrite (prefix_other _ _ _ _ Ha), (IH _ Hs Ht).
    now rewrite append_snoc.
Qed.

(** *** A group in parentheses *)

Lemma find_at_first c s t i :
  occurs c s = false ->
  PyStr.find_at (String c "") (s +:+ String c t) i = i + PyStr.len s.
Proof.
  revert i. induction s as [|a s IH]; intros i Hc.
  - rewrite append_empty_l. cbn [PyStr.find_at].
    rewrite prefix_head, prefix_empty. unfold PyStr.len. cbn. lia.
  - cbn [occurs] in Hc. apply orb_false_iff in Hc as [Ha Hs].
    rewrite append_cons. cbn [PyStr.find_at].
    rewrite (prefix_other _ _ _ _ Ha), (IH _ Hs).
    unfold PyStr.len. cbn [String.length]. lia.
Qed.

Lemma slice_to_app s t : PyStr.slice_to (s +:+ t) (PyStr.len s) = s.
Proof.
  unfold PyStr.slice_to, PyStr.slice_bound, PyStr.len.
  rewrite length_app.
  destruct (Z.ltb_spec (Z.of_nat (String.length s)) 0) as [Hneg|_]; [lia|].
  rewrite Z.min_l by lia. rewrite Nat2Z.id. apply take_app.
Qed.

Lemma slice_from_one a s : PyStr.slice_from (String a s) (0 + 1) = s.
Proof.
  unfold PyStr.slice_from, PyStr.slice_bound, PyStr.len.
  cbn [String.length]. change (0 + 1 <? 0) with false. cbv iota.
  rewrite Z.min_l by lia. reflexivity.
Qed.

Lemma count_at_absent c rest s :
  occurs c s = false -> PyStr.count_at (String c rest) s 0 = 0%nat.
Proof.
  induction s as [|a s IH]; intros Hc; [reflexivity|].
  pose proof (prefix_absent c rest _ Hc) as Hp.
  cbn [occurs] in Hc. apply orb_false_iff in Hc as [_ Hs].
  cbn [PyStr.count_at]. now rewrite Hp, (IH Hs).
Qed.

Lemma count_at_once c s t :
  occurs c s = false -> occurs c t = false ->
  PyStr.count_at (String c "") (s +:+ String c t) 0 = 1%nat.
Proof.
  intros Hs Ht. induction s as [|a s IH].
  - rewrite append_empty_l. cbn [PyStr.count_at].
    rewrite prefix_head, prefix_empty. cbn [String.length Nat.sub].
    now rewrite (count_at_absent _ _ _ Ht).
  - cbn [occurs] in Hs. apply orb_false_iff in Hs as [Ha Hs].
    rewrite append_cons. cbn [PyStr.count_at].
    rewrite (prefix_other _ _ _ _ Ha). now apply IH.
Qed.

Lemma replace_at_skipped old new s k :
  (String.length s <= k)%nat -> PyStr.replace_at old new s k = "".
Proof.
  revert k. induction s as [|a s IH]; intros k Hk; [reflexivity|].
  cbn [String.length] in Hk. destruct k as [|k]; [lia|].
  cbn [PyStr.replace_at]. apply IH. lia.
Qed.

(** Replacing a string by another within itself gives the other. *)
Lemma replace_whole a s new :
  PyStr.replace (String a s) new (String a s) = new.
Proof.
  unfold PyStr.replace. cbn [PyStr.replace_at].
  rewrite prefix_refl. cbn [String.length Nat.sub].
  rewrite replace_at_skipped by lia. apply append_empty_r.
Qed.

Lemma rfind_at_head c s i :
  occurs c s = false -> PyStr.rfind_at (String c "") (String c s) i = i.
Proof.
  intros Hs. cbn [PyStr.rfind_at].
  rewrite (rfind_at_absent c "" _ _ Hs). change (-1 <? 0) with true. cbv iota.
  now rewrite prefix_head, prefix_empty.
Qed.

(** ** The resolver on composite expressions *)

Section ResolverLaws.

Context {num : Type} `{H : Host num}.

#[local] Abbreviation val := (value num).

(** The keys of the table are made of letters and the underscore. *)
Lemma units_map_symbol_free u (v : val) c :
  dict_get units_map u = Some v ->
  In c ["/"; "*"; "^"; "-"; "("; ")"; "["]%char ->
  occurs c u = false.
Proof.
  intros Hk Hc. revert Hk. unfold units_map, dict_get.
  repeat match goal with
         | |- context [String.eqb ?k u] =>
             destruct (String.eqb_spec k u) as [<-|_];
             [intros _; cbn [In] in Hc;
              repeat destruct Hc as [<-|Hc]; solve [reflexivity | contradiction]|]
         end.
  discriminate.
Qed.

Lemma units_map_symbol u c :
  In c ["/"; "*"; "^"; "-"; "("; ")"; "["]%char ->
  occurs c u = true ->
  dict_get units_map u = None.
Proof.
  intros Hc Hu. destruct (dict_get units_map u) as [v|] eqn:Hk; [|reflexivity].
  rewrite (units_map_symbol_free _ _ _ Hk Hc) in Hu. discriminate.
Qed.

(** The resolver sees its argument through [normalized] only. *)
Lemma resolve_unit_body_normalized rec s (parts : list val) :
  resolve_unit_body rec (normalized s) parts = resolve_unit_body rec s parts.
Proof.
  unfold resolve_unit_body.
  change (PyStr.replace " " "" (PyStr.lower (normalized s)))
    with (normalized (normalized s)).
  now rewrite normalized_idem.
Qed.

Lemma resolve_unit_normalized fuel s (parts : list val) :
  resolve_unit fuel (normalized s) parts = resolve_unit fuel s parts.
Proof.
  destruct fuel; [reflexivity|].
  now rewrite !resolve_unit_unfold, resolve_unit_body_normalized.
Qed.

Lemma ratio_law fuel a b (parts : list val) :
  free_of "/(" (normalized a) = true ->
  free_of "/(" (normalized b) = true ->
  py_float (normalized a +:+ "/" +:+ normalized b) = None ->
  resolve_unit (S fuel) (a +:+ "/" +:+ b) parts
  = (x ← resolve_unit fuel a parts;
     y ← resolve_unit fuel b parts;
     py_arith TrueDiv x y).
Proof.
  intros (Has & (Hap & _)%free_of_cons)%free_of_cons
         (Hbs & (Hbp & _)%free_of_cons)%free_of_cons Hf.
  rewrite resolve_unit_unfold. unfold resolve_unit_body.
  change (PyStr.replace " " "" (PyStr.lower (a +:+ "/" +:+ b)))
    with (normalized (a +:+ "/" +:+ b)).
  rewrite !normalized_app. change (normalized "/") with "/".
  set (u := normalized a +:+ "/" +:+ normalized b) in *.
  assert (Hu : occurs "/" u = true).
  { unfold u. rewrite !occurs_app. cbn [occurs]. rewrite Ascii.eqb_refl.
    now rewrite orb_true_r. }
  assert (Hp : occurs "(" u = false).
  { unfold u. rewrite !occurs_app, Hap, Hbp. reflexivity. }
  rewrite (units_map_symbol u "/" ltac:(cbn; tauto) Hu), Hf.
  rewrite (occurs_nonempty _ _ Hu), (rfind_absent _ _ Hp).
  change (-1 <? -1) with false. cbv iota.
  unfold u at 1 2. change ("/" +:+ normalized b) with (String "/" (normalized b)).
  rewrite (split_once _ _ _ Has Hbs).
  change (1 <? length [normalized a; normalized b])%nat with true. cbv iota.
  cbn [mapM]. rewrite !resolve_unit_normalized.
  destruct (resolve_unit fuel a parts) as [x|e]; [|reflexivity].
  destruct (resolve_unit fuel b parts) as [y|e]; [|reflexivity].
  cbn. now destruct (py_arith TrueDiv x y).
Qed.

Lemma product_law fuel a b (parts : list val) :
  free_of "/*^(" (normalized a) = true ->
  free_of "/*^(" (normalized b) = true ->
  py_float (normalized a +:+ "*" +:+ normalized b) = None ->
  resolve_unit (S fuel) (a +:+ "*" +:+ b) parts
  = (x ← resolve_unit fuel a parts;
     y ← resolve_unit fuel b parts;
     z ← py_arith Mul (VNum int_one) x;
     py_arith Mul z y).
Proof.
  intros (Has & (Ham & (Hac & (Hap & _)%free_of_cons)%free_of_cons)%free_of_cons)%free_of_cons
         (Hbs & (Hbm & (Hbc & (Hbp & _)%free_of_cons)%free_of_cons)%free_of_cons)%free_of_cons Hf.
  rewrite resolve_unit_unfold. unfold resolve_unit_body.
  change (PyStr.replace " " "" (PyStr.lower (a +:+ "*" +:+ b)))
    with (normalized (a +:+ "*" +:+ b)).
  rewrite !normalized_app. change (normalized "*") with "*".
  set (u := normalized a +:+ "*" +:+ normalized b) in *.
  assert (Hu : occurs "*" u = true).
  { unfold u. rewrite !occurs_app. cbn [occurs]. rewrite Ascii.eqb_refl.
    now rewrite orb_true_r. }
  assert (Hp : occurs "(" u = false).
  { unfold u. rewrite !occurs_app, Hap, Hbp. reflexivity. }
  assert (Hs : occurs "/" u = false).
  { unfold u. rewrite !occurs_app, Has, Hbs. reflexivity. }
  assert (Hc : occurs "^" u = false).
  { unfold u. rewrite !occurs_app, Hac, Hbc. reflexivity. }
  rewrite (units_map_symbol u "*" ltac:(cbn; tauto) Hu), Hf.
  rewrite (occurs_nonempty _ _ Hu), (rfind_absent _ _ Hp).
  change (-1 <? -1) with false. cbv iota.
  rewrite (split_absent _ _ _ Hs), (split_absent _ _ _ Hc).
  change (1 <? length [u])%nat with false. cbv iota.
  assert (Hd : PyStr.split "**" u = [u]).
  { unfold PyStr.split, u.
    change ("*" +:+ normalized b) with (String "*" (normalized b)).
    now rewrite (split_at_doubled _ _ _ _ Ham Hbm). }
  rewrite Hd. change (1 <? length [u])%nat with false. cbv iota.
  unfold u at 1 2. change ("*" +:+ normalized b) with (String "*" (normalized b)).
  rewrite (split_once _ _ _ Ham Hbm).
  change (1 <? length [normalized a; normalized b])%nat with true. cbv iota.
  cbn [mapM]. rewrite !resolve_unit_normalized.
  destruct (resolve_unit fuel a parts) as [x|e]; [|reflexivity].
  destruct (resolve_unit fuel b parts) as [y|e]; [|reflexivity].
  cbn -[py_arith].
  destruct (py_arith Mul (VNum int_one) x) as [z|e]; [|reflexivity].
  cbn -[py_arith]. now destruct (py_arith Mul z y).
Qed.

(** X3.  The suffix [-1] stands for the reciprocal of what precedes it, and
    what follows it is not looked at: [t-1] and [t-1junk] both resolve to
    1 divided by [t]. *)
Theorem resolve_unit_reciprocal fuel t junk (parts : list val) :
  free_of "/*^(-" (normalized t) = true ->
  free_of "/*^(-" (normalized junk) = true ->
  py_float (normalized t +:+ "-1" +:+ normalized junk) = None ->
  resolve_unit (S fuel) (t +:+ "-1" +:+ junk) parts
  = (v ← resolve_unit fuel t parts; py_arith TrueDiv (VNum int_one) v).
Proof.
  intros (Has & (Ham & (Hac & (Hap & (Han & _)%free_of_cons)%free_of_cons)%free_of_cons)%free_of_cons)%free_of_cons
         (Hbs & (Hbm & (Hbc & (Hbp & (Hbn & _)%free_of_cons)%free_of_cons)%free_of_cons)%free_of_cons)%free_of_cons Hf.
  rewrite resolve_unit_unfold. unfold resolve_unit_body.
  change (PyStr.replace " " "" (PyStr.lower (t +:+ "-1" +:+ junk)))
    with (normalized (t +:+ "-1" +:+ junk)).
  rewrite !normalized_app. change (normalized "-1") with "-1".
  set (u := normalized t +:+ "-1" +:+ normalized junk) in *.
  assert (Hu : occurs "-" u = true).
  { unfold u. rewrite !occurs_app. cbn [occurs]. rewrite Ascii.eqb_refl.
    now rewrite orb_true_r. }
  assert (Hfree : forall c, In c ["/"; "*"; "^"; "("]%char ->
            (c <> "-" /\ c <> "1")%char ->
            occurs c (normalized t) = false ->
            occurs c (normalized junk) = false -> occurs c u = false).
  { intros c _ [Hn1 Hn2] H1 H2. unfold u. rewrite !occurs_app, H1, H2.
    cbn [occurs]. destruct (Ascii.eqb_spec "-" c); [congruence|].
    destruct (Ascii.eqb_spec "1" c); [congruence|]. reflexivity. }
  assert (Hp : occurs "(" u = false).
  { apply Hfree; [cbn; tauto | split; discriminate | assumption..]. }
  assert (Hs : occurs "/" u = false).
  { apply Hfree; [cbn; tauto | split; discriminate | assumption..]. }
  assert (Hc : occurs "^" u = false).
  { apply Hfree; [cbn; tauto | split; discriminate | assumption..]. }
  assert (Hm : occurs "*" u = false).
  { apply Hfree; [cbn; tauto | split; discriminate | assumption..]. }
  rewrite (units_map_symbol u "-" ltac:(cbn; tauto) Hu), Hf.
  rewrite (occurs_nonempty _ _ Hu), (rfind_absent _ _ Hp).
  change (-1 <? -1) with false. cbv iota.
  rewrite (split_absent _ _ _ Hs), (split_absent "*" "*" _ Hm),
    (split_absent _ _ _ Hc), (split_absent _ _ _ Hm).
  change (1 <? length [u])%nat with false. cbv iota.
  assert (Hd : PyStr.split "-1" u = [normalized t; normalized junk]).
  { unfold PyStr.split, u.
    change ("-1" +:+ normalized junk) with (String "-" (String "1" (normalized junk))).
    now rewrite (split_at_pair _ _ _ _ _ Han Hbn). }
  rewrite Hd.
  change (length [normalized t; normalized junk] =? 2)%nat with true. cbv iota.
  cbn [nth]. now rewrite resolve_unit_normalized.
Qed.

(** X4.  An input made of spaces only, the empty string included, resolves
    to the integer 1. *)
Theorem resolve_unit_blank fuel s (parts : list val) :
  only_spaces s = true ->
  py_float "" = None ->
  resolve_unit (S fuel) s parts = Ok (VNum int_one).
Proof.
  intros Hs Hf. rewrite resolve_unit_unfold. unfold resolve_unit_body.
  change (PyStr.replace " " "" (PyStr.lower s)) with (normalized s).
  rewrite (normalized_only_spaces _ Hs). cbn [units_map dict_get].
  now rewrite Hf.
Qed.

(** A placeholder written by the resolver stands for the part of its
    number. *)
Lemma resolve_unit_placeholder_zero fuel (v : val) :
  py_float "[0]" = None -> resolve_unit (S fuel) "[0]" [v] = Ok v.
Proof.
  intros Hf. rewrite resolve_unit_unfold. unfold resolve_unit_body.
  change (PyStr.replace " " "" (PyStr.lower "[0]")) with "[0]".
  cbn [units_map dict_get]. change (String.eqb _ "[0]") with false.
  cbv iota. rewrite Hf. reflexivity.
Qed.

(** X5.  An expression in parentheses resolves to what the expression
    itself resolves to, raising when it raises. *)
Theorem resolve_unit_group fuel p :
  free_of "()" (normalized p) = true ->
  py_float ("(" +:+ normalized p +:+ ")") = None ->
  py_float "[0]" = None ->
  resolve_unit (S (S fuel)) ("(" +:+ p +:+ ")") []
  = resolve_unit (S fuel) p ([] : list val).
Proof.
  intros (Ho & (Hc & _)%free_of_cons)%free_of_cons Hf H0.
  rewrite (resolve_unit_unfold (S fuel)). unfold resolve_unit_body.
  change (PyStr.replace " " "" (PyStr.lower ("(" +:+ p +:+ ")")))
    with (normalized ("(" +:+ p +:+ ")")).
  rewrite !normalized_app.
  change (normalized "(") with "(". change (normalized ")") with ")".
  set (q := normalized p) in *.
  change ("(" +:+ q +:+ ")") with (String "(" (q +:+ ")")) in *.
  assert (Hq : occurs "(" (q +:+ ")") = false).
  { now rewrite occurs_app, Ho. }
  assert (Hu : occurs "(" (String "(" (q +:+ ")")) = true) by reflexivity.
  rewrite (units_map_symbol _ "(" ltac:(cbn; tauto) Hu), Hf.
  change (String.eqb (String "(" (q +:+ ")")) "") with false. cbv iota.
  unfold PyStr.rfind at 1 2. rewrite (rfind_at_head _ _ _ Hq).
  change (-1 <? 0) with true. cbv iota.
  assert (Hn : PyStr.count "(" (String "(" (q +:+ ")")) = 1%nat).
  { unfold PyStr.count. cbn [PyStr.count_at].
    rewrite prefix_head, prefix_empty. cbn [String.length Nat.sub].
    now rewrite (count_at_absent _ _ _ Hq). }
  assert (Hm : PyStr.count ")" (String "(" (q +:+ ")")) = 1%nat).
  { unfold PyStr.count. cbn [PyStr.count_at].
    rewrite (prefix_other ")" "" "(" _ eq_refl).
    now apply count_at_once. }
  rewrite Hn, Hm. change (negb (1 =? 1)%nat) with false. cbv iota.
  change (seq 0 1) with [0%nat]. cbn [resolve_groups].
  rewrite slice_from_one.
  unfold PyStr.find. rewrite (find_at_first _ _ _ _ Hc).
  change (0 + PyStr.len q) with (PyStr.len q). rewrite slice_to_app.
  change ("(" +:+ q +:+ ")") with (String "(" (q +:+ ")")).
  rewrite replace_whole.
  unfold q. rewrite resolve_unit_normalized.
  destruct (resolve_unit (S fuel) p []) as [v|e]; [|reflexivity].
  cbn -[resolve_unit]. now apply resolve_unit_placeholder_zero.
Qed.

(** X1.  A ratio [a/b] whose operands hold neither a slash nor a
    parenthesis resolves both operands, in order, and divides the first by
    the second; an operand that raises makes the ratio raise. *)
Theorem resolve_unit_ratio fuel a b (parts : list val) :
  free_of "/(" (normalized a) = true ->
  free_of "/(" (normalized b) = true ->
  py_float (normalized a +:+ "/" +:+ normalized b) = None ->
  resolve_unit (S fuel) (a +:+ "/" +:+ b) parts
  = (x ← resolve_unit fuel a parts;
     y ← resolve_unit fuel b parts;
     py_arith TrueDiv x y).
Proof. apply ratio_law. Qed.

(** X2.  A product [a*b] of operands free of operators and parentheses
    resolves both operands, in order, and multiplies them onto the integer
    1, from the left. *)
Theorem resolve_unit_product fuel a b (parts : list val) :
  free_of "/*^(" (normalized a) = true ->
  free_of "/*^(" (normalized b) = true ->
  py_float (normalized a +:+ "*" +:+ normalized b) = None ->
  resolve_unit (S fuel) (a +:+ "*" +:+ b) parts
  = (x ← resolve_unit fuel a parts;
     y ← resolve_unit fuel b parts;
     z ← py_arith Mul (VNum int_one) x;
     py_arith Mul z y).
Proof. apply product_law. Qed.

(** X6.  The slash binds loosest: in [a/b*c] the product is the divisor,
    so that the expression resolves to [a/(b*c)] and not to [(a/b)*c]. *)
Theorem resolve_unit_slash_binds_loosest fuel a b c (parts : list val) :
  free_of "/*^(" (normalized a) = true ->
  free_of "/*^(" (normalized b) = true ->
  free_of "/*^(" (normalized c) = true ->
  py_float (normalized a +:+ "/" +:+ normalized b +:+ "*" +:+ normalized c)
  = None ->
  py_float (normalized b +:+ "*" +:+ normalized c) = None ->
  resolve_unit (S (S fuel)) (a +:+ "/" +:+ b +:+ "*" +:+ c) parts
  = (x ← resolve_unit (S fuel) a parts;
     y ← resolve_unit fuel b parts;
     z ← resolve_unit fuel c parts;
     yz ← (u ← py_arith Mul (VNum int_one) y; py_arith Mul u z);
     py_arith TrueDiv x yz).
Proof.
  intros Ha Hb Hc Hf Hg.
  pose proof (free_of_occurs _ _ "/" Ha eq_refl) as Has.
  pose proof (free_of_occurs _ _ "(" Ha eq_refl) as Hap.
  pose proof (free_of_occurs _ _ "/" Hb eq_refl) as Hbs.
  pose proof (free_of_occurs _ _ "(" Hb eq_refl) as Hbp.
  pose proof (free_of_occurs _ _ "/" Hc eq_refl) as Hcs.
  pose proof (free_of_occurs _ _ "(" Hc eq_refl) as Hcp.
  rewrite (ratio_law (S fuel) a (b +:+ "*" +:+ c) parts).
  - rewrite (product_law fuel b c parts Hb Hc Hg).
    destruct (resolve_unit (S fuel) a parts) as [x|e]; [|reflexivity].
    cbn -[resolve_unit py_arith].
    destruct (resolve_unit fuel b parts) as [y|e]; [|reflexivity].
    cbn -[resolve_unit py_arith].
    destruct (resolve_unit fuel c parts) as [z|e]; reflexivity.
  - cbn [free_of]. now rewrite Has, Hap.
  - rewrite !normalized_app. change (normalized "*") with "*".
    cbn [free_of]. rewrite !occurs_app, Hbs, Hcs, Hbp, Hcp. reflexivity.
  - rewrite !normalized_app. change (normalized "*") with "*". exact Hf.
Qed.

End ResolverLaws.

(** The laws at work on the exact host. *)

Lemma resolve_unit_ratio_witness :
  resolve_unit (H := exact_host) 2 "Hartree / fs" []
  = Ok (VNum (ExactHost.XUnit [("femtosecond", (-1)%Q); ("hartree", 1%Q)])).
Proof.
  etransitivity;
    [apply (resolve_unit_ratio (H := exact_host) 1 "Hartree " " fs" []);
     reflexivity|].
  vm_compute. reflexivity.
Defined.

Lemma resolve_unit_product_witness :
  resolve_unit (H := exact_host) 2 "hbar * Angstrom" []
  = Ok (VNum (ExactHost.XQuantity 1 [("angstrom", 1%Q); ("hbar", 1%Q)])).
Proof.
  etransitivity;
    [apply (resolve_unit_product (H := exact_host) 1 "hbar " " Angstrom" []);
     reflexivity|].
  vm_compute. reflexivity.
Defined.

Lemma resolve_unit_reciprocal_witness :
  resolve_unit (H := exact_host) 2 "fs-1" []
  = Ok (VNum (ExactHost.XQuantity 1 [("femtosecond", (-1)%Q)]))
  /\ resolve_unit (H := exact_host) 2 "fs-12" []
     = Ok (VNum (ExactHost.XQuantity 1 [("femtosecond", (-1)%Q)])).
Proof.
  split.
  - etransitivity;
      [apply (resolve_unit_reciprocal (H := exact_host) 1 "fs" "" []);
       reflexivity|].
    vm_compute. reflexivity.
  - etransitivity;
      [apply (resolve_unit_reciprocal (H := exact_host) 1 "fs" "2" []);
       reflexivity|].
    vm_compute. reflexivity.
Defined.

Lemma resolve_unit_blank_witness :
  resolve_unit (H := exact_host) 1 "   " [] = Ok (VNum (ExactHost.XInt 1)).
Proof.
  apply (resolve_unit_blank (H := exact_host) 0 "   " []); reflexivity.
Defined.

Lemma resolve_unit_group_witness :
  resolve_unit (H := exact_host) 3 "(Hartree/fs)" []
  = Ok (VNum (ExactHost.XUnit [("femtosecond", (-1)%Q); ("hartree", 1%Q)])).
Proof.
  etransitivity;
    [apply (resolve_unit_group (H := exact_host) 1 "Hartree/fs"); reflexivity|].
  vm_compute. reflexivity.
Defined.

Lemma resolve_unit_slash_binds_loosest_witness :
  resolve_unit (H := exact_host) 3 "hartree/angstrom*fs" []
  = Ok (VNum (ExactHost.XQuantity 1
                [("angstrom", (-1)%Q); ("femtosecond", (-1)%Q);
                 ("hartree", 1%Q)])).
Proof.
  etransitivity;
    [apply (resolve_unit_slash_binds_loosest (H := exact_host) 1
              "hartree" "angstrom" "fs" []); reflexivity|].
  vm_compute. reflexivity.
Defined.

(** * The patterns of the input parser *)

Module ReFacts.

Import Re.

Lemma suffix_of_refl s : suffix_of s s.
Proof. now exists "". Qed.

Lemma suffix_of_tail c s : suffix_of s (String c s).
Proof. now exists (String c ""). Qed.

Lemma append_assoc (a b c : string) : (a +:+ b) +:+ c = a +:+ (b +:+ c).
Proof.
  induction a as [|x a IH]; [reflexivity|].
  now rewrite !append_cons, IH.
Qed.

Lemma suffix_of_trans a b c : suffix_of a b -> suffix_of b c -> suffix_of a c.
Proof.
  intros [p ->] [q ->]. exists (q +:+ p). now rewrite append_assoc.
Qed.

Lemma suffix_of_length s' s :
  suffix_of s' s -> (String.length s' <= String.length s)%nat.
Proof. intros [p ->]. rewrite length_app. lia. Qed.

Lemma suffix_of_occurs c s' s :
  suffix_of s' s -> occurs c s = false -> occurs c s' = false.
Proof.
  intros [p ->]. rewrite occurs_app. now intros [_ ?]%orb_false_iff.
Qed.

Lemma suffix_of_empty s : suffix_of s "" -> s = "".
Proof.
  intros [p Hp]. destruct p; [now rewrite append_empty_l in Hp|].
  rewrite append_cons in Hp. discriminate.
Qed.

Lemma suffix_of_cons s' c s :
  suffix_of s' (String c s) -> s' = String c s \/ suffix_of s' s.
Proof.
  intros [p Hp]. destruct p as [|a p].
  - left. now rewrite append_empty_l in Hp.
  - right. rewrite append_cons in Hp. injection Hp as _ ->. now exists p.
Qed.

(** *** Matching consumes a prefix *)

(** A pattern whose continuation fails on everything that can be left
    of the text has no match. *)
Lemma star_loop_none body greedy (k : cont) n s g :
  (forall s0 g0 (k0 : cont),
     suffix_of s0 s ->
     (forall s' g', suffix_of s' s0 -> k0 s' g' = None) ->
     body s0 g0 k0 = None) ->
  (forall s' g', suffix_of s' s -> k s' g' = None) ->
  star_loop body greedy k n s g = None.
Proof.
  revert s g. induction n as [|n IH]; intros s g Hbody Hk.
  - cbn. apply Hk, suffix_of_refl.
  - cbn [star_loop].
    assert (Hb : body s g
              (fun s' g' =>
                 if (String.length s' <? String.length s)%nat
                 then star_loop body greedy k n s' g' else None) = None).
    { apply Hbody; [apply suffix_of_refl|]. intros s' g' Hs'.
      destruct (String.length s' <? String.length s)%nat; [|reflexivity].
      apply IH.
      - intros s0 g0 k0 H0 Hk0. apply Hbody; [|exact Hk0].
        eapply suffix_of_trans; eassumption.
      - intros s2 g2 H2. apply Hk. eapply suffix_of_trans; eassumption. }
    rewrite Hb, (Hk s g (suffix_of_refl s)). now destruct greedy.
Qed.

Lemma run_none r : forall s g (k : cont),
  (forall s' g', suffix_of s' s -> k s' g' = None) ->
  run r s g k = None.
Proof.
  induction r as [|p|r1 IH1 r2 IH2|r1 IH1 r2 IH2|greedy r IH|i r IH];
    intros s g k Hk; cbn [run].
  - apply Hk, suffix_of_refl.
  - destruct s as [|c s]; [reflexivity|].
    destruct (p c); [|reflexivity]. apply Hk, suffix_of_tail.
  - apply IH1. intros s' g' Hs'. apply IH2. intros s2 g2 H2.
    apply Hk. eapply suffix_of_trans; eassumption.
  - rewrite (IH1 _ _ _ Hk). now apply IH2.
  - apply star_loop_none; [|exact Hk].
    intros s0 g0 k0 _ Hk0. now apply IH.
  - apply IH. intros s' g' Hs'. now apply Hk.
Qed.

(** A pattern that ends with a character of a class has no match in a
    text without such a character. *)
Lemma run_class_absent p s (k : cont) :
  (forall s', suffix_of s' s ->
     match s' with String c _ => p c = false | "" => True end) ->
  forall s' g', suffix_of s' s -> run (Chars p) s' g' k = None.
Proof.
  intros Hp s' g' Hs'. specialize (Hp s' Hs'). cbn [run].
  destruct s' as [|c s']; [reflexivity|]. now rewrite Hp.
Qed.

Lemma search_none r s :
  (forall s', suffix_of s' s -> match_ r s' = None) -> search r s = None.
Proof.
  induction s as [|c s IH]; intros Hm.
  - cbn [search]. now rewrite (Hm "" (suffix_of_refl _)).
  - cbn [search]. rewrite (Hm _ (suffix_of_refl _)).
    apply IH. intros s' Hs'. apply Hm.
    eapply suffix_of_trans; [exact Hs'|apply suffix_of_tail].
Qed.

(** *** Repetitions of a character class *)

Lemma run_chars_cons p a s g (k : cont) :
  run (Chars p) (String a s) g k = if p a then k s g else None.
Proof. reflexivity. Qed.

Lemma run_chars_nil p g (k : cont) : run (Chars p) "" g k = None.
Proof. reflexivity. Qed.

(** A greedy repetition takes the whole run when what follows then
    matches. *)
Lemma star_loop_greedy p (k : cont) w rest g m : forall n,
  (String.length (w +:+ rest) <= n)%nat ->
  all_chars p w = true -> stops p rest = true ->
  k rest g = Some m ->
  star_loop (run (Chars p)) true k n (w +:+ rest) g = Some m.
Proof.
  induction w as [|a w IH]; intros n Hn Hw Hr Hk.
  - rewrite append_empty_l in *. destruct n as [|n]; [exact Hk|].
    cbn [star_loop]. destruct rest as [|c rest].
    + now rewrite run_chars_nil, Hk.
    + cbn [stops] in Hr. apply negb_true_iff in Hr.
      now rewrite run_chars_cons, Hr, Hk.
  - rewrite append_cons in *. cbn [String.length] in Hn.
    destruct n as [|n]; [lia|].
    cbn [all_chars] in Hw. apply andb_true_iff in Hw as [Ha Hw].
    cbn [star_loop]. rewrite run_chars_cons, Ha.
    assert (Hl : (String.length (w +:+ rest)
                  <? String.length (String a (w +:+ rest)))%nat = true).
    { apply Nat.ltb_lt. cbn [String.length]. lia. }
    rewrite Hl, (IH n ltac:(lia) Hw Hr Hk). reflexivity.
Qed.

Lemma run_star_greedy p (k : cont) w rest g m :
  all_chars p w = true -> stops p rest = true ->
  k rest g = Some m ->
  run (Star true (Chars p)) (w +:+ rest) g k = Some m.
Proof. intros. cbn [run]. now apply star_loop_greedy. Qed.

Lemma run_plus_greedy p (k : cont) a w rest g m :
  p a = true -> all_chars p w = true -> stops p rest = true ->
  k rest g = Some m ->
  run (plus true (Chars p)) (String a (w +:+ rest)) g k = Some m.
Proof.
  intros Ha Hw Hr Hk. unfold plus.
  change (run (Seq (Chars p) (Star true (Chars p))) (String a (w +:+ rest)) g k)
    with (if p a
          then star_loop (run (Chars p)) true k (String.length (w +:+ rest))
                 (w +:+ rest) g
          else None).
  rewrite Ha. now apply star_loop_greedy.
Qed.

(** A greedy repetition gives back the end of line when nothing can
    follow it. *)
Lemma star_loop_greedy_eol p (k : cont) w t g m : forall n,
  (String.length (w +:+ String t "") <= n)%nat ->
  all_chars p w = true ->
  (forall g', k "" g' = None) ->
  k (String t "") g = Some m ->
  star_loop (run (Chars p)) true k n (w +:+ String t "") g = Some m.
Proof.
  induction w as [|a w IH]; intros n Hn Hw Hk0 Hk.
  - rewrite append_empty_l in *. cbn [String.length] in Hn.
    destruct n as [|n]; [lia|].
    cbn [star_loop]. rewrite run_chars_cons.
    destruct (p t); [|now rewrite Hk].
    change (String.length "" <? String.length (String t ""))%nat with true.
    cbv iota.
    assert (Hn0 : star_loop (run (Chars p)) true k n "" g = None).
    { destruct n; cbn [star_loop]; now rewrite ?run_chars_nil, ?Hk0. }
    now rewrite Hn0, Hk.
  - rewrite append_cons in *. cbn [String.length] in Hn.
    destruct n as [|n]; [lia|].
    cbn [all_chars] in Hw. apply andb_true_iff in Hw as [Ha Hw].
    cbn [star_loop]. rewrite run_chars_cons, Ha.
    assert (Hl : (String.length (w +:+ String t "")
                  <? String.length (String a (w +:+ String t "")))%nat = true).
    { apply Nat.ltb_lt. cbn [String.length]. lia. }
    rewrite Hl, (IH n ltac:(lia) Hw Hk0 Hk). reflexivity.
Qed.

(** A lazy repetition stops at the first place where what follows
    matches. *)
Lemma star_loop_lazy p (k : cont) w rest g m : forall n,
  (String.length (w +:+ rest) <= n)%nat ->
  all_chars p w = true ->
  (forall u, u <> "" -> suffix_of u w -> k (u +:+ rest) g = None) ->
  k rest g = Some m ->
  star_loop (run (Chars p)) false k n (w +:+ rest) g = Some m.
Proof.
  induction w as [|a w IH]; intros n Hn Hw Hfail Hk.
  - rewrite append_empty_l in *. destruct n as [|n]; [exact Hk|].
    cbn [star_loop]. now rewrite Hk.
  - rewrite append_cons in *. cbn [String.length] in Hn.
    destruct n as [|n]; [lia|].
    cbn [all_chars] in Hw. apply andb_true_iff in Hw as [Ha Hw].
    cbn [star_loop].
    pose proof (Hfail (String a w) ltac:(discriminate) (suffix_of_refl _)) as H0.
    rewrite append_cons in H0. rewrite H0, run_chars_cons, Ha.
    assert (Hl : (String.length (w +:+ rest)
                  <? String.length (String a (w +:+ rest)))%nat = true).
    { apply Nat.ltb_lt. cbn [String.length]. lia. }
    rewrite Hl. apply (IH n ltac:(lia) Hw); [|exact Hk].
    intros u Hu Hs. apply Hfail; [exact Hu|].
    eapply suffix_of_trans; [exact Hs|apply suffix_of_tail].
Qed.

(** *** Where a match can start *)

Lemma run_lit_head c l r s g (k : cont) :
  match s with String a _ => Ascii.eqb c a = false | "" => True end ->
  run (Seq (lit (String c l)) r) s g k = None.
Proof.
  intros Hs. destruct s as [|a s]; [reflexivity|].
  change (run (Seq (lit (String c l)) r) (String a s) g k)
    with (if Ascii.eqb c a then run (lit l) s g (fun s' g' => run r s' g' k)
          else None).
  now rewrite Hs.
Qed.

Lemma occurs_head c s a s' :
  suffix_of (String a s') s -> occurs c s = false -> Ascii.eqb c a = false.
Proof.
  intros Hs Hc. pose proof (suffix_of_occurs _ _ _ Hs Hc) as Ho.
  cbn [occurs] in Ho. apply orb_false_iff in Ho as [Ho _].
  now rewrite Ascii.eqb_sym.
Qed.

(** A pattern that starts with a literal character is not found in a
    text without that character. *)
Lemma search_lit_absent c l r s :
  occurs c s = false -> search (Seq (lit (String c l)) r) s = None.
Proof.
  intros Hc. apply search_none. intros s' Hs'. unfold match_.
  apply run_lit_head. destruct s' as [|a s']; [exact I|].
  eapply occurs_head; eassumption.
Qed.

Lemma search_skip r c s :
  match_ r (String c s) = None -> search r (String c s) = search r s.
Proof. intros Hm. cbn [search]. now rewrite Hm. Qed.

End ReFacts.

(** * The tree of the input file *)

Module InpParserFacts.

Import Re ReFacts InpParser.

(** ** Character classes *)

Lemma all_chars_impl (p q : ascii -> bool) s :
  (forall c, p c = true -> q c = true) ->
  all_chars p s = true -> all_chars q s = true.
Proof.
  intros Hpq. induction s as [|c s IH]; [reflexivity|].
  cbn [all_chars]. intros [Hc Hs]%andb_true_iff.
  now rewrite (Hpq _ Hc), IH.
Qed.

Lemma all_chars_app p s t :
  all_chars p (s +:+ t) = all_chars p s && all_chars p t.
Proof.
  induction s as [|c s IH]; [reflexivity|].
  rewrite append_cons. cbn [all_chars]. now rewrite IH, andb_assoc.
Qed.

Lemma all_chars_suffix p u s :
  suffix_of u s -> all_chars p s = true -> all_chars p u = true.
Proof.
  intros [pre ->]. rewrite all_chars_app. now intros [_ ?]%andb_true_iff.
Qed.

Lemma all_chars_occurs p s c :
  all_chars p s = true -> p c = false -> occurs c s = false.
Proof.
  intros Hs Hc. induction s as [|a s IH]; [reflexivity|].
  cbn [all_chars] in Hs. apply andb_true_iff in Hs as [Ha Hs].
  cbn [occurs]. rewrite (IH Hs), orb_false_r.
  destruct (Ascii.eqb_spec a c) as [->|]; [congruence|reflexivity].
Qed.

Lemma space_not_word c : space c = true -> word c = false.
Proof. destruct c as [[] [] [] [] [] [] [] []]; cbv; congruence. Qed.

Lemma end_not_word c : comment_or_eol c = true -> word c = false.
Proof. destruct c as [[] [] [] [] [] [] [] []]; cbv; congruence. Qed.

Lemma text_is_dot c : comment_or_eol c = false -> dot c = true.
Proof. destruct c as [[] [] [] [] [] [] [] []]; cbv; congruence. Qed.

Lemma word_not_comment c :
  word c = true -> space c = false /\ Ascii.eqb c "#" || Ascii.eqb c "!" = false.
Proof. destruct c as [[] [] [] [] [] [] [] []]; cbv; auto; congruence. Qed.

Lemma consumed_app w rest : consumed (w +:+ rest) rest = w.
Proof.
  unfold consumed. rewrite length_app.
  replace (String.length w + String.length rest - String.length rest)%nat
    with (String.length w) by lia.
  apply take_app.
Qed.

(** ** The parts of the patterns *)

Lemma run_seq r1 r2 s g (k : cont) :
  run (Seq r1 r2) s g k = run r1 s g (fun s' g' => run r2 s' g' k).
Proof. reflexivity. Qed.

Lemma run_group i r s g (k : cont) :
  run (Group i r) s g k
  = run r s g (fun s' g' => k s' ((i, consumed s s') :: g')).
Proof. reflexivity. Qed.

Lemma run_star greedy r s g (k : cont) :
  run (Star greedy r) s g k
  = star_loop (run r) greedy k (String.length s) s g.
Proof. reflexivity. Qed.

(** [(.+?)[#!\n]] and [(.*?)[#!\n]] take the text up to the first comment
    sign or newline. *)
Lemma run_text_lazy v t rest g :
  is_text v = true -> comment_or_eol t = true ->
  run (Seq (Group 2 (Star false (Chars dot))) (Chars comment_or_eol))
    (v +:+ String t rest) g done
  = Some ((2%nat, v) :: g).
Proof.
  intros Hv Ht. rewrite run_seq, run_group, run_star.
  apply star_loop_lazy; [lia| | |].
  - revert Hv. apply all_chars_impl. intros c Hc.
    apply text_is_dot. now apply negb_true_iff.
  - intros u Hu Hs. destruct u as [|x u]; [congruence|].
    pose proof (all_chars_suffix _ _ _ Hs Hv) as Hx.
    cbn [all_chars] in Hx. apply andb_true_iff in Hx as [Hx _].
    apply negb_true_iff in Hx. rewrite append_cons, run_chars_cons.
    now rewrite Hx.
  - rewrite run_chars_cons, Ht. unfold done. now rewrite consumed_app.
Qed.

Lemma run_value_lazy v t rest g :
  is_text v = true -> v <> "" -> comment_or_eol t = true ->
  run (Seq (Group 2 (plus false (Chars dot))) (Chars comment_or_eol))
    (v +:+ String t rest) g done
  = Some ((2%nat, v) :: g).
Proof.
  intros Hv Hne Ht. destruct v as [|c v]; [congruence|].
  unfold is_text in Hv. cbn [all_chars] in Hv.
  apply andb_true_iff in Hv as [Hc Hv]. apply negb_true_iff in Hc.
  rewrite run_seq, run_group. unfold plus.
  rewrite run_seq, append_cons, run_chars_cons, (text_is_dot _ Hc), run_star.
  apply star_loop_lazy; [lia| | |].
  - revert Hv. apply all_chars_impl. intros a Ha.
    apply text_is_dot. now apply negb_true_iff.
  - intros u Hu Hs. destruct u as [|x u]; [congruence|].
    pose proof (all_chars_suffix _ _ _ Hs Hv) as Hx.
    cbn [all_chars] in Hx. apply andb_true_iff in Hx as [Hx _].
    apply negb_true_iff in Hx. rewrite append_cons, run_chars_cons.
    now rewrite Hx.
  - rewrite run_chars_cons, Ht. unfold done.
    change (String c (v +:+ String t rest))
      with (String c v +:+ String t rest).
    now rewrite consumed_app.
Qed.

Lemma blanks_space s :
  all_chars blank s = true ->
  all_chars space s = true.
Proof. apply all_chars_impl. now intros c [? _]%andb_true_iff. Qed.

(** [\s+] takes the blanks before an item. *)
Lemma run_blanks r sep s g m :
  is_blanks sep = true -> stops space s = true ->
  run r s g done = Some m ->
  run (Seq (plus true (Chars space)) r) (sep +:+ s) g done = Some m.
Proof.
  unfold is_blanks. intros [Hne Hsep]%andb_true_iff Hs Hr.
  destruct sep as [|b sep]; [discriminate|].
  cbn [all_chars] in Hsep. apply andb_true_iff in Hsep as [Hb Hsep].
  apply andb_true_iff in Hb as [Hb _].
  rewrite run_seq, append_cons.
  apply run_plus_greedy; [exact Hb|now apply blanks_space|exact Hs|exact Hr].
Qed.

(** [\s*] takes the blanks, if any, before an item that is no blank. *)
Lemma run_blanks_opt r sep s g m :
  all_chars blank sep = true ->
  stops space s = true ->
  run r s g done = Some m ->
  run (Seq (Star true (Chars space)) r) (sep +:+ s) g done = Some m.
Proof.
  intros Hsep Hs Hr. rewrite run_seq.
  apply run_star_greedy; [now apply blanks_space|exact Hs|exact Hr].
Qed.

(** [\s*] before the newline that ends the line: the newline is a blank,
    and is given back. *)
Lemma run_blanks_eol r sep g m :
  all_chars blank sep = true ->
  (forall g', run r "" g' done = None) ->
  run r (String "010" "") g done = Some m ->
  run (Seq (Star true (Chars space)) r) (sep +:+ String "010" "") g done
  = Some m.
Proof.
  intros Hsep H0 Hr. rewrite run_seq, run_star.
  apply star_loop_greedy_eol; [lia|now apply blanks_space|exact H0|exact Hr].
Qed.

(** [(\w+)] takes a name up to the first character that cannot be part
    of one. *)
Lemma run_name r name s g m :
  is_name name = true -> stops word s = true ->
  run r s ((1%nat, name) :: g) done = Some m ->
  run (Seq (Group 1 (plus true (Chars word))) r) (name +:+ s) g done = Some m.
Proof.
  unfold is_name. intros [Hne Hname]%andb_true_iff Hs Hr.
  destruct name as [|a name]; [discriminate|].
  cbn [all_chars] in Hname. apply andb_true_iff in Hname as [Ha Hname].
  rewrite run_seq, run_group, append_cons.
  apply run_plus_greedy; [exact Ha|exact Hname|exact Hs|].
  change (String a (name +:+ s)) with (String a name +:+ s).
  now rewrite consumed_app.
Qed.

Lemma run_lit l r s g (k : cont) :
  run (Seq (lit l) r) (l +:+ s) g k = run r s g k.
Proof.
  revert g. induction l as [|c l IH]; intros g; [reflexivity|].
  rewrite append_cons.
  change (run (Seq (lit (String c l)) r) (String c (l +:+ s)) g k)
    with (if Ascii.eqb c c then run (Seq (lit l) r) (l +:+ s) g k else None).
  now rewrite Ascii.eqb_refl.
Qed.

(** ** The patterns on lines of the expected shapes *)

Lemma line_end_inv tail :
  line_end tail = true ->
  exists t rest, tail = String t rest /\ comment_or_eol t = true
    /\ (tail = String "010" "" \/ space t = false).
Proof.
  destruct tail as [|t rest]; [discriminate|]. cbn [line_end].
  intros Ht. exists t, rest. split; [reflexivity|].
  destruct (Ascii.eqb_spec t "010") as [->|Hn].
  - apply String.eqb_eq in Ht as ->. split; [reflexivity|now left].
  - apply orb_true_iff in Ht as [->%Ascii.eqb_eq | ->%Ascii.eqb_eq];
      (split; [reflexivity|now right]).
Qed.

Lemma blanks_stop_word sep s :
  is_blanks sep = true -> stops word (sep +:+ s) = true.
Proof.
  unfold is_blanks. intros [Hne Hsep]%andb_true_iff.
  destruct sep as [|b sep]; [discriminate|].
  cbn [all_chars] in Hsep. apply andb_true_iff in Hsep as [Hb _].
  apply andb_true_iff in Hb as [Hb _].
  rewrite append_cons. cbn [stops]. now rewrite (space_not_word _ Hb).
Qed.

Lemma value_stops_space v s :
  is_value v = true -> stops space (v +:+ s) = true.
Proof.
  destruct v as [|c v]; [discriminate|]. cbn [is_value].
  intros [Hc _]%andb_true_iff. now rewrite append_cons.
Qed.

Lemma value_text v : is_value v = true -> is_text v = true /\ v <> "".
Proof.
  destruct v as [|c v]; [discriminate|]. cbn [is_value].
  intros [_ Hv]%andb_true_iff. now split.
Qed.

(** [(\w+)\s+(.+?)[#!\n]] on a keyword, blanks, a value and the end of
    the line. *)
Lemma match_key_value key sep v tail :
  is_name key = true -> is_blanks sep = true -> is_value v = true ->
  line_end tail = true ->
  match_ _re_key_value (key +:+ sep +:+ v +:+ tail)
  = Some [(2%nat, v); (1%nat, key)].
Proof.
  intros Hk Hs Hv (t & rest & -> & Ht & _)%line_end_inv.
  unfold match_, _re_key_value.
  apply run_name; [exact Hk|now apply blanks_stop_word|].
  apply run_blanks; [exact Hs|now apply value_stops_space|].
  apply value_text in Hv as [Hv Hne]. now apply run_value_lazy.
Qed.

(** [@SET (\w+)\s+(.+?)[#!\n]] *)
Lemma match_variable name sep v tail :
  is_name name = true -> is_blanks sep = true -> is_value v = true ->
  line_end tail = true ->
  match_ _re_variable ("@SET " +:+ name +:+ sep +:+ v +:+ tail)
  = Some [(2%nat, v); (1%nat, name)].
Proof.
  intros Hk Hs Hv (t & rest & -> & Ht & _)%line_end_inv.
  unfold match_, _re_variable. rewrite run_lit.
  apply run_name; [exact Hk|now apply blanks_stop_word|].
  apply run_blanks; [exact Hs|now apply value_stops_space|].
  apply value_text in Hv as [Hv Hne]. now apply run_value_lazy.
Qed.

(** [&(\w+)\s*(.*?)[#!\n]] on a section name without a parameter *)
Lemma match_open_plain name sep tail :
  is_name name = true ->
  all_chars blank sep = true ->
  line_end tail = true ->
  match_ _re_open ("&" +:+ name +:+ sep +:+ tail)
  = Some [(2%nat, ""); (1%nat, name)].
Proof.
  intros Hk Hs (t & rest & -> & Ht & Hend)%line_end_inv.
  unfold match_, _re_open. rewrite run_lit.
  apply run_name; [exact Hk| |].
  { destruct sep as [|b sep].
    - rewrite append_empty_l. cbn [stops]. now rewrite (end_not_word _ Ht).
    - cbn [all_chars] in Hs. apply andb_true_iff in Hs as [Hb _].
      apply andb_true_iff in Hb as [Hb _].
      rewrite append_cons. cbn [stops]. now rewrite (space_not_word _ Hb). }
  destruct Hend as [[= -> ->]|Ht'].
  - apply run_blanks_eol; [exact Hs|reflexivity|].
    apply (run_text_lazy "" "010" ""); reflexivity.
  - apply run_blanks_opt; [exact Hs|cbn [stops]; now rewrite Ht'|].
    now apply (run_text_lazy "" t rest).
Qed.

(** ... and on a section name with a parameter *)
Lemma match_open_parameter name sep v tail :
  is_name name = true -> is_blanks sep = true -> is_value v = true ->
  line_end tail = true ->
  match_ _re_open ("&" +:+ name +:+ sep +:+ v +:+ tail)
  = Some [(2%nat, v); (1%nat, name)].
Proof.
  intros Hk Hs Hv (t & rest & -> & Ht & _)%line_end_inv.
  unfold match_, _re_open. rewrite run_lit.
  apply run_name; [exact Hk|now apply blanks_stop_word|].
  apply run_blanks_opt; [|now apply value_stops_space|].
  { unfold is_blanks in Hs. now apply andb_true_iff in Hs as [_ Hs]. }
  apply value_text in Hv as [Hv _]. now apply run_text_lazy.
Qed.

(** ** Where the patterns are found in a line *)

Lemma search_skip_prefix r pre s :
  (forall u, u <> "" -> suffix_of u pre -> match_ r (u +:+ s) = None) ->
  search r (pre +:+ s) = search r s.
Proof.
  induction pre as [|c pre IH]; intros Hm; [reflexivity|].
  rewrite append_cons. rewrite search_skip.
  - apply IH. intros u Hu Hs. apply Hm; [exact Hu|].
    eapply suffix_of_trans; [exact Hs|apply suffix_of_tail].
  - rewrite <- append_cons. apply Hm; [discriminate|apply suffix_of_refl].
Qed.

Lemma search_found r s g : match_ r s = Some g -> search r s = Some g.
Proof. intros Hm. destruct s; cbn [search]; now rewrite Hm. Qed.

Lemma match_key_value_head c s :
  word c = false -> match_ _re_key_value (String c s) = None.
Proof.
  intros Hc. unfold match_, _re_key_value, plus.
  now rewrite run_seq, run_group, run_seq, run_chars_cons, Hc.
Qed.

Lemma match_open_head c s :
  Ascii.eqb "&" c = false -> match_ _re_open (String c s) = None.
Proof. intros Hc. unfold match_, _re_open. now apply run_lit_head. Qed.

Lemma blank_space c : blank c = true -> space c = true.
Proof. now intros [? _]%andb_true_iff. Qed.

Lemma search_indent r indent s :
  (forall c s', blank c = true -> match_ r (String c s') = None) ->
  all_chars blank indent = true ->
  search r (indent +:+ s) = search r s.
Proof.
  intros Hr Hi. apply search_skip_prefix. intros u Hu Hs.
  destruct u as [|c u]; [congruence|].
  pose proof (all_chars_suffix _ _ _ Hs Hi) as Hc.
  cbn [all_chars] in Hc. apply andb_true_iff in Hc as [Hc _].
  rewrite append_cons. now apply Hr.
Qed.

(** A pattern that starts with a given character is not found where the
    character does not occur. *)
Lemma search_char_absent c r s :
  occurs c s = false -> search (Seq (Chars (Ascii.eqb c)) r) s = None.
Proof.
  intros Hc. apply search_none. intros s' Hs'. unfold match_.
  destruct s' as [|a s']; [reflexivity|].
  rewrite run_seq, run_chars_cons.
  now rewrite (occurs_head _ _ _ _ Hs' Hc).
Qed.

(** *** The line stripped of its blanks *)

Lemma lstrip_indent indent a s :
  all_chars blank indent = true -> space a = false ->
  PyStr.lstrip (indent +:+ String a s) = String a s.
Proof.
  intros Hi Ha. induction indent as [|c indent IH].
  - rewrite append_empty_l. cbn [PyStr.lstrip].
    unfold space in Ha. now rewrite Ha.
  - cbn [all_chars] in Hi. apply andb_true_iff in Hi as [Hc Hi].
    apply blank_space in Hc. unfold space in Hc.
    rewrite append_cons. cbn [PyStr.lstrip]. rewrite Hc. now apply IH.
Qed.

Lemma rstrip_head a s :
  space a = false -> exists r, PyStr.rstrip (String a s) = String a r.
Proof.
  intros Ha. cbn [PyStr.rstrip]. unfold space in Ha. rewrite Ha.
  destruct (PyStr.rstrip s) as [|b r]; [now exists ""|now exists (String b r)].
Qed.

Lemma strip_indent indent a s :
  all_chars blank indent = true -> space a = false ->
  exists r, PyStr.strip (indent +:+ String a s) = String a r.
Proof.
  intros Hi Ha. unfold PyStr.strip. rewrite (lstrip_indent _ _ _ Hi Ha).
  now apply rstrip_head.
Qed.

(** A line that starts, after its indentation, with a character that is
    neither a blank nor a comment sign is looked at. *)
Lemma line_is_read indent a s :
  all_chars blank indent = true -> space a = false ->
  Ascii.eqb a "#" || Ascii.eqb a "!" = false ->
  String.eqb (PyStr.strip (indent +:+ String a s)) ""
  || comment_line (PyStr.strip (indent +:+ String a s)) = false.
Proof.
  intros Hi Ha Hc. destruct (strip_indent indent a s Hi Ha) as [r ->].
  cbn [comment_line]. now rewrite Hc.
Qed.

Lemma word_not c a : word c = true -> word a = false -> Ascii.eqb a c = false.
Proof.
  intros Hc Ha. destruct (Ascii.eqb_spec a c) as [->|]; congruence.
Qed.

Lemma name_free name a : is_name name = true -> word a = false -> occurs a name = false.
Proof.
  unfold is_name. intros [_ Hn]%andb_true_iff Ha.
  now apply (all_chars_occurs word).
Qed.

Lemma blanks_free s a : all_chars blank s = true -> blank a = false -> occurs a s = false.
Proof. intros Hs Ha. now apply (all_chars_occurs blank). Qed.

Lemma blank_not_word c : blank c = true -> word c = false.
Proof. intros Hc. now apply space_not_word, blank_space. Qed.

(** A line made of names, blanks and text free of [c] is free of [c]. *)
Lemma line_free c indent name sep rest :
  word c = false -> blank c = false ->
  all_chars blank indent = true -> is_name name = true ->
  all_chars blank sep = true -> occurs c rest = false ->
  occurs c (indent +:+ name +:+ sep +:+ rest) = false.
Proof.
  intros Hw Hb Hi Hn Hs Hr. rewrite !occurs_app.
  now rewrite (blanks_free _ _ Hi Hb), (name_free _ _ Hn Hw),
    (blanks_free _ _ Hs Hb), Hr.
Qed.

Lemma is_blanks_all sep : is_blanks sep = true -> all_chars blank sep = true.
Proof. unfold is_blanks. now intros [_ ?]%andb_true_iff. Qed.

(** ** Lines and what the loop does with them *)

Lemma keyword_line indent key sep v tail st :
  all_chars blank indent = true ->
  is_name key = true -> is_blanks sep = true -> is_value v = true ->
  line_end tail = true ->
  free_of "@&" (v +:+ tail) = true ->
  tree_line (indent +:+ key +:+ sep +:+ v +:+ tail) st
  = store_keyword key v st.
Proof.
  intros Hi Hk Hs Hv Ht Hf.
  pose proof (free_of_occurs _ _ "@" Hf eq_refl) as Hat.
  pose proof (free_of_occurs _ _ "&" Hf eq_refl) as Hamp.
  pose proof (line_free "@" indent key sep _ eq_refl eq_refl Hi Hk
                (is_blanks_all _ Hs) Hat) as Hat'.
  pose proof (line_free "&" indent key sep _ eq_refl eq_refl Hi Hk
                (is_blanks_all _ Hs) Hamp) as Hamp'.
  unfold tree_line.
  assert (Hread : String.eqb (PyStr.strip (indent +:+ key +:+ sep +:+ v +:+ tail)) ""
                  || comment_line (PyStr.strip (indent +:+ key +:+ sep +:+ v +:+ tail))
                  = false).
  { pose proof Hk as Hk'. unfold is_name in Hk'.
    apply andb_true_iff in Hk' as [Hne Hall].
    destruct key as [|a key]; [discriminate|].
    cbn [all_chars] in Hall. apply andb_true_iff in Hall as [Ha _].
    destruct (word_not_comment _ Ha) as [Hsp Hc].
    rewrite append_cons. now apply line_is_read. }
  rewrite Hread.
  unfold _re_variable. rewrite (search_lit_absent "@" "SET " _ _ Hat').
  change _re_close with (Seq (Chars (Ascii.eqb "&")) (lit "END")).
  rewrite (search_char_absent _ _ _ Hamp').
  unfold _re_open. rewrite (search_lit_absent "&" "" _ _ Hamp').
  rewrite (search_indent _ indent _ (fun c s' Hc =>
             match_key_value_head c s' (blank_not_word c Hc)) Hi).
  rewrite (search_found _ _ _ (match_key_value key sep v tail Hk Hs Hv Ht)).
  reflexivity.
Qed.

(** *** The pattern [&END] *)

Lemma run_lit_prefix l s g :
  run (lit l) s g done = if String.prefix l s then Some g else None.
Proof.
  revert s. induction l as [|c l IH]; intros s.
  - cbn [lit run]. now rewrite prefix_empty.
  - destruct s as [|a s]; [reflexivity|].
    change (run (lit (String c l)) (String a s) g done)
      with (if Ascii.eqb c a then run (lit l) s g done else None).
    cbn [String.prefix]. rewrite IH.
    destruct (ascii_dec c a) as [->|Hne].
    + now rewrite Ascii.eqb_refl.
    + destruct (Ascii.eqb_spec c a); [congruence|reflexivity].
Qed.

Lemma find_at_range l s i :
  PyStr.find_at l s i = -1 \/ i <= PyStr.find_at l s i.
Proof.
  revert i. induction s as [|c s IH]; intros i; cbn [PyStr.find_at].
  - destruct (String.prefix l ""); [right; lia|now left].
  - destruct (String.prefix l (String c s)); [right; lia|].
    destruct (IH (i + 1)); [now left|right; lia].
Qed.

(** [&END] is found exactly where the text holds it. *)
Lemma search_lit_absent_text l s i :
  0 <= i -> PyStr.find_at l s i < 0 -> search (lit l) s = None.
Proof.
  revert i. induction s as [|c s IH]; intros i Hi Hf; cbn [PyStr.find_at] in Hf.
  - cbn [search]. unfold match_. rewrite run_lit_prefix.
    destruct (String.prefix l ""); [lia|reflexivity].
  - cbn [search]. unfold match_. rewrite run_lit_prefix.
    destruct (String.prefix l (String c s)); [lia|].
    apply (IH (i + 1)); [lia|exact Hf].
Qed.

Lemma search_lit_present l s i :
  0 <= i -> 0 <= PyStr.find_at l s i -> search (lit l) s = Some [].
Proof.
  revert i. induction s as [|c s IH]; intros i Hi Hf; cbn [PyStr.find_at] in Hf.
  - cbn [search]. unfold match_. rewrite run_lit_prefix.
    destruct (String.prefix l ""); [reflexivity|lia].
  - cbn [search]. unfold match_. rewrite run_lit_prefix.
    destruct (String.prefix l (String c s)); [reflexivity|].
    apply (IH (i + 1)); [lia|exact Hf].
Qed.

Lemma search_close_absent line :
  Py.contains "&END" line = false -> search _re_close line = None.
Proof.
  unfold Py.contains, PyStr.find. intros Hc%Z.leb_gt.
  now apply (search_lit_absent_text "&END" line 0).
Qed.

Lemma search_close_present line :
  Py.contains "&END" line = true -> search _re_close line = Some [].
Proof.
  unfold Py.contains, PyStr.find. intros Hc%Z.leb_le.
  now apply (search_lit_present "&END" line 0).
Qed.

(** A name does not run into what follows it. *)
Lemma prefix_name l name rest :
  all_chars word l = true -> stops word rest = true ->
  String.prefix l (name +:+ rest) = String.prefix l name.
Proof.
  revert l. induction name as [|n name IH]; intros l Hl Hr.
  - rewrite append_empty_l. destruct l as [|x l].
    + now rewrite !prefix_empty.
    + cbn [all_chars] in Hl. apply andb_true_iff in Hl as [Hx _].
      destruct rest as [|r rest]; [reflexivity|].
      cbn [stops] in Hr. apply negb_true_iff in Hr.
      cbn [String.prefix]. destruct (ascii_dec x r) as [->|]; congruence.
  - rewrite append_cons. destruct l as [|x l]; [reflexivity|].
    cbn [all_chars] in Hl. apply andb_true_iff in Hl as [_ Hl].
    cbn [String.prefix]. destruct (ascii_dec x n); [|reflexivity].
    now apply IH.
Qed.

Lemma section_parameter_inv sep parameter :
  section_parameter sep parameter = true ->
  all_chars blank sep = true
  /\ (parameter = "" \/ (is_blanks sep = true /\ is_value parameter = true)).
Proof.
  unfold section_parameter.
  destruct (String.eqb_spec parameter "") as [->|_].
  - intros Hs. split; [exact Hs|now left].
  - intros [Hs Hv]%andb_true_iff. split; [now apply is_blanks_all|now right].
Qed.

Lemma section_parameter_stops sep parameter tail :
  section_parameter sep parameter = true -> line_end tail = true ->
  stops word (sep +:+ parameter +:+ tail) = true.
Proof.
  intros (Hs & Hp)%section_parameter_inv (t & rest & -> & Ht & _)%line_end_inv.
  destruct sep as [|b sep].
  - rewrite append_empty_l. destruct Hp as [->|[Hb _]]; [|discriminate].
    rewrite append_empty_l. cbn [stops]. now rewrite (end_not_word _ Ht).
  - cbn [all_chars] in Hs. apply andb_true_iff in Hs as [Hb _].
    rewrite append_cons. cbn [stops]. now rewrite (blank_not_word _ Hb).
Qed.

Lemma match_open name sep parameter tail :
  is_name name = true -> section_parameter sep parameter = true ->
  line_end tail = true ->
  match_ _re_open ("&" +:+ name +:+ sep +:+ parameter +:+ tail)
  = Some [(2%nat, parameter); (1%nat, name)].
Proof.
  intros Hn (Hs & [->|[Hb Hv]])%section_parameter_inv Ht.
  - rewrite append_empty_l. now apply match_open_plain.
  - now apply match_open_parameter.
Qed.

Lemma section_line indent name sep parameter tail st :
  all_chars blank indent = true ->
  is_name name = true -> String.prefix "END" name = false ->
  section_parameter sep parameter = true ->
  line_end tail = true ->
  free_of "@&" (parameter +:+ tail) = true ->
  tree_line (indent +:+ "&" +:+ name +:+ sep +:+ parameter +:+ tail) st
  = open_section name parameter st.
Proof.
  intros Hi Hn Hend Hp Ht Hf.
  pose proof (section_parameter_inv _ _ Hp) as [Hs _].
  pose proof (free_of_occurs _ _ "@" Hf eq_refl) as Hat.
  pose proof (free_of_occurs _ _ "&" Hf eq_refl) as Hamp.
  set (rest := sep +:+ parameter +:+ tail).
  assert (Hamp' : occurs "&" (name +:+ rest) = false).
  { unfold rest. rewrite (occurs_app _ name), (occurs_app _ sep).
    now rewrite (name_free _ "&" Hn eq_refl), (blanks_free _ "&" Hs eq_refl), Hamp. }
  assert (Hat' : occurs "@" (indent +:+ "&" +:+ name +:+ rest) = false).
  { unfold rest.
    rewrite (occurs_app _ indent), (occurs_app _ "&"), (occurs_app _ name),
      (occurs_app _ sep).
    now rewrite (blanks_free _ "@" Hi eq_refl), (name_free _ "@" Hn eq_refl),
      (blanks_free _ "@" Hs eq_refl), Hat. }
  unfold tree_line.
  change ("&" +:+ name +:+ rest) with (String "&" (name +:+ rest)).
  rewrite (line_is_read indent "&" _ Hi eq_refl eq_refl).
  unfold _re_variable. rewrite (search_lit_absent "@" "SET " _ _ Hat').
  assert (Hclose : search _re_close (indent +:+ String "&" (name +:+ rest)) = None).
  { rewrite (search_indent _ indent _); [|  | exact Hi].
    - rewrite search_skip.
      + change _re_close with (Seq (Chars (Ascii.eqb "&")) (lit "END")).
        now apply search_char_absent.
      + unfold match_.
        change (run _re_close (String "&" (name +:+ rest)) [] done)
          with (run (lit "END") (name +:+ rest) [] done).
        rewrite run_lit_prefix, prefix_name, Hend; [reflexivity..|].
        now apply section_parameter_stops.
    - intros c s' Hc. unfold match_, _re_close. rewrite run_lit_prefix.
      cbn [String.prefix]. destruct (ascii_dec "&" c) as [<-|]; [discriminate|].
      reflexivity. }
  rewrite Hclose.
  rewrite (search_indent _ indent _ (fun c s' Hc =>
             match_open_head c s' ltac:(now destruct (Ascii.eqb_spec "&" c) as [<-|])) Hi).
  change (String "&" (name +:+ rest)) with ("&" +:+ name +:+ sep +:+ parameter +:+ tail).
  rewrite (search_found _ _ _ (match_open name sep parameter tail Hn Hp Ht)).
  reflexivity.
Qed.

(** *** Lines without an end *)

Lemma free_of_end_chars line s' :
  free_of end_chars line = true -> suffix_of s' line ->
  match s' with String c _ => comment_or_eol c = false | "" => True end.
Proof.
  intros Hf Hs. destruct s' as [|c s']; [exact I|].
  pose proof (fun a Ha => occurs_head a _ _ _ Hs (free_of_occurs _ _ a Hf Ha)) as Hc.
  unfold comment_or_eol.
  rewrite (Ascii.eqb_sym c "#"), (Ascii.eqb_sym c "!"), (Ascii.eqb_sym c "010").
  now rewrite !Hc.
Qed.

(** The patterns that end with [[#!\n]] have no match in a text without
    these characters. *)
Lemma run_needs_end r : forall line s g (k : cont),
  needs_end r -> free_of end_chars line = true -> suffix_of s line ->
  run r s g k = None.
Proof.
  induction r as [|p|r1 IH1 r2 IH2|r1 IH1 r2 IH2|greedy r IH|i r IH];
    intros line s g k Hr Hf Hs; cbn [needs_end] in Hr; try contradiction.
  - pose proof (free_of_end_chars line s Hf Hs) as Hc.
    destruct s as [|c s]; [reflexivity|]. rewrite run_chars_cons.
    destruct (p c) eqn:Hp; [|reflexivity].
    rewrite (Hr c Hp) in Hc. discriminate.
  - rewrite run_seq. apply run_none. intros s' g' Hs'.
    apply (IH2 line); [exact Hr|exact Hf|].
    eapply suffix_of_trans; eassumption.
Qed.

Lemma search_needs_end r line :
  needs_end r -> free_of end_chars line = true -> search r line = None.
Proof.
  intros Hr Hf. apply search_none. intros s' Hs'. unfold match_.
  now apply (run_needs_end r line).
Qed.

Lemma unterminated_line line st :
  free_of end_chars line = true ->
  Py.contains "&END" line = false ->
  tree_line line st = Ok st.
Proof.
  intros Hf Hc. unfold tree_line.
  destruct (String.eqb (PyStr.strip line) "" || comment_line (PyStr.strip line));
    [reflexivity|].
  rewrite (search_needs_end _re_variable line), (search_close_absent _ Hc),
    (search_needs_end _re_open line), (search_needs_end _re_key_value line);
    try reflexivity; try exact Hf; cbn; trivial.
Qed.

(** *** A section closed that was not opened *)

Lemma tree_lines_app pre post st :
  tree_lines (pre ++ post) st = (st' ← tree_lines pre st; tree_lines post st').
Proof.
  revert st. induction pre as [|line pre IH]; intros st; [reflexivity|].
  cbn [app tree_lines]. destruct (tree_line line st) as [st'|e]; [|reflexivity].
  apply IH.
Qed.

Lemma tree_line_no_section line st :
  sections st = [] ->
  tree_line line st = Raise IndexError
  \/ exists st', tree_line line st = Ok st' /\ sections st' = [].
Proof.
  intros Hs. unfold tree_line.
  destruct (String.eqb (PyStr.strip line) "" || comment_line (PyStr.strip line));
    [right; now exists st|].
  destruct (search _re_variable line) as [m|].
  { right. eexists. split; [reflexivity|exact Hs]. }
  destruct (search _re_close line) as [m|].
  { left. unfold close_section. now rewrite Hs. }
  destruct (search _re_open line) as [m|].
  { left. unfold open_section. now rewrite Hs. }
  destruct (search _re_key_value line) as [m|].
  { left. unfold store_keyword. now rewrite Hs. }
  right. now exists st.
Qed.

Lemma tree_lines_no_section lines : forall st,
  sections st = [] ->
  tree_lines lines st = Raise IndexError
  \/ exists st', tree_lines lines st = Ok st' /\ sections st' = [].
Proof.
  induction lines as [|line lines IH]; intros st Hs.
  - right. now exists st.
  - cbn [tree_lines].
    destruct (tree_line_no_section line st Hs) as [->|(st' & -> & Hs')];
      [now left|].
    now apply IH.
Qed.

Lemma closing_line line st :
  String.eqb (PyStr.strip line) "" || comment_line (PyStr.strip line) = false ->
  occurs "@" line = false ->
  Py.contains "&END" line = true ->
  tree_line line st = close_section st.
Proof.
  intros Hr Hat Hc. unfold tree_line. rewrite Hr.
  unfold _re_variable. rewrite (search_lit_absent "@" "SET " _ _ Hat).
  now rewrite (search_close_present _ Hc).
Qed.

(** ** The dict of the tree and the paths into it *)

Lemma map_sequence_ok {A} (m : gmap string (result A)) m' :
  map_sequence m = Ok m' -> m = Ok <$> m'.
Proof.
  revert m'. unfold map_sequence.
  apply (map_fold_weak_ind
           (fun r (m : gmap string (result A)) =>
              forall m', r = Ok m' -> m = Ok <$> m')).
  - intros m' [= <-]. now rewrite fmap_empty.
  - intros i x m0 r Hi IH m' Hm'.
    destruct r as [acc|e]; [|discriminate].
    destruct x as [v|e]; [|discriminate].
    injection Hm' as <-. rewrite fmap_insert. f_equal. now apply IH.
Qed.

Lemma map_sequence_singleton {A} (k : string) (v : A) :
  map_sequence ({[k := Ok v]} : gmap string (result A)) = Ok {[k := v]}.
Proof.
  unfold map_sequence. rewrite map_fold_singleton. cbn.
  now rewrite insert_empty.
Qed.

Lemma to_dict_plain fuel heap id source obj a val d' :
  to_dict fuel heap id = Ok source ->
  heap !! id = Some obj -> _data obj !! a = Some val ->
  plain_dval val = Some d' ->
  exists d, source = DDict d /\ d !! a = Some d'.
Proof.
  intros Hd Hobj Hval Hplain. destruct fuel as [|fuel]; [discriminate|].
  cbn [to_dict] in Hd. rewrite Hobj in Hd. cbn [from_option] in Hd.
  match type of Hd with
  | _ <$> map_sequence ?m = _ => destruct (map_sequence m) as [d|e] eqn:Hseq
  end; [|discriminate].
  injection Hd as <-. exists d. split; [reflexivity|].
  apply map_sequence_ok in Hseq.
  apply (f_equal (fun m => m !! a)) in Hseq.
  rewrite !lookup_fmap, Hval in Hseq. cbn in Hseq.
  destruct val as [s|j|l]; cbn in Hplain; try discriminate;
    injection Hplain as <-;
    destruct (d !! a) as [x|]; cbn in Hseq; congruence.
Qed.

(** *** Paths *)

Lemma rstrip_chars_free chars s :
  all_chars (fun c => negb (occurs c chars)) s = true ->
  PyText.rstrip_chars chars s = s.
Proof.
  induction s as [|c s IH]; [reflexivity|].
  cbn [all_chars]. intros [Hc Hs]%andb_true_iff.
  apply negb_true_iff in Hc.
  cbn [PyText.rstrip_chars]. rewrite (IH Hs), Hc. now destruct s.
Qed.

Lemma rstrip_chars_app chars s t :
  PyText.rstrip_chars chars t <> "" ->
  PyText.rstrip_chars chars (s +:+ t) = s +:+ PyText.rstrip_chars chars t.
Proof.
  intros Ht. induction s as [|c s IH]; [reflexivity|].
  rewrite !append_cons. cbn [PyText.rstrip_chars]. rewrite IH.
  destruct (s +:+ PyText.rstrip_chars chars t) eqn:Hs; [|reflexivity].
  destruct s; [now rewrite append_empty_l in Hs|].
  rewrite append_cons in Hs. discriminate.
Qed.

Lemma word_not_slash c : word c = true -> negb (occurs c "/") = true.
Proof. destruct c as [[] [] [] [] [] [] [] []]; cbv; congruence. Qed.

Lemma name_no_slash name :
  is_name name = true ->
  all_chars (fun c => negb (occurs c "/")) name = true
  /\ occurs "/" name = false /\ name <> "".
Proof.
  intros Hn. pose proof Hn as [Hne Hall]%andb_true_iff. repeat split.
  - revert Hall. apply all_chars_impl. exact word_not_slash.
  - now apply name_free.
  - intros ->. discriminate.
Qed.

(** A path of two names is split into the two names. *)
Lemma parse_path source a b :
  is_name a = true -> is_name b = true ->
  parse source (a +:+ "/" +:+ b) = walk source [a; b].
Proof.
  intros (Ha1 & Ha2 & Ha3)%name_no_slash (Hb1 & Hb2 & Hb3)%name_no_slash.
  unfold parse, PyText.strip_chars.
  assert (Hl : PyText.lstrip_chars "/" (a +:+ "/" +:+ b) = a +:+ "/" +:+ b).
  { destruct a as [|x a]; [congruence|].
    cbn [all_chars] in Ha1. apply andb_true_iff in Ha1 as [Hx _].
    apply negb_true_iff in Hx.
    rewrite append_cons. cbn [PyText.lstrip_chars]. now rewrite Hx. }
  rewrite Hl.
  assert (Hr : PyText.rstrip_chars "/" (a +:+ "/" +:+ b) = a +:+ "/" +:+ b).
  { rewrite rstrip_chars_app; rewrite rstrip_chars_app;
      rewrite ?(rstrip_chars_free _ _ Hb1); try reflexivity; try assumption.
    destruct b; [congruence|discriminate]. }
  rewrite Hr. change ("/" +:+ b) with (String "/" b).
  now rewrite (split_once _ _ _ Ha2 Hb2).
Qed.

End InpParserFacts.

(** * Properties of the input tree *)

Module InpTree.

Import Re ReFacts InpParser InpParserFacts.

Lemma free_of_app chars s t :
  free_of chars (s +:+ t) = free_of chars s && free_of chars t.
Proof.
  induction chars as [|c chars IH]; [reflexivity|].
  cbn [free_of]. rewrite IH, occurs_app, negb_orb.
  destruct (occurs c s), (occurs c t), (free_of chars s), (free_of chars t);
    reflexivity.
Qed.

Lemma override_name name key val :
  is_name key = true -> is_name (fst (override name (key, val))) = true.
Proof.
  intros Hk. unfold override.
  destruct (String.eqb key "PROJECT"); [reflexivity|].
  destruct (PyText.isupper key); [exact Hk|reflexivity].
Qed.

Lemma add_empty key val :
  InpValue.add key val ∅ = {[key := val]}.
Proof. unfold InpValue.add. now rewrite lookup_empty, insert_empty. Qed.

(** X11.  A file of one section with one keyword, read into the tree and
    turned into a dict, gives the stripped value of the keyword at the
    path section/keyword; the keyword is the one [override] makes of it:
    [PROJECT_NAME] for [PROJECT], [DEFAULT_KEYWORD] (with the key put in
    front of the value) for a key that is not in capitals. *)
Theorem tree_round_trip name key v :
  is_name name = true -> String.prefix "END" name = false ->
  is_name key = true -> is_value v = true -> free_of "@&" v = true ->
  ('(heap, root) ← tree_of_lines
                     [ "&" +:+ name +:+ eol;
                       key +:+ " " +:+ v +:+ eol;
                       "&END " +:+ name +:+ eol ];
   source ← to_dict 2 heap root;
   parse source (name +:+ "/" +:+ fst (override name (key, PyStr.strip v))))
  = Ok (Some (DStr (snd (override name (key, PyStr.strip v))))).
Proof.
  intros Hn Hend Hk Hv Hf.
  assert (H1 : forall st, tree_line ("&" +:+ name +:+ eol) st
                          = open_section name "" st).
  { intros st. now apply (section_line "" name "" "" eol st). }
  assert (H2 : forall st, tree_line (key +:+ " " +:+ v +:+ eol) st
                          = store_keyword key v st).
  { intros st. apply (keyword_line "" key " " v eol st); try reflexivity;
      try assumption.
    now rewrite free_of_app, Hf. }
  assert (H3 : forall st, tree_line ("&END " +:+ name +:+ eol) st
                          = close_section st).
  { intros st. apply closing_line.
    - exact (line_is_read "" "&" _ eq_refl eq_refl eq_refl).
    - change ("&END " +:+ name +:+ eol) with ("&END " +:+ (name +:+ eol)).
      rewrite !occurs_app. now rewrite (name_free _ "@" Hn eq_refl).
    - reflexivity. }
  set (k := fst (override name (key, PyStr.strip v))).
  set (x := snd (override name (key, PyStr.strip v))).
  set (root := {| _name := "tree";
                  _data := {[name := InpValue.SectionRef 1]} |}).
  set (st1 := {| heap := [root; {| _name := name; _data := ∅ |}];
                 sections := [0%nat; 1%nat]; _variables := ∅ |}).
  set (section := {| _name := name;
                     _data := {[k := InpValue.Keyword x]} |}).
  set (st2 := {| heap := [root; section];
                 sections := [0%nat; 1%nat]; _variables := ∅ |}).
  assert (E1 : open_section name "" initial = Ok st1).
  { unfold open_section, initial, add_to.
    cbn [heap sections _variables length app].
    change (Py.getitem [0%nat] (-1)) with (Ok 0%nat : result nat).
    cbn -[InpValue.add]. now rewrite add_empty. }
  assert (E2 : store_keyword key v st1 = Ok st2).
  { unfold store_keyword, st1, add_to.
    cbn [heap sections _variables]. rewrite lookup_empty.
    change (Py.getitem [0%nat; 1%nat] (-1)) with (Ok 1%nat : result nat).
    cbn -[InpValue.add override PyStr.strip].
    fold k x. destruct (override name (key, PyStr.strip v)) as [k' x'] eqn:Ho.
    subst k x. cbn [fst snd] in *. unfold st2, section.
    cbn -[InpValue.add]. now rewrite add_empty. }
  assert (E3 : close_section st2
               = Ok {| heap := [root; section]; sections := [0%nat];
                       _variables := ∅ |}) by reflexivity.
  unfold tree_of_lines. cbn [tree_lines]. rewrite H1, E1.
  cbn [mbind result_bind]. rewrite H2, E2. cbn [mbind result_bind].
  rewrite H3, E3. cbn [mbind result_bind sections heap].
  change (Py.getitem [0%nat] 0) with (Ok 0%nat : result nat).
  cbn [mbind result_bind].
  assert (Ed : to_dict 2 [root; section] 0
               = Ok (DDict {[name := DDict {[k := DStr x]}]})).
  { cbn [to_dict]. cbn [lookup list_lookup from_option root section _data].
    rewrite (map_fmap_singleton (M := gmap string)).
    change ([root; section] !! 1%nat) with (Some section).
    cbn [from_option _data section].
    rewrite (map_fmap_singleton (M := gmap string)), map_sequence_singleton.
    cbn [fmap result_fmap].
    now rewrite map_sequence_singleton. }
  rewrite Ed. cbn [mbind result_bind].
  rewrite parse_path; [|exact Hn|now apply override_name].
  cbn [walk dict_get_or_none mbind result_bind].
  rewrite lookup_singleton_eq. cbn [walk dict_get_or_none mbind result_bind].
  now rewrite lookup_singleton_eq.
Qed.







(** X9.  A line without a newline and without a comment sign, as the last
    line of a file can be, is dropped unless it holds [&END]: no keyword,
    section or variable is read from it. *)
Theorem tree_line_unterminated line st :
  free_of end_chars line = true ->
  Py.contains "&END" line = false ->
  tree_line line st = Ok st.
Proof. apply unterminated_line. Qed.

Lemma tree_line_unterminated_witness :
  tree_line "PROJECT water" initial = Ok initial.
Proof. apply (tree_line_unterminated "PROJECT water" initial); reflexivity. Defined.

(** X10.  A line that holds [&END] while no section is open makes the
    property [tree] raise [IndexError], whatever follows the line. *)
Theorem tree_unmatched_end pre line post st :
  tree_lines pre initial = Ok st ->
  length (sections st) = 1%nat ->
  String.eqb (PyStr.strip line) "" || comment_line (PyStr.strip line) = false ->
  occurs "@" line = false ->
  Py.contains "&END" line = true ->
  tree_of_lines (pre ++ line :: post) = Raise IndexError.
Proof.
  intros Hpre Hlen Hr Hat Hc. unfold tree_of_lines.
  rewrite tree_lines_app, Hpre. cbn [mbind result_bind tree_lines].
  rewrite (closing_line _ _ Hr Hat Hc). unfold close_section.
  destruct (sections st) as [|a [|b l]] eqn:Hs; try discriminate.
  cbn [removelast mbind result_bind].
  destruct (tree_lines_no_section post
              {| heap := heap st; sections := []; _variables := _variables st |}
              eq_refl) as [->|(st' & -> & Hs')]; [reflexivity|].
  cbn [mbind result_bind]. now rewrite Hs'.
Qed.

Lemma tree_unmatched_end_witness :
  tree_of_lines [ "&GLOBAL" +:+ eol; "&END GLOBAL" +:+ eol;
                  "&END" +:+ eol; "RUN_TYPE MD" +:+ eol ]
  = Raise IndexError.
Proof.
  eapply (tree_unmatched_end ["&GLOBAL" +:+ eol; "&END GLOBAL" +:+ eol]
            ("&END" +:+ eol) ["RUN_TYPE MD" +:+ eol]);
    [vm_compute; reflexivity | reflexivity ..].
Defined.

Lemma tree_round_trip_witness :
  ('(heap, root) ← tree_of_lines
                     [ "&GLOBAL" +:+ eol; "PROJECT water " +:+ eol;
                       "&END GLOBAL" +:+ eol ];
   source ← to_dict 2 heap root;
   parse source "GLOBAL/PROJECT_NAME")
  = Ok (Some (DStr "water")).
Proof.
  exact (tree_round_trip "GLOBAL" "PROJECT" "water " eq_refl eq_refl eq_refl
           eq_refl eq_refl).
Defined.

(** X12.  A path that goes on after a keyword value, or after a key that
    was given more than once (so that the tree holds a list for it, as for
    two sections of the same name), makes [parse] raise [AttributeError]:
    only a dict is looked into. *)
Theorem parse_through_value fuel heap id source obj a b val d :
  to_dict fuel heap id = Ok source ->
  heap !! id = Some obj -> _data obj !! a = Some val ->
  plain_dval val = Some d ->
  is_name a = true -> is_name b = true ->
  parse source (a +:+ "/" +:+ b) = Raise AttributeError.
Proof.
  intros Hd Hobj Hval Hplain Ha Hb.
  destruct (to_dict_plain _ _ _ _ _ _ _ _ Hd Hobj Hval Hplain) as (m & -> & Hm).
  rewrite (parse_path _ _ _ Ha Hb).
  cbn [walk dict_get_or_none mbind result_bind]. rewrite Hm.
  destruct val; cbn in Hplain; try discriminate; now injection Hplain as <-.
Qed.

Lemma parse_through_value_witness :
  (source ← to_dict 3 InpScenario.two_kinds 0;
   parse source "KIND/BASIS_SET") = Raise AttributeError.
Proof.
  destruct (to_dict 3 InpScenario.two_kinds 0) as [source|e] eqn:Hd;
    [|vm_compute in Hd; discriminate].
  cbn [mbind result_bind].
  eapply (parse_through_value 3 InpScenario.two_kinds 0 source _
            "KIND" "BASIS_SET" _ _ Hd);
    [vm_compute; reflexivity | vm_compute; reflexivity | reflexivity ..].
Defined.

End InpTree.

(** * The settings dicts *)

Module SettingsFacts.

Import Settings.

Section ToDictFacts.

Context {V : Type}.

Implicit Types (d : list (string * list V)) (data : list (string * V)).

Lemma dict_get_append_to name val d key :
  dict_get (append_to name val d) key
  = if String.eqb name key
    then Some (from_option id [] (dict_get d key) ++ [val])
    else dict_get d key.
Proof.
  induction d as [|[k vs] d IH]; cbn [append_to dict_get].
  - destruct (String.eqb name key); reflexivity.
  - destruct (String.eqb_spec k name) as [->|Hk]; cbn [dict_get].
    + destruct (String.eqb name key); reflexivity.
    + rewrite IH. destruct (String.eqb_spec k key) as [->|Hk']; [|reflexivity].
      destruct (String.eqb_spec name key); [congruence|reflexivity].
Qed.

Lemma dict_get_map {A B} (f : A -> B) (l : list (string * A)) key :
  dict_get (map (fun '(k, v) => (k, f v)) l) key = f <$> dict_get l key.
Proof.
  induction l as [|[k v] l IH]; [reflexivity|].
  cbn [map dict_get]. now destruct (String.eqb k key).
Qed.

(** The loop with every value kept. *)
Lemma collect_all_from data : forall d name,
  dict_get
    (fold_left
       (fun data_dict '(key, val) =>
          let name := from_option id key (dict_get _metainfo_name_map key) in
          if negb true && bool_decide (is_Some (dict_get data_dict name))
          then data_dict
          else append_to name val data_dict) data d) name
  = match dict_get d name, values_named name data with
    | None, [] => None
    | o, vs => Some (from_option id [] o ++ vs)
    end.
Proof.
  induction data as [|[key val] data IH]; intros d name.
  - cbn [fold_left values_named]. destruct (dict_get d name) as [vs|]; [|reflexivity].
    now rewrite app_nil_r.
  - cbn [fold_left values_named negb andb]. rewrite IH, dict_get_append_to.
    destruct (String.eqb _ name).
    + destruct (dict_get d name) as [vs|]; cbn [from_option id];
        now rewrite <- ?app_assoc.
    + reflexivity.
Qed.

(** The loop with the first value of every name kept. *)
Lemma collect_first_from data : forall d name,
  dict_get
    (fold_left
       (fun data_dict '(key, val) =>
          let name := from_option id key (dict_get _metainfo_name_map key) in
          if negb false && bool_decide (is_Some (dict_get data_dict name))
          then data_dict
          else append_to name val data_dict) data d) name
  = match dict_get d name with
    | Some vs => Some vs
    | None => (fun v => [v]) <$> head (values_named name data)
    end.
Proof.
  induction data as [|[key val] data IH]; intros d name.
  - cbn [fold_left values_named]. now destruct (dict_get d name).
  - cbn [fold_left values_named negb andb].
    set (n := from_option id key (dict_get _metainfo_name_map key)).
    destruct (dict_get d n) as [vs0|] eqn:Hn.
    + rewrite bool_decide_eq_true_2 by eauto. rewrite IH.
      destruct (String.eqb_spec n name) as [<-|]; [now rewrite Hn|reflexivity].
    + rewrite bool_decide_eq_false_2 by (intros [? ?]; congruence).
      rewrite IH, dict_get_append_to.
      destruct (String.eqb_spec n name) as [<-|]; [|reflexivity].
      now rewrite Hn.
Qed.

(** X13.  With [repeats] on, the dict made of the pairs read from the
    output holds for every name the values given for it, whatever key of
    the output stands for that name: nothing for a name without values, the
    value itself when there is one, and the list of the values in the
    order of the output when there are several. *)
Theorem settings_to_dict_repeats data name :
  dict_get (to_dict data true) name
  = match values_named name data with
    | [] => None
    | [v] => Some (One v)
    | vs => Some (Many vs)
    end.
Proof.
  unfold to_dict. rewrite (dict_get_map unwrap). unfold collect.
  rewrite collect_all_from. cbn [dict_get from_option id app].
  now destruct (values_named name data) as [|v [|w vs]].
Qed.

(** X14.  With [repeats] off, the dict holds for every name the first of
    the values given for it and drops the later ones. *)
Theorem settings_to_dict_first data name :
  dict_get (to_dict data false) name
  = One <$> head (values_named name data).
Proof.
  unfold to_dict. rewrite (dict_get_map unwrap). unfold collect.
  rewrite collect_first_from. cbn [dict_get].
  now destruct (values_named name data).
Qed.

End ToDictFacts.

End SettingsFacts.

(** * The files of the projected density of states *)

Module PdosFacts.

Import Pdos.

Section GetPdosFilesFacts.

Context {File : Type} (iter_of : File -> option Z).

Lemma sweep_step n file next rest :
  of_step iter_of n file = false ->
  sweep iter_of n (file :: next :: rest) = next :: sweep iter_of n rest.
Proof. intros Hf. cbn [sweep]. now rewrite Hf. Qed.

(** The loop, whatever bound on its iterations is enough. *)
Lemma pdos_loop_sweep n : forall fuel files before,
  (length files <= fuel)%nat ->
  pdos_loop iter_of fuel n (before ++ files) (length before)
  = before ++ sweep iter_of n files.
Proof.
  induction fuel as [|fuel IH]; intros files before Hfuel.
  - destruct files; [reflexivity|cbn in Hfuel; lia].
  - cbn [pdos_loop]. destruct files as [|file rest].
    + cbn [sweep]. rewrite !app_nil_r, lookup_ge_None_2 by lia. reflexivity.
    + rewrite list_lookup_middle by reflexivity.
      cbn [length] in Hfuel.
      destruct (of_step iter_of n file) eqn:Hf; cbn [negb].
      * cbn [sweep]. rewrite Hf.
        replace (before ++ file :: rest) with ((before ++ [file]) ++ rest)
          by now rewrite <- app_assoc.
        replace (S (length before)) with (length (before ++ [file]))
          by (rewrite List.length_app; cbn; lia).
        rewrite IH by lia. now rewrite <- app_assoc.
      * assert (Hd : delete (length before) (before ++ file :: rest)
                     = before ++ rest).
        { clear. induction before as [|b before IHb]; [reflexivity|].
          cbn. f_equal. exact IHb. }
        rewrite Hd. destruct rest as [|next rest].
        { cbn [sweep]. rewrite Hf, !app_nil_r.
          destruct fuel; cbn [pdos_loop]; [reflexivity|].
          now rewrite lookup_ge_None_2 by lia. }
        rewrite (sweep_step _ _ _ _ Hf).
        replace (before ++ next :: rest) with ((before ++ [next]) ++ rest)
          by now rewrite <- app_assoc.
        replace (S (length before)) with (length (before ++ [next]))
          by (rewrite List.length_app; cbn; lia).
        cbn [length] in Hfuel. rewrite IH by lia. now rewrite <- app_assoc.
Qed.

Lemma get_pdos_files_sweep files n :
  get_pdos_files iter_of (Some files) n = Some (sweep iter_of n files).
Proof.
  unfold get_pdos_files. f_equal.
  exact (pdos_loop_sweep n (length files) files [] (le_n _)).
Qed.

Lemma sweep_sublist n files : sublist (sweep iter_of n files) files.
Proof.
  induction files as [files IH] using (induction_ltof1 _ (@length _));
    unfold ltof in *.
  destruct files as [|file rest]; [constructor|].
  cbn [sweep]. destruct (of_step iter_of n file).
  - apply sublist_skip. apply IH. cbn. lia.
  - destruct rest as [|next rest]; [apply sublist_nil_l|].
    apply sublist_cons, sublist_skip. apply IH. cbn. lia.
Qed.

Lemma sweep_keeps n file files :
  file ∈ files -> of_step iter_of n file = true ->
  file ∈ sweep iter_of n files.
Proof.
  intros Hin Hf.
  induction files as [files IH] using (induction_ltof1 _ (@length _));
    unfold ltof in *.
  destruct files as [|first rest]; [now apply elem_of_nil in Hin|].
  cbn [sweep]. destruct (of_step iter_of n first) eqn:Hfirst.
  - apply elem_of_cons in Hin as [->|Hin]; [apply elem_of_cons; now left|].
    apply elem_of_cons; right; apply IH; [cbn; lia|exact Hin].
  - apply elem_of_cons in Hin as [->|Hin]; [congruence|].
    destruct rest as [|next rest]; [now apply elem_of_nil in Hin|].
    apply elem_of_cons in Hin as [->|Hin]; [apply elem_of_cons; now left|].
    apply elem_of_cons; right; apply IH; [cbn; lia|exact Hin].
Qed.

(** X15.  [get_pdos_files] only removes files, keeps the order of those
    it leaves, and never removes a file of the step asked for (or a file
    that names no step). *)
Theorem get_pdos_files_keeps files n result :
  get_pdos_files iter_of (Some files) n = Some result ->
  sublist result files
  /\ forall file, file ∈ files -> of_step iter_of n file = true ->
                  file ∈ result.
Proof.
  rewrite get_pdos_files_sweep. intros [= <-]. split.
  - apply sweep_sublist.
  - intros file. apply sweep_keeps.
Qed.

(** X16.  The file that follows a removed file is not looked at: when no
    file is of the step asked for, every second file is left in the
    list. *)
Theorem get_pdos_files_every_other files n :
  Forall (fun file => of_step iter_of n file = false) files ->
  get_pdos_files iter_of (Some files) n = Some (every_other files).
Proof.
  intros Hall. rewrite get_pdos_files_sweep. f_equal.
  induction files as [files IH] using (induction_ltof1 _ (@length _));
    unfold ltof in *.
  destruct files as [|file [|next rest]]; [reflexivity|..].
  - cbn [sweep every_other]. now rewrite (Forall_inv Hall).
  - rewrite sweep_step by exact (Forall_inv Hall).
    cbn [every_other]. f_equal. apply IH; [cbn; lia|].
    now apply Forall_inv_tail, Forall_inv_tail in Hall.
Qed.

End GetPdosFilesFacts.

Lemma get_pdos_files_keeps_witness :
  sublist ["k1-1_5.pdos"; "k1-1_10.pdos"; "k2-1_10.pdos"; "k3.pdos"]
    ["k1-1_0.pdos"; "k1-1_5.pdos"; "k1-1_10.pdos"; "k2-1_10.pdos"; "k3.pdos"]
  /\ forall file,
       file ∈ ["k1-1_0.pdos"; "k1-1_5.pdos"; "k1-1_10.pdos"; "k2-1_10.pdos";
               "k3.pdos"] ->
       of_step example_iter (Some 10) file = true ->
       file ∈ ["k1-1_5.pdos"; "k1-1_10.pdos"; "k2-1_10.pdos"; "k3.pdos"].
Proof.
  apply (get_pdos_files_keeps example_iter
           ["k1-1_0.pdos"; "k1-1_5.pdos"; "k1-1_10.pdos"; "k2-1_10.pdos";
            "k3.pdos"] (Some 10)).
  reflexivity.
Defined.

Lemma get_pdos_files_every_other_witness :
  get_pdos_files example_iter
    (Some ["k1-1_0.pdos"; "k1-1_5.pdos"; "k1-1_10.pdos"; "k2-1_10.pdos"])
    (Some 20)
  = Some ["k1-1_5.pdos"; "k2-1_10.pdos"].
Proof.
  apply (get_pdos_files_every_other example_iter
           ["k1-1_0.pdos"; "k1-1_5.pdos"; "k1-1_10.pdos"; "k2-1_10.pdos"]
           (Some 20)).
  repeat constructor.
Defined.

End PdosFacts.

(** * The exchange-correlation functionals *)

Module XCFacts.

Import InpParser XC.

Lemma by_names_spec names : forall functionals self,
  by_names names functionals self
  = (Ok (functionals
         ++ flat_map (fun name =>
                        from_option id []
                          (dict_get _xc_functional_map (PyText.upper name)))
              names),
     {| objects := objects self;
        logger := logger self
                  ++ map (fun _ => "Cannot resolve xc functional")
                       (List.filter (fun name => negb (known name)) names) |}).
Proof.
  induction names as [|name names IH]; intros functionals self.
  - cbn. rewrite !app_nil_r. now destruct self.
  - cbn [by_names flat_map List.filter]. unfold known at 1.
    destruct (dict_get _xc_functional_map (PyText.upper name)) as [values|] eqn:Hn.
    + rewrite IH. cbn [from_option id]. rewrite app_assoc.
      rewrite bool_decide_eq_true_2 by eauto. reflexivity.
    + unfold mbind, M_bind, modify. rewrite IH.
      cbn [from_option id app objects logger log_error].
      rewrite bool_decide_eq_false_2 by (intros [? ?]; congruence).
      cbn [negb map]. now rewrite <- app_assoc.
Qed.

(** X17.  With a list of shortcut names, the functionals returned are
    those the map holds for the names put in capitals, in the order of the
    names; a name the map does not know is skipped with one error message;
    no weight is set or changed. *)
Theorem get_xc_functionals_shortcut names functional_values self :
  get_xc_functionals (Names names) functional_values self
  = (Ok (flat_map (fun name =>
                     from_option id []
                       (dict_get _xc_functional_map (PyText.upper name)))
           names),
     {| objects := objects self;
        logger := logger self
                  ++ map (fun _ => "Cannot resolve xc functional")
                       (List.filter (fun name => negb (known name)) names) |}).
Proof. exact (by_names_spec names [] self). Qed.

Lemma lookup_set_weight value w self :
  (value < length (objects self))%nat ->
  weight <$> objects (set_weight value w self) !! value = Some w.
Proof.
  intros Hv. unfold set_weight. cbn [objects].
  rewrite list_lookup_alter.
  destruct (lookup_lt_is_Some_2 _ _ Hv) as [o ->].
  destruct (decide (value = value)); [reflexivity|congruence].
Qed.

Lemma lookup_set_weight_ne value w self i :
  value <> i ->
  objects (set_weight value w self) !! i = objects self !! i.
Proof.
  intros Hv. unfold set_weight. cbn [objects].
  now rewrite list_lookup_alter_ne.
Qed.

Lemma length_set_weight value w self :
  length (objects (set_weight value w self)) = length (objects self).
Proof. unfold set_weight. cbn [objects]. apply length_alter. Qed.

(** The sections of one functional of the map. *)
Lemma by_sections_known name ids attrib self :
  dict_get _xc_functional_map (PyText.upper name) = Some ids ->
  by_sections [(name, DDict attrib)] [] self
  = (fun self' =>
       match set_weights (DDict attrib) 0 ids self' with
       | (Ok _, self'') => (Ok ids, self'')
       | (Raise e, self'') => (Raise e, self'')
       end)
      {| objects := objects self ++ [XCFunctionalProperty (PyText.upper name)];
         logger := logger self |}.
Proof.
  intros Hk. cbn [by_sections].
  assert (Hv : String.eqb (PyText.upper name) "VALUE" = false).
  { destruct (String.eqb_spec (PyText.upper name) "VALUE") as [He|]; [|reflexivity].
    rewrite He in Hk. discriminate. }
  rewrite Hv, Hk. cbn [from_option id].
  unfold mbind, M_bind, new_functional.
  destruct (set_weights (DDict attrib) 0 ids _) as [[[]|e] self'']; reflexivity.
Qed.

(** X18.  The functionals of the map are objects shared by all calls:
    the weights that a call for the sections of a functional stores in
    them are the weights that a later call for the shortcut of the same
    functional returns, the first functional with [SCALE_X] and the
    others with [SCALE_C] of the section. *)
Theorem xc_weights_are_shared name ids attrib self :
  dict_get _xc_functional_map (PyText.upper name) = Some ids ->
  (13 <= length (objects self))%nat ->
  let self1 := snd (get_xc_functionals NoValue [(name, DDict attrib)] self) in
  let '(r, self2) := get_xc_functionals (Name name) [] self1 in
  r = Ok ids
  /\ forall n i, ids !! n = Some i ->
       weight <$> objects self2 !! i
       = Some (attrib !! (if (n =? 0)%nat then "SCALE_X" else "SCALE_C")).
Proof.
  intros Hk Hlen self1.
  assert (Hn : String.eqb name "NO_SHORTCUT" = false).
  { destruct (String.eqb_spec name "NO_SHORTCUT") as [->|]; [|reflexivity].
    vm_compute in Hk. discriminate. }
  cbn [get_xc_functionals]. rewrite Hn, by_names_spec.
  cbn [flat_map]. rewrite Hk.
  cbn [from_option id app]. rewrite app_nil_r.
  split; [reflexivity|]. cbn [objects].
  subst self1. cbn [get_xc_functionals].
  rewrite (by_sections_known _ _ _ _ Hk).
  set (self0 := {| objects := objects self ++ [XCFunctionalProperty (PyText.upper name)];
                   logger := logger self |}).
  assert (Hlen0 : (13 <= length (objects self0))%nat).
  { unfold self0. cbn [objects]. rewrite List.length_app. lia. }
  clearbody self0. clear Hn Hlen self.
  revert Hk. unfold _xc_functional_map, dict_get.
  repeat match goal with
         | |- context [String.eqb ?k (PyText.upper name)] =>
             destruct (String.eqb k (PyText.upper name))
         end;
    intros [= <-]; intros n i Hi;
    (destruct n as [|[|n]]; cbn in Hi; [..|discriminate]);
    try discriminate; injection Hi as <-;
    cbn [set_weights dict_get_or_none Nat.eqb];
    unfold mbind, M_bind, lift, modify, mret, M_ret; cbn [snd];
    rewrite ?lookup_set_weight_ne by lia;
    apply lookup_set_weight; rewrite ?length_set_weight; lia.
Qed.

Lemma xc_weights_are_shared_witness :
  let attrib : gmap string dval := {["SCALE_X" := DStr "0.5"]} in
  let self1 := snd (get_xc_functionals NoValue [("blyp", DDict attrib)] initial) in
  let '(r, self2) := get_xc_functionals (Name "blyp") [] self1 in
  r = Ok [0; 1]%nat
  /\ forall n i, [0; 1]%nat !! n = Some i ->
       weight <$> objects self2 !! i
       = Some (attrib !! (if (n =? 0)%nat then "SCALE_X" else "SCALE_C")).
Proof.
  intros attrib.
  apply (xc_weights_are_shared "blyp" [0; 1]%nat attrib initial);
    [reflexivity | cbn; lia].
Defined.

End XCFacts.

(** * The calculations of a run *)

Section ConfigurationsFacts.

Context {World Scf Calc AtomicCoord Scc Sys File : Type}.
Context (methods : @Methods World Scf Calc AtomicCoord Scc Sys).
Context (around : @Surroundings World Calc File).

(** X19.  A geometry optimisation for which the output holds no
    optimisation step, but a final single point, cannot be parsed: once
    the calculations are parsed, the step number of the last optimisation
    step is read from an empty list, which raises [IndexError]. *)
Theorem geometry_optimization_without_steps quickstep go sp c :
  geometry_optimization quickstep = Some go ->
  optimization_step quickstep = [] ->
  single_point quickstep = Some sp ->
  truthy around sp = true ->
  fst (parse_calculations methods [Some go; Some sp] (run c)) = Ok tt ->
  fst (parse_configurations_quickstep methods around quickstep c)
  = Raise IndexError.
Proof.
  intros Hgo Hsteps Hsp Htruthy Hcalc.
  unfold parse_configurations_quickstep. rewrite Hgo, Hsteps, Hsp.
  cbn [map app is_truthy]. rewrite Htruthy.
  unfold mbind, M_bind, in_run.
  destruct (parse_calculations methods [Some go; Some sp] (run c)) as [r run'].
  cbn [fst] in Hcalc. subst r. reflexivity.
Qed.

End ConfigurationsFacts.

Lemma geometry_optimization_without_steps_witness :
  fst (parse_configurations_quickstep (Scenario.methods false)
         ConfigurationsScenario.around ConfigurationsScenario.quickstep
         ConfigurationsScenario.start)
  = Raise IndexError.
Proof.
  apply (geometry_optimization_without_steps (Scenario.methods false)
           ConfigurationsScenario.around ConfigurationsScenario.quickstep
           None None ConfigurationsScenario.start);
    reflexivity.
Defined.

(** * The atomic number of a kind *)

Module AtomsFacts.

Import Re Atoms.

(** X20.  Only the capital letter at the start of a label and the small
    letter that follows it, if one does, are looked up in the table of the
    elements: what comes after them is not read, and a second capital
    letter is not part of the symbol ([CU] is looked up as [C]). *)
Theorem get_atomic_number_label atomic_numbers symbol rest :
  is_symbol symbol rest = true ->
  get_atomic_number atomic_numbers (symbol +:+ rest) = atomic_numbers !! symbol.
Proof.
  intros Hs. unfold get_atomic_number, match_, _re_symbol, opt.
  destruct symbol as [|U [|l [|x symbol]]]; try discriminate; cbn [is_symbol] in Hs;
    apply andb_true_iff in Hs as [HU Hl].
  - rewrite InpParserFacts.run_group, InpParserFacts.run_seq.
    rewrite append_cons, append_empty_l, ReFacts.run_chars_cons, HU.
    cbn [run]. destruct rest as [|a rest].
    + unfold done. reflexivity.
    + cbn [stops] in Hl. apply negb_true_iff in Hl. rewrite Hl.
      unfold done.
      change (String U (String a rest)) with (String U "" +:+ String a rest).
      now rewrite InpParserFacts.consumed_app.
  - rewrite InpParserFacts.run_group, InpParserFacts.run_seq.
    rewrite !append_cons, append_empty_l, ReFacts.run_chars_cons, HU.
    cbn [run]. rewrite Hl. unfold done.
    change (String U (String l rest)) with (String U (String l "") +:+ rest).
    now rewrite InpParserFacts.consumed_app.
Qed.

Lemma get_atomic_number_label_witness :
  get_atomic_number {["C" := 6; "Cu" := 29]} "CU"
  = ({["C" := 6; "Cu" := 29]} : gmap string Z) !! "C"
  /\ get_atomic_number {["C" := 6; "Cu" := 29]} "Cu2"
     = ({["C" := 6; "Cu" := 29]} : gmap string Z) !! "Cu".
Proof.
  split.
  - apply (get_atomic_number_label {["C" := 6; "Cu" := 29]} "C" "U").
    reflexivity.
  - apply (get_atomic_number_label {["C" := 6; "Cu" := 29]} "Cu" "2").
    reflexivity.
Defined.

End AtomsFacts.

(** * The variables of the input file *)

Module InpVariables.

Import Re ReFacts InpParser InpParserFacts.

Lemma rstrip_snoc s b :
  space b = false -> PyStr.rstrip (s +:+ String b "") = s +:+ String b "".
Proof.
  intros Hb. unfold space in Hb. induction s as [|c s IH].
  - rewrite append_empty_l. cbn [PyStr.rstrip]. now rewrite Hb.
  - rewrite append_cons. cbn [PyStr.rstrip]. rewrite IH.
    destruct s as [|d s]; [now rewrite append_empty_l|now rewrite append_cons].
Qed.

(** A text that neither starts nor ends with a blank is its own [strip()]. *)
Lemma strip_between a s b :
  space a = false -> space b = false ->
  PyStr.strip (String a (s +:+ String b "")) = String a (s +:+ String b "").
Proof.
  intros Ha Hb. unfold PyStr.strip. cbn [PyStr.lstrip].
  unfold space in Ha. rewrite Ha. rewrite <- append_cons.
  now apply rstrip_snoc.
Qed.

(** The reference [${name}] is a value, free of the signs of the other
    kinds of lines. *)
Lemma reference_value name :
  is_name name = true ->
  is_value ("${" +:+ name +:+ "}") = true
  /\ free_of "@&" (("${" +:+ name +:+ "}") +:+ eol) = true.
Proof.
  intros Hn. pose proof Hn as Hn'. unfold is_name in Hn'.
  apply andb_true_iff in Hn' as [_ Hall].
  assert (Ht : is_text name = true).
  { revert Hall. apply all_chars_impl. intros c Hc.
    destruct (comment_or_eol c) eqn:He; [|reflexivity].
    now rewrite (end_not_word _ He) in Hc. }
  split.
  - change ("${" +:+ name +:+ "}") with (String "$" (String "{" (name +:+ "}"))).
    cbn [is_value]. unfold is_text in *. cbn [all_chars].
    rewrite all_chars_app, Ht. reflexivity.
  - rewrite !InpTree.free_of_app. cbn [free_of].
    now rewrite (name_free _ "@" Hn eq_refl), (name_free _ "&" Hn eq_refl).
Qed.

(** A line that sets a variable *)
Lemma variable_line indent name sep v tail st :
  all_chars blank indent = true ->
  is_name name = true -> is_blanks sep = true -> is_value v = true ->
  line_end tail = true ->
  tree_line (indent +:+ "@SET " +:+ name +:+ sep +:+ v +:+ tail) st
  = Ok (set_variable name v st).
Proof.
  intros Hi Hn Hs Hv Ht. unfold tree_line.
  change ("@SET " +:+ name +:+ sep +:+ v +:+ tail)
    with (String "@" ("SET " +:+ name +:+ sep +:+ v +:+ tail)).
  rewrite (line_is_read indent "@" _ Hi eq_refl eq_refl).
  change (String "@" ("SET " +:+ name +:+ sep +:+ v +:+ tail))
    with ("@SET " +:+ name +:+ sep +:+ v +:+ tail).
  rewrite (search_indent _re_variable indent).
  - now rewrite (search_found _ _ _ (match_variable name sep v tail Hn Hs Hv Ht)).
  - intros c s' Hc. unfold match_, _re_variable. apply run_lit_head.
    destruct (Ascii.eqb_spec "@" c) as [<-|]; [discriminate|reflexivity].
  - exact Hi.
Qed.

(** X21.  A variable set by a line [@SET] stands for its stripped value in
    a later keyword line whose value is the reference [${name}] alone: the
    keyword is stored with the value of the variable, which goes through
    [override] as a value of the line would. *)
Theorem tree_variable_substitution name value key sep st :
  is_name name = true -> is_value value = true ->
  is_name key = true -> is_blanks sep = true ->
  tree_lines [ "@SET " +:+ name +:+ " " +:+ value +:+ eol;
               key +:+ sep +:+ ("${" +:+ name +:+ "}") +:+ eol ] st
  = (top ← Py.getitem (sections st) (-1);
     let '(k, x) := override (from_option _name "" (heap st !! top))
                      (key, PyStr.strip value) in
     Ok {| heap := add_to top k (InpValue.Keyword x) (heap st);
           sections := sections st;
           _variables :=
             <["${" +:+ name +:+ "}" := PyStr.strip value]> (_variables st) |}).
Proof.
  intros Hn Hv Hk Hs. destruct (reference_value name Hn) as [Hr Hf].
  assert (H1 : tree_line ("@SET " +:+ name +:+ " " +:+ value +:+ eol) st
               = Ok (set_variable name value st))
    by exact (variable_line "" name " " value eol st eq_refl Hn eq_refl Hv
                eq_refl).
  assert (H2 : forall st',
             tree_line (key +:+ sep +:+ ("${" +:+ name +:+ "}") +:+ eol) st'
             = store_keyword key ("${" +:+ name +:+ "}") st')
    by exact (fun st' => keyword_line "" key sep ("${" +:+ name +:+ "}") eol
                           st' eq_refl Hk Hs Hr eq_refl Hf).
  cbn [tree_lines]. rewrite H1. cbn [mbind result_bind]. rewrite H2.
  unfold store_keyword, set_variable. cbn [heap sections _variables].
  change ("${" +:+ name +:+ "}") with (String "$" (String "{" name +:+ String "}" "")).
  rewrite (strip_between "$" (String "{" name) "}" eq_refl eq_refl).
  rewrite lookup_insert_eq. cbn [from_option id].
  destruct (Py.getitem (sections st) (-1)) as [top|e]; [|reflexivity].
  cbn [mbind result_bind].
  now destruct (override (from_option _name "" (heap st !! top))
                  (key, PyStr.strip value)).
Qed.

Lemma tree_variable_substitution_witness :
  tree_lines [ "@SET " +:+ "BASIS" +:+ " " +:+ "DZVP-MOLOPT " +:+ eol;
               "BASIS_SET" +:+ "  " +:+ ("${" +:+ "BASIS" +:+ "}") +:+ eol ]
    initial
  = Ok {| heap := [{| _name := "tree";
                      _data := {["BASIS_SET" := InpValue.Keyword "DZVP-MOLOPT"]} |}];
          sections := [0%nat];
          _variables := {["${BASIS}" := "DZVP-MOLOPT"]} |}.
Proof.
  rewrite (tree_variable_substitution "BASIS" "DZVP-MOLOPT " "BASIS_SET" "  "
             initial eq_refl eq_refl eq_refl eq_refl).
  vm_compute. reflexivity.
Defined.

End InpVariables.
